(** * x402 seller middleware: stores, registry and payment gate

    A shallow embedding of the Go package [x402] (budget store, idempotency
    store, metering store, session validation, scheme registry and the
    payment-gate middlewares) together with the properties stated about them.

    Conventions of the embedding:
    - a Go [int64] is a [Z]; every arithmetic operation of the source is
      followed by [wrap64], the two's-complement wrap-around of the machine;
    - a Go [string] is a [string] (a sequence of bytes), [len] is
      [String.length] and slicing is [substring];
    - a [time.Time] is the instant it denotes, a [Z]; [t.After u] is [u < t];
      the instant returned by [time.Now()] is an explicit argument [now] of
      the store operations and the [clock] of the world for a middleware;
    - a Go [error] is an [option string]: [None] is [nil], [Some msg] is an
      error whose message is [msg];
    - a Go map is a [gmap]; a pointer to a struct is a location [loc] into a
      finite map of objects, so that two pointers to one struct alias;
    - a function that dereferences a pointer returns [None] when the location
      holds no object (the Go program panics on a nil pointer). *)

From Stdlib Require Import Strings.Ascii.
From stdpp Require Import base numbers strings list gmap pretty.

Local Open Scope Z_scope.

#[local] Set Warnings "-register-all".

(** * Machine integers *)

Definition min_int64 : Z := - 2 ^ 63.
Definition max_int64 : Z := 2 ^ 63 - 1.

(** The value of a 64-bit signed computation whose exact result is [z]. *)
Definition wrap64 (z : Z) : Z := (z + 2 ^ 63) `mod` 2 ^ 64 - 2 ^ 63.

Definition is_int64 (z : Z) : Prop := min_int64 ≤ z ≤ max_int64.

(** Pointers. *)
Definition loc := positive.

(** [hex.EncodeToString]: two lower-case hexadecimal digits per byte. *)
Module hex.

Definition hextable : string := "0123456789abcdef".

Definition digit (n : N) : ascii :=
  default "0"%char (String.get (N.to_nat n) hextable).

Fixpoint EncodeToString (src : list N) : string :=
  match src with
  | [] => ""
  | v :: rest =>
      String (digit (N.shiftr v 4))
        (String (digit (N.land v 15)) (EncodeToString rest))
  end.

End hex.

(** * Pre-authorized budgets *)

Module PreAuth.

Record PreAuthBudget := mkBudget {
  ID : string;
  AgentID : string;
  WalletAddress : string;
  TotalBudget : Z;
  Remaining : Z;
  Currency : string;
  CreatedAt : Z;
  ExpiresAt : Z;
  Metadata : gmap string string;
  TotalSpent : Z;
  RequestCount : Z
}.

Definition with_ID (v : string) (b : PreAuthBudget) : PreAuthBudget :=
  mkBudget v (AgentID b) (WalletAddress b) (TotalBudget b) (Remaining b)
    (Currency b) (CreatedAt b) (ExpiresAt b) (Metadata b) (TotalSpent b)
    (RequestCount b).

Definition with_CreatedAt (v : Z) (b : PreAuthBudget) : PreAuthBudget :=
  mkBudget (ID b) (AgentID b) (WalletAddress b) (TotalBudget b) (Remaining b)
    (Currency b) v (ExpiresAt b) (Metadata b) (TotalSpent b) (RequestCount b).

Definition with_Remaining (v : Z) (b : PreAuthBudget) : PreAuthBudget :=
  mkBudget (ID b) (AgentID b) (WalletAddress b) (TotalBudget b) v
    (Currency b) (CreatedAt b) (ExpiresAt b) (Metadata b) (TotalSpent b)
    (RequestCount b).

Definition with_TotalSpent (v : Z) (b : PreAuthBudget) : PreAuthBudget :=
  mkBudget (ID b) (AgentID b) (WalletAddress b) (TotalBudget b) (Remaining b)
    (Currency b) (CreatedAt b) (ExpiresAt b) (Metadata b) v (RequestCount b).

Definition with_RequestCount (v : Z) (b : PreAuthBudget) : PreAuthBudget :=
  mkBudget (ID b) (AgentID b) (WalletAddress b) (TotalBudget b) (Remaining b)
    (Currency b) (CreatedAt b) (ExpiresAt b) (Metadata b) (TotalSpent b) v.

(** [InMemoryPreAuthStore]: the two maps of the Go struct, and [objects], the
    [PreAuthBudget] values that the pointers kept in [budgets] (and the
    pointers held by callers) refer to. *)
Record InMemoryPreAuthStore := mkStore {
  objects : gmap loc PreAuthBudget;
  budgets : gmap string loc;
  byAgent : gmap string string
}.

Definition NewInMemoryPreAuthStore : InMemoryPreAuthStore :=
  mkStore ∅ ∅ ∅.

Definition set_object (p : loc) (b : PreAuthBudget)
    (s : InMemoryPreAuthStore) : InMemoryPreAuthStore :=
  mkStore (<[p := b]> (objects s)) (budgets s) (byAgent s).

(** [&PreAuthBudget{...}]: a fresh object holding [b]. *)
Definition new_budget (b : PreAuthBudget) (s : InMemoryPreAuthStore)
    : loc * InMemoryPreAuthStore :=
  let p := fresh (dom (objects s)) in (p, set_object p b s).

Definition generateBudgetID : string :=
  "budget_" +:+ hex.EncodeToString (replicate 16 0%N).

Definition Create (s : InMemoryPreAuthStore) (now : Z) (budget : loc)
    : option (InMemoryPreAuthStore * option string) :=
  b ← objects s !! budget;
  let b1 := if decide (ID b = "") then with_ID generateBudgetID b else b in
  let b2 := with_CreatedAt now b1 in
  let b3 := with_Remaining (TotalBudget b2) b2 in
  let byAgent' :=
    if decide (AgentID b3 = "") then byAgent s
    else <[AgentID b3 := ID b3]> (byAgent s) in
  Some (mkStore (<[budget := b3]> (objects s))
                (<[ID b3 := budget]> (budgets s)) byAgent', None).

Definition Get (s : InMemoryPreAuthStore) (id : string)
    : option loc * option string :=
  match budgets s !! id with
  | None => (None, Some "budget not found")
  | Some p => (Some p, None)
  end.

Definition GetByAgentID (s : InMemoryPreAuthStore) (agentID : string)
    : option loc * option string :=
  match byAgent s !! agentID with
  | None => (None, Some "no budget for agent")
  | Some budgetID => (budgets s !! budgetID, None)
  end.

Definition Deduct (s : InMemoryPreAuthStore) (id : string) (amount : Z)
    : option (InMemoryPreAuthStore * option string) :=
  match budgets s !! id with
  | None => Some (s, Some "budget not found")
  | Some p =>
      b ← objects s !! p;
      if decide (Remaining b < amount) then Some (s, Some "insufficient budget")
      else
        let b1 := with_Remaining (wrap64 (Remaining b - amount)) b in
        let b2 := with_TotalSpent (wrap64 (TotalSpent b1 + amount)) b1 in
        let b3 := with_RequestCount (wrap64 (RequestCount b2 + 1)) b2 in
        Some (set_object p b3 s, None)
  end.

Definition Refund (s : InMemoryPreAuthStore) (id : string) (amount : Z)
    : option (InMemoryPreAuthStore * option string) :=
  match budgets s !! id with
  | None => Some (s, Some "budget not found")
  | Some p =>
      b ← objects s !! p;
      let b1 := with_Remaining (wrap64 (Remaining b + amount)) b in
      let b2 := with_TotalSpent (wrap64 (TotalSpent b1 - amount)) b1 in
      Some (set_object p b2 s, None)
  end.

Definition Delete (s : InMemoryPreAuthStore) (id : string)
    : option (InMemoryPreAuthStore * option string) :=
  match budgets s !! id with
  | Some p =>
      b ← objects s !! p;
      let byAgent' :=
        if decide (AgentID b = "") then byAgent s
        else delete (AgentID b) (byAgent s) in
      Some (mkStore (objects s) (delete id (budgets s)) byAgent', None)
  | None => Some (mkStore (objects s) (delete id (budgets s)) (byAgent s), None)
  end.

(** The budget a store holds under an identifier, read through the pointer. *)
Definition budget_of (s : InMemoryPreAuthStore) (id : string)
    : option PreAuthBudget :=
  p ← budgets s !! id; objects s !! p.

(** A sequence of operations on one budget. *)
Inductive op := OpDeduct (amount : Z) | OpRefund (amount : Z).

Definition apply_op (s : InMemoryPreAuthStore) (id : string) (o : op)
    : option (InMemoryPreAuthStore * option string) :=
  match o with
  | OpDeduct a => Deduct s id a
  | OpRefund a => Refund s id a
  end.

Fixpoint run (s : InMemoryPreAuthStore) (id : string) (ops : list op)
    : option InMemoryPreAuthStore :=
  match ops with
  | [] => Some s
  | o :: rest => '(s', _) ← apply_op s id o; run s' id rest
  end.

(** Refund-balanced sequences. [out] lists the amounts of the successful
    deductions that no refund has been matched with yet; a refund of [a] is
    matched with one of them equal to [a], which it uses up. *)
Fixpoint remove_one (a : Z) (out : list Z) : list Z :=
  match out with
  | [] => []
  | x :: rest => if decide (x = a) then rest else x :: remove_one a rest
  end.

Fixpoint balanced (s : InMemoryPreAuthStore) (id : string) (out : list Z)
    (ops : list op) : Prop :=
  match ops with
  | [] => True
  | OpDeduct a :: rest =>
      0 ≤ a ∧
      match Deduct s id a with
      | Some (s', None) => balanced s' id (a :: out) rest
      | Some (s', Some _) => balanced s' id out rest
      | None => False
      end
  | OpRefund a :: rest =>
      0 ≤ a ∧ a ∈ out ∧
      match Refund s id a with
      | Some (s', _) => balanced s' id (remove_one a out) rest
      | None => False
      end
  end.

Definition total (l : list Z) : Z := foldr Z.add 0 l.

Definition amount_of (o : op) : Z :=
  match o with OpDeduct a => a | OpRefund a => a end.

(** The sum of the amounts refunded by a sequence. *)
Fixpoint refunded (ops : list op) : Z :=
  match ops with
  | [] => 0
  | OpDeduct _ :: rest => refunded rest
  | OpRefund a :: rest => a + refunded rest
  end.

(** A budget as a caller builds it before [Create], and the store that holds
    only that object. *)
Definition budget_literal (id agent : string) (total : Z) : PreAuthBudget :=
  mkBudget id agent "0xabc" total 0 "USDC" 0 0 ∅ 0 0.

Definition allocated (total : Z) : loc * InMemoryPreAuthStore :=
  new_budget (budget_literal "" "agent" total) NewInMemoryPreAuthStore.

(** A store holding one budget of total [total], as [Create] leaves it. *)
Definition created (total : Z) (now : Z)
    : option (InMemoryPreAuthStore * string) :=
  let '(p, s) :=
    new_budget (mkBudget "" "agent" "0xabc" total 0 "USDC" 0 0 ∅ 0 0)
      NewInMemoryPreAuthStore in
  '(s', _) ← Create s now p;
  b ← objects s' !! p;
  Some (s', ID b).

End PreAuth.

(** * Encodings *)

(** The values handed to [encoding/json]. A struct is a [JObject] with its
    fields in declaration order (fields tagged [omitempty] are left out by the
    functions that build it); a [map[string]string] is a [JStringMap], whose
    keys the encoder sorts. The rendering to bytes is the library's and is a
    parameter [Marshal] of the definitions that send JSON. *)
Module json.

Inductive value :=
  | JNull
  | JBool (b : bool)
  | JNumber (z : Z)
  | JString (s : string)
  | JArray (l : list value)
  | JObject (fields : list (string * value))
  | JStringMap (m : gmap string string).

(** A field tagged [omitempty]. *)
Definition omitempty (empty : bool) (k : string) (v : value)
    : list (string * value) :=
  if empty then [] else [(k, v)].

Definition string_empty (s : string) : bool := bool_decide (s = "").

End json.

(** [base64.StdEncoding.EncodeToString]. *)
Module base64.

Definition encodeStd : string :=
  "ABCDEFGHIJKLMNOPQRSTUVWXYZabcdefghijklmnopqrstuvwxyz0123456789+/".

Definition sextet (v : N) (shift : N) : ascii :=
  default "="%char
    (String.get (N.to_nat (N.land (N.shiftr v shift) 63)) encodeStd).

Fixpoint encode (src : list N) : string :=
  match src with
  | [] => ""
  | [a] =>
      let v := N.shiftl a 16 in
      String (sextet v 18) (String (sextet v 12) "==")
  | [a; b] =>
      let v := N.lor (N.shiftl a 16) (N.shiftl b 8) in
      String (sextet v 18) (String (sextet v 12) (String (sextet v 6) "="))
  | a :: b :: c :: rest =>
      let v := N.lor (N.lor (N.shiftl a 16) (N.shiftl b 8)) c in
      String (sextet v 18) (String (sextet v 12)
        (String (sextet v 6) (String (sextet v 0) (encode rest))))
  end.

Definition bytes (s : string) : list N :=
  N_of_ascii <$> String.list_ascii_of_string s.

Definition EncodeToString (s : string) : string := encode (bytes s).

End base64.

(** * HTTP *)

Module http.

Definition StatusOK : Z := 200.
Definition StatusUnauthorized : Z := 401.
Definition StatusPaymentRequired : Z := 402.
Definition StatusBadRequest : Z := 400.
Definition StatusNotFound : Z := 404.
Definition StatusTooManyRequests : Z := 429.
Definition StatusInternalServerError : Z := 500.

(** A header set with one value per name; names are taken up to the canonical
    form of [net/http]. [Get] of an absent name is the empty string. *)
Abbreviation Header := (gmap string string).

Definition Get (h : Header) (k : string) : string := default "" (h !! k).

(** [Query] is [r.URL.Query()]. *)
Record Request := mkRequest {
  Method : string;
  Path : string;
  RawQuery : string;
  ReqHeader : Header;
  Query : gmap string string
}.

Definition with_ReqHeader (h : Header) (r : Request) : Request :=
  mkRequest (Method r) (Path r) (RawQuery r) h (Query r).

(** The response being written: [status] is [None] until the status line is
    sent. *)
Record ResponseWriter := mkWriter {
  header : Header;
  status : option Z;
  body : string
}.

Definition NewRecorder : ResponseWriter := mkWriter ∅ None "".

Definition SetHeader (k v : string) (w : ResponseWriter) : ResponseWriter :=
  mkWriter (<[k := v]> (header w)) (status w) (body w).

(** A second [WriteHeader] is ignored by [net/http]. *)
Definition WriteHeader (code : Z) (w : ResponseWriter) : ResponseWriter :=
  match status w with
  | None => mkWriter (header w) (Some code) (body w)
  | Some _ => w
  end.

(** [Write] sends status 200 first when no status was sent. *)
Definition Write (b : string) (w : ResponseWriter) : ResponseWriter :=
  mkWriter (header w) (Some (default StatusOK (status w))) (body w +:+ b).

(** What a handler does to the writer it is given. *)
Inductive action :=
  | ASet (k v : string)
  | AWriteHeader (code : Z)
  | AWrite (b : string).

Definition perform (w : ResponseWriter) (a : action) : ResponseWriter :=
  match a with
  | ASet k v => SetHeader k v w
  | AWriteHeader code => WriteHeader code w
  | AWrite b => Write b w
  end.

(** A handler over a world [W]: from the world, the writer as it stands and
    the request, the new world and the calls made on the writer, in order. *)
Definition Handler (W : Type) : Type :=
  W → ResponseWriter → Request → W * list action.

Definition ServeHTTP {W} (next : Handler W) (st : W) (w : ResponseWriter)
    (r : Request) : W * ResponseWriter :=
  let '(st', acts) := next st w r in (st', foldl perform w acts).

End http.

(** [strings.HasPrefix], [strings.TrimPrefix] and slicing. *)
Module strings.

Definition len (s : string) : nat := String.length s.

(** [s[i:j]] for [i ≤ j ≤ len s]. *)
Definition slice (s : string) (i j : nat) : string :=
  String.substring i (j - i) s.

Definition HasPrefix (s prefix : string) : bool := String.prefix prefix s.

Definition TrimPrefix (s prefix : string) : string :=
  if HasPrefix s prefix then slice s (len prefix) (len s) else s.

End strings.

(** [time]: instants and durations in nanoseconds; instant 0 is the zero
    [time.Time]. *)
Module time.

Definition Second : Z := 1000000000.
Definition Hour : Z := 3600 * Second.

Definition After (t u : Z) : bool := bool_decide (u < t).
Definition Before (t u : Z) : bool := bool_decide (t < u).
Definition IsZero (t : Z) : bool := bool_decide (t = 0).
Definition Add (t d : Z) : Z := t + d.

(** [d.Milliseconds()]: integer division truncates toward zero. *)
Definition Milliseconds (d : Z) : Z := d ÷ 1000000.

End time.

(** * Idempotency store *)

Module Idempotency.

Record IdempotencyRecord := mkRecord {
  Key : string;
  StatusCode : Z;
  Headers : gmap string string;
  Body : string;
  CreatedAt : Z;
  ExpiresAt : Z
}.

Definition with_Key (v : string) (r : IdempotencyRecord) :=
  mkRecord v (StatusCode r) (Headers r) (Body r) (CreatedAt r) (ExpiresAt r).

Definition with_CreatedAt (v : Z) (r : IdempotencyRecord) :=
  mkRecord (Key r) (StatusCode r) (Headers r) (Body r) v (ExpiresAt r).

Definition with_ExpiresAt (v : Z) (r : IdempotencyRecord) :=
  mkRecord (Key r) (StatusCode r) (Headers r) (Body r) (CreatedAt r) v.

(** The map of the Go struct and the records its pointers refer to. *)
Record InMemoryIdempotencyStore := mkStore {
  objects : gmap loc IdempotencyRecord;
  records : gmap string loc
}.

Definition NewInMemoryIdempotencyStore : InMemoryIdempotencyStore :=
  mkStore ∅ ∅.

(** [&IdempotencyRecord{...}] *)
Definition new_record (r : IdempotencyRecord) (s : InMemoryIdempotencyStore)
    : loc * InMemoryIdempotencyStore :=
  let p := fresh (dom (objects s)) in
  (p, mkStore (<[p := r]> (objects s)) (records s)).

Definition Get (s : InMemoryIdempotencyStore) (now : Z) (key : string)
    : option (option loc * option string) :=
  match records s !! key with
  | None => Some (None, None)
  | Some p =>
      record ← objects s !! p;
      if time.After now (ExpiresAt record) then Some (None, None)
      else Some (Some p, None)
  end.

(** [Set] of the source ([Set] is reserved in Rocq). *)
Definition Set_ (s : InMemoryIdempotencyStore) (now : Z) (key : string)
    (record : loc) : option (InMemoryIdempotencyStore * option string) :=
  r ← objects s !! record;
  let r1 := with_Key key r in
  let r2 := with_CreatedAt now r1 in
  let r3 :=
    if time.IsZero (ExpiresAt r2)
    then with_ExpiresAt (time.Add now (24 * time.Hour)) r2 else r2 in
  Some (mkStore (<[record := r3]> (objects s)) (<[key := record]> (records s)),
        None).

Definition Delete (s : InMemoryIdempotencyStore) (key : string)
    : InMemoryIdempotencyStore * option string :=
  (mkStore (objects s) (delete key (records s)), None).

(** What [Get] hands back, read through the pointer. *)
Definition lookup_record (s : InMemoryIdempotencyStore) (now : Z)
    (key : string) : option IdempotencyRecord :=
  '(p, _) ← Get s now key; q ← p; objects s !! q.

End Idempotency.

(** * Metering store *)

Module Metering.

Record UsageMetric := mkMetric {
  Timestamp : Z;
  Endpoint : string;
  Method : string;
  PayerID : string;
  AmountPaid : Z;
  Currency : string;
  ResponseCode : Z;
  Latency : Z;
  PaymentType : string;
  SessionID : string;
  UserAgent : string;
  IsAIAgent : bool
}.

Record InMemoryMeteringStore := mkStore {
  metrics : list UsageMetric;
  maxSize : Z;
  currency : string
}.

Definition NewInMemoryMeteringStore (maxSize : Z) (currency : string)
    : InMemoryMeteringStore :=
  let maxSize := if decide (maxSize ≤ 0) then 100000 else maxSize in
  let currency := if decide (currency = "") then "USDC" else currency in
  mkStore [] maxSize currency.

(** [s.metrics[1:]] panics on an empty slice. *)
Definition RecordRequest (s : InMemoryMeteringStore) (metric : UsageMetric)
    : option (InMemoryMeteringStore * option string) :=
  metrics1 ←
    (if decide (maxSize s ≤ Z.of_nat (length (metrics s)))
     then match metrics s with
          | [] => None
          | _ :: rest => Some rest
          end
     else Some (metrics s));
  Some (mkStore (metrics1 ++ [metric]) (maxSize s) (currency s), None).

(** A sequence of [RecordRequest] calls. *)
Fixpoint record_all (s : InMemoryMeteringStore) (ms : list UsageMetric)
    : option InMemoryMeteringStore :=
  match ms with
  | [] => Some s
  | m :: rest => '(s', _) ← RecordRequest s m; record_all s' rest
  end.

End Metering.

(** * Sessions *)

Module Session.

Definition SessionTypeTime : string := "time".
Definition SessionTypeRequests : string := "requests".
Definition SessionTypeUnlimited : string := "unlimited".

Record Session := mkSession {
  ID : string;
  PayerAddress : string;
  CreatedAt : Z;
  ExpiresAt : Z;
  SessionType : string;
  MaxRequests : Z;
  UsedRequests : Z;
  AmountPaid : Z;
  Currency : string;
  AllowedEndpoints : list string;
  Metadata : gmap string string;
  Active : bool
}.

Definition with_ID (v : string) (x : Session) : Session :=
  mkSession v (PayerAddress x) (CreatedAt x) (ExpiresAt x) (SessionType x)
    (MaxRequests x) (UsedRequests x) (AmountPaid x) (Currency x)
    (AllowedEndpoints x) (Metadata x) (Active x).

Definition with_CreatedAt (v : Z) (x : Session) : Session :=
  mkSession (ID x) (PayerAddress x) v (ExpiresAt x) (SessionType x)
    (MaxRequests x) (UsedRequests x) (AmountPaid x) (Currency x)
    (AllowedEndpoints x) (Metadata x) (Active x).

Definition with_Active (v : bool) (x : Session) : Session :=
  mkSession (ID x) (PayerAddress x) (CreatedAt x) (ExpiresAt x)
    (SessionType x) (MaxRequests x) (UsedRequests x) (AmountPaid x)
    (Currency x) (AllowedEndpoints x) (Metadata x) v.

Definition with_UsedRequests (v : Z) (x : Session) : Session :=
  mkSession (ID x) (PayerAddress x) (CreatedAt x) (ExpiresAt x)
    (SessionType x) (MaxRequests x) v (AmountPaid x) (Currency x)
    (AllowedEndpoints x) (Metadata x) (Active x).

(** The map of the Go struct and the sessions its pointers refer to. *)
Record InMemorySessionStore := mkStore {
  objects : gmap loc Session;
  sessions : gmap string loc
}.

Definition NewInMemorySessionStore : InMemorySessionStore := mkStore ∅ ∅.

(** [&Session{...}] *)
Definition new_session (x : Session) (s : InMemorySessionStore)
    : loc * InMemorySessionStore :=
  let p := fresh (dom (objects s)) in
  (p, mkStore (<[p := x]> (objects s)) (sessions s)).

(** [random] is the 16 bytes read from [crypto/rand]. *)
Definition generateSessionID (random : list N) : string :=
  "sess_" +:+ hex.EncodeToString random.

Definition CreateSession (s : InMemorySessionStore) (now : Z)
    (random : list N) (session : loc)
    : option (InMemorySessionStore * option string) :=
  x ← objects s !! session;
  let x1 :=
    if decide (ID x = "") then with_ID (generateSessionID random) x else x in
  let x2 := with_CreatedAt now x1 in
  let x3 := with_Active true x2 in
  Some (mkStore (<[session := x3]> (objects s))
                (<[ID x3 := session]> (sessions s)), None).

Definition GetSession (s : InMemorySessionStore) (id : string)
    : option loc * option string :=
  match sessions s !! id with
  | None => (None, Some "session not found")
  | Some p => (Some p, None)
  end.

Definition UpdateSession (s : InMemorySessionStore) (session : loc)
    : option (InMemorySessionStore * option string) :=
  x ← objects s !! session;
  match sessions s !! ID x with
  | None => Some (s, Some "session not found")
  | Some _ =>
      Some (mkStore (objects s) (<[ID x := session]> (sessions s)), None)
  end.

Definition DeleteSession (s : InMemorySessionStore) (id : string)
    : InMemorySessionStore * option string :=
  (mkStore (objects s) (delete id (sessions s)), None).

Definition matchesPattern (path pattern : string) : bool :=
  if decide (pattern = "*" ∨ pattern = "/*") then true
  else if bool_decide (2 < strings.len pattern)%nat
          && bool_decide (strings.slice pattern (strings.len pattern - 2)
                            (strings.len pattern) = "/*")
  then
    let prefix := strings.slice pattern 0 (strings.len pattern - 2) in
    bool_decide (strings.len prefix ≤ strings.len path)%nat
    && bool_decide (strings.slice path 0 (strings.len prefix) = prefix)
  else bool_decide (path = pattern).

Definition validateSession (session : Session) (now : Z) (path : string)
    : option string :=
  if negb (Active session) then Some "session is inactive"
  else if time.After now (ExpiresAt session) then Some "session has expired"
  else if bool_decide (SessionType session = SessionTypeRequests)
          && bool_decide (MaxRequests session ≤ UsedRequests session)
  then Some "session request limit exceeded"
  else if bool_decide (0 < length (AllowedEndpoints session))%nat
          && negb (existsb
                     (λ endpoint, bool_decide (path = endpoint)
                                  || matchesPattern path endpoint)
                     (AllowedEndpoints session))
  then Some "endpoint not allowed for this session"
  else None.

Fixpoint formatInt64_loop (fuel : nat) (n : Z) (digits : string) : string :=
  match fuel with
  | O => digits
  | S fuel' =>
      if decide (0 < n)
      then formatInt64_loop fuel' (n ÷ 10)
             (String (ascii_of_N (Z.to_N (48 + n `rem` 10))) digits)
      else digits
  end.

(** An [int64] has at most 19 decimal digits. *)
Definition formatInt64 (n : Z) : string :=
  if decide (n < 0) then "0"
  else if decide (n = 0) then "0"
  else formatInt64_loop 19 n "".

End Session.

(** * The world a request runs in

    The stores of the process, the instant read by [time.Now()] and the state
    [app] of the application behind the middleware. The code of a middleware
    runs at one instant; a handler may let time pass. *)
Record World (A : Type) := mkWorld {
  clock : Z;
  budgetStore : PreAuth.InMemoryPreAuthStore;
  idempotencyStore : Idempotency.InMemoryIdempotencyStore;
  sessionStore : Session.InMemorySessionStore;
  app : A
}.
Arguments mkWorld {A} _ _ _ _ _.
Arguments clock {A} _.
Arguments budgetStore {A} _.
Arguments idempotencyStore {A} _.
Arguments sessionStore {A} _.
Arguments app {A} _.

Definition with_budgetStore {A} (v : PreAuth.InMemoryPreAuthStore)
    (st : World A) : World A :=
  mkWorld (clock st) v (idempotencyStore st) (sessionStore st) (app st).

Definition with_idempotencyStore {A}
    (v : Idempotency.InMemoryIdempotencyStore) (st : World A) : World A :=
  mkWorld (clock st) (budgetStore st) v (sessionStore st) (app st).

Definition with_sessionStore {A} (v : Session.InMemorySessionStore)
    (st : World A) : World A :=
  mkWorld (clock st) (budgetStore st) (idempotencyStore st) v (app st).

(** * Session middleware *)

Module SessionGate.
Import Session.

Section middleware.
Context {A : Type}.
(** [encoding/json] and the formatting functions of [time]. *)
Variable Marshal : json.value → string.
Variable FormatRFC3339 : Z → string.
Variable RoundedDurationString : Z → string.

Definition formatSessionRemaining (now : Z) (session : Session) : string :=
  if decide (SessionType session = SessionTypeRequests) then
    let remaining := wrap64 (MaxRequests session - UsedRequests session) in
    formatInt64 remaining +:+ " requests"
  else if decide (SessionType session = SessionTypeTime) then
    RoundedDurationString (ExpiresAt session - now)
  else "unlimited".

Definition sendSessionError (w : http.ResponseWriter) (code message : string)
    : http.ResponseWriter :=
  let w := http.SetHeader "Content-Type" "application/json" w in
  let w := http.WriteHeader http.StatusUnauthorized w in
  http.Write
    (Marshal (json.JStringMap {[ "error" := code; "message" := message ]})
     +:+ String "010"%char EmptyString) w.

(** [config.Store] is the session store of the world; the middleware reads
    no other field of its configuration. *)
Definition SessionMiddleware (next : http.Handler (World A))
    (st : World A) (w : http.ResponseWriter) (r : http.Request)
    : option (World A * http.ResponseWriter) :=
  let sessionID := http.Get (http.ReqHeader r) "X-Session-ID" in
  if decide (sessionID = "") then Some (http.ServeHTTP next st w r)
  else
    match GetSession (sessionStore st) sessionID with
    | (_, Some _) =>
        Some (st, sendSessionError w "invalid_session"
                    "Session not found or invalid")
    | (session, None) =>
        p ← session;
        session ← objects (sessionStore st) !! p;
        match validateSession session (clock st) (http.Path r) with
        | Some err => Some (st, sendSessionError w "session_error" err)
        | None =>
            store1 ←
              (if decide (SessionType session = SessionTypeRequests) then
                 let session1 :=
                   with_UsedRequests (wrap64 (UsedRequests session + 1))
                     session in
                 let store :=
                   mkStore (<[p := session1]> (objects (sessionStore st)))
                           (sessions (sessionStore st)) in
                 fst <$> UpdateSession store p
               else Some (sessionStore st));
            session2 ← objects store1 !! p;
            let st1 := with_sessionStore store1 st in
            let w := http.SetHeader "X-Session-Remaining"
                       (formatSessionRemaining (clock st) session2) w in
            let w := http.SetHeader "X-Session-Expires"
                       (FormatRFC3339 (ExpiresAt session2)) w in
            Some (http.ServeHTTP next st1 w r)
        end
    end.

End middleware.
End SessionGate.

(** * The 402 response of the protocol *)

Module Protocol.

Definition X402Version : Z := 1.

Record PaymentRequirements := mkRequirements {
  Scheme : string;
  Network : string;
  MaxAmountRequired : string;
  Resource : string;
  Description : string;
  MimeType : string;
  PayTo : string;
  MaxTimeoutSeconds : Z;
  Asset : string;
  OutputSchema : json.value;
  Extra : gmap string string
}.

Record PaymentRequiredResponse := mkResponse {
  RespX402Version : Z;
  Accepts : list PaymentRequirements;
  Error : string
}.

Definition requirements_json (q : PaymentRequirements) : json.value :=
  json.JObject
    ([("scheme", json.JString (Scheme q));
      ("network", json.JString (Network q));
      ("maxAmountRequired", json.JString (MaxAmountRequired q));
      ("resource", json.JString (Resource q));
      ("description", json.JString (Description q))]
     ++ json.omitempty (json.string_empty (MimeType q)) "mimeType"
          (json.JString (MimeType q))
     ++ [("payTo", json.JString (PayTo q));
         ("maxTimeoutSeconds", json.JNumber (MaxTimeoutSeconds q))]
     ++ json.omitempty (json.string_empty (Asset q)) "asset"
          (json.JString (Asset q))
     ++ [("outputSchema", OutputSchema q)]
     ++ json.omitempty (bool_decide (Extra q = ∅)) "extra"
          (json.JStringMap (Extra q))).

Definition response_json (p : PaymentRequiredResponse) : json.value :=
  json.JObject
    ([("x402Version", json.JNumber (RespX402Version p));
      ("accepts", json.JArray (requirements_json <$> Accepts p))]
     ++ json.omitempty (json.string_empty (Error p)) "error"
          (json.JString (Error p))).

End Protocol.

(** * Payment schemes and their registry *)

Module Schemes.

Definition SchemeExact : string := "exact".
Definition SchemeUpto : string := "upto".
Definition SchemeStripePayment : string := "stripe-payment".

Definition NetworkEVMWildcard : string := "eip155:*".
Definition NetworkBaseMainnet : string := "eip155:8453".

Record PaymentPayload := mkPayload {
  Scheme : string;
  Network : string;
  Payload : string;
  Resource : string;
  Timestamp : Z;
  Signature : string;
  Payer : string;
  Nonce : string;
  CardToken : string;
  PaymentIntentID : string;
  AuthCode : string
}.

Record VerificationResult := mkResult {
  Valid : bool;
  Message : string;
  ResultScheme : string;
  ResultNetwork : string;
  Amount : string;
  ResultPayer : string;
  PayTo : string;
  ResultTimestamp : Z;
  AuthorizationID : string
}.

(** The interface [PaymentScheme] over a world [W]; [Verify] returns the
    result pointer ([None] is nil) and the error. [Settle] is not called by
    the code embedded here. *)
Record PaymentScheme (W : Type) := mkScheme {
  Type_ : string;
  SupportedNetworks : list string;
  Verify : W → PaymentPayload → Protocol.PaymentRequirements
           → W * (option VerificationResult * option string)
}.
Arguments mkScheme {W} _ _ _.
Arguments Type_ {W} _.
Arguments SupportedNetworks {W} _.
Arguments Verify {W} _ _ _ _.

Record SchemeRegistry (W : Type) := mkRegistry {
  schemes : gmap string (PaymentScheme W)
}.
Arguments mkRegistry {W} _.
Arguments schemes {W} _.

Definition NewSchemeRegistry {W} : SchemeRegistry W := mkRegistry ∅.

Definition Register {W} (r : SchemeRegistry W) (scheme : PaymentScheme W)
    : SchemeRegistry W :=
  mkRegistry (<[Type_ scheme := scheme]> (schemes r)).

Definition Get {W} (r : SchemeRegistry W) (schemeType : string)
    : option (PaymentScheme W) :=
  schemes r !! schemeType.

Definition isWildcardMatch (pattern network : string) : bool :=
  if bool_decide (strings.len pattern < 2)%nat
     || negb (bool_decide
                (String.get (strings.len pattern - 1) pattern
                 = Some "*"%char))
  then false
  else
    let prefix := strings.slice pattern 0 (strings.len pattern - 1) in
    bool_decide (strings.len prefix < strings.len network)%nat
    && bool_decide (strings.slice network 0 (strings.len prefix) = prefix).

(** The iteration order of the Go map does not change the result. *)
Definition SupportsNetwork {W} (r : SchemeRegistry W) (network : string)
    : bool :=
  existsb
    (λ entry : string * PaymentScheme W,
       existsb
         (λ n, bool_decide (n = network) || isWildcardMatch n network)
         (SupportedNetworks entry.2))
    (map_to_list (schemes r)).

End Schemes.

(** * The payment gate *)

Module Gate.
Import Protocol.

Section gate.
Context {A : Type}.
Variable Marshal : json.value → string.
Variable FormatRFC3339 : Z → string.

Record Config := mkConfig {
  PayTo : string;
  PaymentEndpoint : string;
  AcceptedMethods : list string;
  PricePerRequest : Z;
  ExemptPaths : list string;
  Currency : string;
  Network : string;
  Scheme : string;
  Asset : string;
  Description : string;
  MaxTimeoutSeconds : Z;
  PaymentVerifier :
    option (World A → string → World A * (bool * option string))
}.

Definition with_Currency (v : string) (c : Config) : Config :=
  mkConfig (PayTo c) (PaymentEndpoint c) (AcceptedMethods c)
    (PricePerRequest c) (ExemptPaths c) v (Network c) (Scheme c) (Asset c)
    (Description c) (MaxTimeoutSeconds c) (PaymentVerifier c).

Definition isExemptPath (path : string) (exemptPaths : list string) : bool :=
  existsb (λ exemptPath, strings.HasPrefix path exemptPath) exemptPaths.

(** The loop over the accepted methods of [extractPaymentToken]. *)
Fixpoint authorizationToken (authHeader : string)
    (acceptedMethods : list string) : option string :=
  match acceptedMethods with
  | [] => None
  | method :: rest =>
      let prefix := method +:+ " " in
      if strings.HasPrefix authHeader prefix
      then Some (strings.TrimPrefix authHeader prefix)
      else authorizationToken authHeader rest
  end.

Definition extractPaymentToken (r : http.Request)
    (acceptedMethods : list string) : string :=
  let paymentSig := http.Get (http.ReqHeader r) "PAYMENT-SIGNATURE" in
  if negb (bool_decide (paymentSig = "")) then paymentSig
  else
    let xPayment := http.Get (http.ReqHeader r) "X-PAYMENT" in
    if negb (bool_decide (xPayment = "")) then xPayment
    else
      let authHeader := http.Get (http.ReqHeader r) "Authorization" in
      match (if negb (bool_decide (authHeader = ""))
             then authorizationToken authHeader acceptedMethods
             else None) with
      | Some token => token
      | None =>
          let paymentToken := http.Get (http.ReqHeader r) "X-Payment-Token" in
          if negb (bool_decide (paymentToken = "")) then paymentToken
          else default "" (http.Query r !! "payment_token")
      end.

Definition verifyPaymentToken (st : World A) (token : string)
    (config : Config) : World A * (bool * option string) :=
  match PaymentVerifier config with
  | Some verifier => verifier st token
  | None =>
      if strings.HasPrefix token "valid_" then (st, (true, None))
      else (st, (false, None))
  end.

(** [r.URL.Path], with the raw query when there is one. *)
Definition resourceOf (r : http.Request) : string :=
  if negb (bool_decide (http.RawQuery r = ""))
  then http.Path r +:+ "?" +:+ http.RawQuery r
  else http.Path r.

Definition defaultDescription (price : Z) (currency : string) : string :=
  "Payment of " +:+ pretty price +:+ " " +:+ currency +:+ " required".

(** The tail shared by the two functions that send a 402: the header with
    the base64 of the JSON, the status, the JSON body. *)
Definition send402 (w : http.ResponseWriter)
    (response : PaymentRequiredResponse) : http.ResponseWriter :=
  let responseJSON := Marshal (response_json response) in
  let paymentRequiredHeader := base64.EncodeToString responseJSON in
  let w := http.SetHeader "Content-Type" "application/json" w in
  let w := http.SetHeader "PAYMENT-REQUIRED" paymentRequiredHeader w in
  let w := http.WriteHeader http.StatusPaymentRequired w in
  http.Write (Marshal (response_json response)
              +:+ String "010"%char EmptyString) w.

Definition sendPaymentRequired (w : http.ResponseWriter) (config : Config)
    (r : http.Request) : http.ResponseWriter :=
  let resource := resourceOf r in
  let scheme := if decide (Scheme config = "") then "exact"
                else Scheme config in
  let network := if decide (Network config = "") then "base-sepolia"
                 else Network config in
  let maxTimeout := if decide (MaxTimeoutSeconds config = 0) then 60
                    else MaxTimeoutSeconds config in
  let description :=
    if decide (Description config = "")
    then defaultDescription (PricePerRequest config) (Currency config)
    else Description config in
  let requirements :=
    mkRequirements scheme network (pretty (PricePerRequest config)) resource
      description "" (PayTo config) maxTimeout (Asset config) json.JNull ∅ in
  let response :=
    mkResponse X402Version [requirements] "X-PAYMENT header is required" in
  send402 w response.

(** "Set default currency if not provided". *)
Definition defaultCurrency (config : Config) : Config :=
  if decide (Currency config = "") then with_Currency "USD" config
  else config.

Definition Middleware (next : http.Handler (World A)) (config : Config)
    (st : World A) (w : http.ResponseWriter) (r : http.Request)
    : World A * http.ResponseWriter :=
  let config := defaultCurrency config in
  if isExemptPath (http.Path r) (ExemptPaths config)
  then http.ServeHTTP next st w r
  else
    let token := extractPaymentToken r (AcceptedMethods config) in
    if bool_decide (token = "") then (st, sendPaymentRequired w config r)
    else
      let '(st1, (valid, err)) := verifyPaymentToken st token config in
      if bool_decide (err ≠ None) || negb valid
      then (st1, sendPaymentRequired w config r)
      else
        let w := http.SetHeader "X-Payment-Verified" "true" w in
        let w := http.SetHeader "X-Payment-Timestamp"
                   (FormatRFC3339 (clock st1)) w in
        http.ServeHTTP next st1 w r.

(** ** Several schemes *)

Record MultiSchemeConfig := mkMultiConfig {
  Base : Config;
  AcceptedSchemes : list string;
  AcceptedNetworks : list string;
  PaymentAddresses : gmap string string;
  FacilitatorURLs : gmap string string;
  SchemeRegistry : option (Schemes.SchemeRegistry (World A))
}.

Definition with_Base (v : Config) (c : MultiSchemeConfig)
    : MultiSchemeConfig :=
  mkMultiConfig v (AcceptedSchemes c) (AcceptedNetworks c)
    (PaymentAddresses c) (FacilitatorURLs c) (SchemeRegistry c).

Definition BuildMultiSchemeRequirements (c : MultiSchemeConfig)
    (resource : string) : list PaymentRequirements :=
  let schemes :=
    if decide (length (AcceptedSchemes c) = 0%nat) then [Schemes.SchemeExact]
    else AcceptedSchemes c in
  let networks :=
    if bool_decide (length (AcceptedNetworks c) = 0%nat)
       && negb (bool_decide (Network (Base c) = ""))
    then [Network (Base c)] else AcceptedNetworks c in
  let maxTimeout := if decide (MaxTimeoutSeconds (Base c) = 0) then 60
                    else MaxTimeoutSeconds (Base c) in
  let description :=
    if decide (Description (Base c) = "")
    then defaultDescription (PricePerRequest (Base c)) (Currency (Base c))
    else Description (Base c) in
  scheme ← schemes;
  network ← networks;
  let payTo := default (PayTo (Base c)) (PaymentAddresses c !! network) in
  let extra :=
    match FacilitatorURLs c !! network with
    | Some facilitatorURL => {[ "facilitatorUrl" := facilitatorURL ]}
    | None => ∅
    end in
  [mkRequirements scheme network (pretty (PricePerRequest (Base c))) resource
     description "" payTo maxTimeout (Asset (Base c)) json.JNull extra].

Definition sendMultiSchemePaymentRequired (w : http.ResponseWriter)
    (config : MultiSchemeConfig) (r : http.Request) : http.ResponseWriter :=
  let resource := resourceOf r in
  let requirements := BuildMultiSchemeRequirements config resource in
  let requirements :=
    if decide (length requirements = 0%nat)
    then [mkRequirements "exact" "base-sepolia"
            (pretty (PricePerRequest (Base config))) resource
            (Description (Base config)) "" (PayTo (Base config)) 60
            (Asset (Base config)) json.JNull ∅]
    else requirements in
  let response :=
    mkResponse X402Version requirements
      "Payment required - select a supported scheme and network" in
  send402 w response.

(** [parsePaymentPayload] decodes base64 and JSON with the standard library:
    [DecodeStd] and [DecodeURL] are the two base64 decoders, [Unmarshal] is
    [json.Unmarshal] into a [PaymentPayload]; each is [None] on error. *)
Variable DecodeStd : string → option string.
Variable DecodeURL : string → option string.
Variable Unmarshal : string → option Schemes.PaymentPayload.
(** The registry the package-level variable [DefaultRegistry] points to. *)
Variable DefaultRegistry : Schemes.SchemeRegistry (World A).

Definition parsePaymentPayload (token : string)
    : option Schemes.PaymentPayload * option string :=
  let decoded :=
    match DecodeStd token with
    | Some decoded => decoded
    | None =>
        match DecodeURL token with
        | Some decoded => decoded
        | None => token
        end
    end in
  match Unmarshal decoded with
  | None => (None, Some "invalid payment payload")
  | Some payload => (Some payload, None)
  end.

(** "Build requirements for verification". *)
Definition verificationRequirements (config : MultiSchemeConfig)
    (payload : Schemes.PaymentPayload) (r : http.Request)
    : PaymentRequirements :=
  mkRequirements (Schemes.Scheme payload) (Schemes.Network payload)
    (pretty (PricePerRequest (Base config))) (resourceOf r) "" ""
    (PayTo (Base config)) (MaxTimeoutSeconds (Base config))
    (Asset (Base config)) json.JNull ∅.

Definition defaultMultiCurrency (config : MultiSchemeConfig)
    : MultiSchemeConfig :=
  if decide (Currency (Base config) = "")
  then with_Base (with_Currency "USD" (Base config)) config else config.

Definition MultiSchemeMiddleware (next : http.Handler (World A))
    (config : MultiSchemeConfig)
    (st : World A) (w : http.ResponseWriter) (r : http.Request)
    : option (World A * http.ResponseWriter) :=
  let config := defaultMultiCurrency config in
  let registry := default DefaultRegistry (SchemeRegistry config) in
  if isExemptPath (http.Path r) (ExemptPaths (Base config))
  then Some (http.ServeHTTP next st w r)
  else
    let token := extractPaymentToken r (AcceptedMethods (Base config)) in
    if bool_decide (token = "")
    then Some (st, sendMultiSchemePaymentRequired w config r)
    else
      match parsePaymentPayload token with
      | (_, Some _) => Some (st, sendMultiSchemePaymentRequired w config r)
      | (payload, None) =>
          payload ← payload;
          match Schemes.Get registry (Schemes.Scheme payload) with
          | None => Some (st, sendMultiSchemePaymentRequired w config r)
          | Some scheme =>
              let requirements := verificationRequirements config payload r in
              let '(st1, (result, err)) :=
                Schemes.Verify scheme st payload requirements in
              match err, result with
              | Some _, _ =>
                  Some (st1, sendMultiSchemePaymentRequired w config r)
              | None, None => None
              | None, Some result =>
                  if negb (Schemes.Valid result)
                  then Some (st1, sendMultiSchemePaymentRequired w config r)
                  else
                    let w := http.SetHeader "X-Payment-Verified" "true" w in
                    let w := http.SetHeader "X-Payment-Scheme"
                               (Schemes.Scheme payload) w in
                    let w := http.SetHeader "X-Payment-Network"
                               (Schemes.Network payload) w in
                    let w := http.SetHeader "X-Payment-Timestamp"
                               (pretty (Schemes.Timestamp payload)) w in
                    Some (http.ServeHTTP next st1 w r)
              end
          end
      end.

End gate.
End Gate.

(** * The AI-first middleware *)

Module AIFirst.

Definition ErrCodePaymentRequired : string := "PAYMENT_REQUIRED".
Definition ErrCodeInsufficientBudget : string := "INSUFFICIENT_BUDGET".
Definition ErrCodeRateLimited : string := "RATE_LIMITED".
Definition ErrCodeInvalidRequest : string := "INVALID_REQUEST".
Definition ErrCodeServerError : string := "SERVER_ERROR".
Definition ErrCodeNotFound : string := "NOT_FOUND".

Record PaymentAction := mkPaymentAction {
  Required : bool;
  Amount : Z;
  PayCurrency : string;
  PayTo : string;
  PayNetwork : string;
  PayAsset : string;
  PayEndpoint : string;
  PayExpiresAt : Z;
  PreAuthAvailable : bool;
  PreAuthEndpoint : string;
  PreAuthMinBudget : Z
}.

Record AIError := mkAIError {
  Code : string;
  Message : string;
  Retryable : bool;
  RetryAfter : Z;
  Action : string;
  Details : gmap string string;
  PaymentInfo : option PaymentAction
}.

(** The fields of [APIEndpoint] that are plain values. *)
Record APIEndpoint := mkEndpoint {
  Path : string;
  Method : string;
  Name : string;
  Description : string;
  Cost : Z;
  Currency : string;
  CostUnit : string
}.

(** [PreAuthStore] and [IdempotencyStore] say whether the field of the Go
    struct holds the store of the world ([true]) or is nil ([false]). *)
Record AIFirstConfig := mkConfig {
  Endpoints : list APIEndpoint;
  ConfigPayTo : string;
  ConfigNetwork : string;
  ConfigCurrency : string;
  ConfigAsset : string;
  PreAuthStore : bool;
  IdempotencyStore : bool;
  EnablePreAuth : bool;
  EnableIdempotency : bool;
  IdempotencyTTL : Z;
  DefaultCost : Z
}.

Definition paymentAction_json (a : PaymentAction) : json.value :=
  json.JObject
    ([("required", json.JBool (Required a));
      ("amount", json.JNumber (Amount a));
      ("currency", json.JString (PayCurrency a));
      ("payTo", json.JString (PayTo a));
      ("network", json.JString (PayNetwork a));
      ("asset", json.JString (PayAsset a));
      ("endpoint", json.JString (PayEndpoint a));
      ("expiresAt", json.JNumber (PayExpiresAt a))]
     ++ json.omitempty (negb (PreAuthAvailable a)) "preAuthAvailable"
          (json.JBool (PreAuthAvailable a))
     ++ json.omitempty (json.string_empty (PreAuthEndpoint a))
          "preAuthEndpoint" (json.JString (PreAuthEndpoint a))
     ++ json.omitempty (bool_decide (PreAuthMinBudget a = 0))
          "preAuthMinBudget" (json.JNumber (PreAuthMinBudget a))).

Definition aiError_json (e : AIError) : json.value :=
  json.JObject
    ([("code", json.JString (Code e));
      ("message", json.JString (Message e));
      ("retryable", json.JBool (Retryable e))]
     ++ json.omitempty (bool_decide (RetryAfter e = 0)) "retryAfter"
          (json.JNumber (RetryAfter e))
     ++ json.omitempty (json.string_empty (Action e)) "action"
          (json.JString (Action e))
     ++ json.omitempty (bool_decide (Details e = ∅)) "details"
          (json.JStringMap (Details e))
     ++ match PaymentInfo e with
        | Some a => [("paymentInfo", paymentAction_json a)]
        | None => []
        end).

(** The [AIResponse] built by [sendAIError]: no data, no cost, no rate limit. *)
Definition aiErrorResponse_json (requestID timestamp : string)
    (processingMs : Z) (e : AIError) : json.value :=
  json.JObject
    [("success", json.JBool false);
     ("error", aiError_json e);
     ("meta",
      json.JObject
        ([("requestId", json.JString requestID);
          ("timestamp", json.JString timestamp)]
         ++ json.omitempty (bool_decide (processingMs = 0)) "processingMs"
              (json.JNumber processingMs)))].

Definition getCostForPath (path method : string) (endpoints : list APIEndpoint)
    (defaultCost : Z) : Z :=
  match
    list_find (λ ep, Path ep = path ∧ Method ep = method) endpoints
  with
  | Some (_, ep) => Cost ep
  | None => defaultCost
  end.

(** [aiResponseRecorder]: the writer it wraps, the last status passed to
    [WriteHeader] and the bytes passed to [Write]. *)
Record aiResponseRecorder := mkRecorder {
  ResponseWriter : http.ResponseWriter;
  statusCode : Z;
  body : string
}.

Definition record (rec : aiResponseRecorder) (a : http.action)
    : aiResponseRecorder :=
  match a with
  | http.ASet k v =>
      mkRecorder (http.SetHeader k v (ResponseWriter rec)) (statusCode rec)
        (body rec)
  | http.AWriteHeader code =>
      mkRecorder (http.WriteHeader code (ResponseWriter rec)) code (body rec)
  | http.AWrite b =>
      mkRecorder (http.Write b (ResponseWriter rec)) (statusCode rec)
        (body rec +:+ b)
  end.

Section middleware.
Context {A : Type}.
Variable Marshal : json.value → string.
Variable FormatRFC3339 : Z → string.
(** [time.Time.String] and SHA-256, used to name a request. *)
Variable TimeString : Z → string.
Variable Sum256 : string → list N.

Definition generateRequestID (now : Z) (r : http.Request) : string :=
  "req_" +:+ strings.slice
               (hex.EncodeToString (Sum256 (TimeString now +:+ http.Path r)))
               0 16.

Definition sendAIError (w : http.ResponseWriter) (requestID : string)
    (start now : Z) (err : AIError) : http.ResponseWriter :=
  let response :=
    aiErrorResponse_json requestID (FormatRFC3339 now)
      (time.Milliseconds (now - start)) err in
  let w := http.SetHeader "Content-Type" "application/json" w in
  let code :=
    if decide (Code err = ErrCodePaymentRequired
               ∨ Code err = ErrCodeInsufficientBudget)
    then http.StatusPaymentRequired
    else if decide (Code err = ErrCodeRateLimited)
    then http.StatusTooManyRequests
    else if decide (Code err = ErrCodeNotFound) then http.StatusNotFound
    else if decide (Code err = ErrCodeInvalidRequest)
    then http.StatusBadRequest
    else http.StatusInternalServerError in
  let w := http.WriteHeader code w in
  http.Write (Marshal response +:+ String "010"%char EmptyString) w.

(** "Return cached response". *)
Definition replay (w : http.ResponseWriter)
    (record : Idempotency.IdempotencyRecord) : http.ResponseWriter :=
  let w :=
    map_fold (λ k v w, http.SetHeader k v w) w (Idempotency.Headers record) in
  let w := http.SetHeader "X-Idempotent-Replay" "true" w in
  let w := http.WriteHeader (Idempotency.StatusCode record) w in
  http.Write (Idempotency.Body record) w.

(** "Check pre-authorized budget": the response that ends the request, or
    the world, writer and request to go on with. *)
Definition checkPreAuth (config : AIFirstConfig) (requestID : string)
    (start : Z) (st : World A) (w : http.ResponseWriter) (r : http.Request)
    : option (World A * http.ResponseWriter
              + World A * http.ResponseWriter * http.Request) :=
  if EnablePreAuth config && PreAuthStore config then
    let agentID := http.Get (http.ReqHeader r) "X-Agent-ID" in
    if negb (bool_decide (agentID = "")) then
      match PreAuth.GetByAgentID (budgetStore st) agentID with
      | (Some p, None) =>
          budget ← PreAuth.objects (budgetStore st) !! p;
          let cost :=
            getCostForPath (http.Path r) (http.Method r) (Endpoints config)
              (DefaultCost config) in
          if decide (PreAuth.Remaining budget < cost) then
            Some (inl (st, sendAIError w requestID start (clock st)
              (mkAIError ErrCodeInsufficientBudget
                 "Pre-authorized budget exhausted" false 0 "pay"
                 {[ "remaining" := pretty (PreAuth.Remaining budget);
                    "required" := pretty cost;
                    "budgetId" := PreAuth.ID budget ]}
                 (Some (mkPaymentAction true
                          (wrap64 (cost - PreAuth.Remaining budget))
                          (ConfigCurrency config) (ConfigPayTo config)
                          (ConfigNetwork config) "" "" 0 true "/ai/budget"
                          0)))))
          else
            '(store1, err) ←
              PreAuth.Deduct (budgetStore st) (PreAuth.ID budget) cost;
            match err with
            | Some _ =>
                Some (inl (with_budgetStore store1 st,
                  sendAIError w requestID start (clock st)
                    (mkAIError ErrCodeServerError
                       "Failed to deduct from budget" true 1 "retry" ∅
                       None)))
            | None =>
                budget1 ← PreAuth.objects store1 !! p;
                let w := http.SetHeader "X-Budget-Remaining"
                           (pretty (PreAuth.Remaining budget1)) w in
                let w := http.SetHeader "X-Budget-Deducted" (pretty cost) w in
                let r := http.with_ReqHeader
                           (<["X-Payment-Verified" := "true"]>
                              (http.ReqHeader r)) r in
                Some (inr (with_budgetStore store1 st, w, r))
            end
      | _ => Some (inr (st, w, r))
      end
    else Some (inr (st, w, r))
  else Some (inr (st, w, r)).

(** "Store idempotency record". *)
Definition storeIdempotency (config : AIFirstConfig) (st : World A)
    (wrapped : aiResponseRecorder) (r : http.Request) : option (World A) :=
  if EnableIdempotency config && IdempotencyStore config then
    let idempKey := http.Get (http.ReqHeader r) "Idempotency-Key" in
    if negb (bool_decide (idempKey = "")) then
      let headers := http.header (ResponseWriter wrapped) in
      let ttl := if decide (IdempotencyTTL config = 0) then 24 * time.Hour
                 else IdempotencyTTL config in
      let '(p, store) :=
        Idempotency.new_record
          (Idempotency.mkRecord "" (statusCode wrapped) headers
             (body wrapped) 0 (time.Add (clock st) ttl))
          (idempotencyStore st) in
      '(store1, _) ← Idempotency.Set_ store (clock st) idempKey p;
      Some (with_idempotencyStore store1 st)
    else Some st
  else Some st.

Definition AIFirstMiddleware (next : http.Handler (World A))
    (config : AIFirstConfig)
    (st : World A) (w : http.ResponseWriter) (r : http.Request)
    : option (World A * http.ResponseWriter) :=
  let start := clock st in
  let requestID := generateRequestID (clock st) r in
  let w := http.SetHeader "Content-Type" "application/json" w in
  let w := http.SetHeader "X-Request-ID" requestID w in
  let w := http.SetHeader "X-AI-Optimized" "true" w in
  cached ←
    (if EnableIdempotency config && IdempotencyStore config then
       let idempKey := http.Get (http.ReqHeader r) "Idempotency-Key" in
       if negb (bool_decide (idempKey = "")) then
         '(record, _) ←
           Idempotency.Get (idempotencyStore st) (clock st) idempKey;
         match record with
         | Some p =>
             Some <$> Idempotency.objects (idempotencyStore st) !! p
         | None => Some None
         end
       else Some None
     else Some None);
  match cached with
  | Some record => Some (st, replay w record)
  | None =>
      checked ← checkPreAuth config requestID start st w r;
      match checked with
      | inl response => Some response
      | inr (st1, w1, r1) =>
          let wrapped := mkRecorder w1 200 "" in
          let '(st2, acts) := next st1 w1 r1 in
          let wrapped := foldl record wrapped acts in
          st3 ← storeIdempotency config st2 wrapped r1;
          Some (st3, ResponseWriter wrapped)
      end
  end.

End middleware.
End AIFirst.

(** * Concrete inputs

    A world, requests, a handler and configurations at which the properties
    below are exercised. [marshal] and the other functions given here stand
    for the library functions the middlewares are parameterised by. *)

Module Samples.

Definition marshal (v : json.value) : string := "{}".
Definition format (t : Z) : string := pretty t.
Definition sum256 (s : string) : list N := replicate 32 0%N.
Definition decode (s : string) : option string := None.
Definition unmarshal (s : string) : option Schemes.PaymentPayload := None.

Definition ok_handler : http.Handler (World unit) :=
  λ st w r, (st, [http.AWriteHeader 200; http.AWrite "ok"]).

Definition request (path : string) (hdr : gmap string string)
    : http.Request :=
  http.mkRequest "GET" path "" hdr ∅.

Definition world0 : World unit :=
  mkWorld 0 PreAuth.NewInMemoryPreAuthStore
    Idempotency.NewInMemoryIdempotencyStore Session.NewInMemorySessionStore
    tt.

(** A world whose idempotency store keeps a response under the key "k" until
    instant 10, seen at instant 10. *)
Definition cached_record : Idempotency.IdempotencyRecord :=
  Idempotency.mkRecord "k" 200 {[ "X-Custom" := "value" ]} "ok" 3 10.

Definition replay_world : World unit :=
  mkWorld 10 PreAuth.NewInMemoryPreAuthStore
    (Idempotency.mkStore {[ 1%positive := cached_record ]}
       {[ "k" := 1%positive ]})
    Session.NewInMemorySessionStore tt.

Definition ai_config : AIFirst.AIFirstConfig :=
  AIFirst.mkConfig [] "0x123" "base" "USDC" "" false true false true 0 0.

Definition metric (t : Z) : Metering.UsageMetric :=
  Metering.mkMetric t "/api/data" "GET" "0xabc" 100 "USDC" 200 5
    "per-request" "" "" false.

Definition exhausted_session : Session.Session :=
  Session.mkSession "sess_1" "0xabc" 0 100 Session.SessionTypeRequests 2 2
    200 "USDC" [] ∅ true.

Definition session_world : World unit :=
  mkWorld 10 PreAuth.NewInMemoryPreAuthStore
    Idempotency.NewInMemoryIdempotencyStore
    (Session.mkStore {[ 1%positive := exhausted_session ]}
       {[ "sess_1" := 1%positive ]})
    tt.

Definition gate_config : @Gate.Config unit :=
  Gate.mkConfig "0x123" "" ["Bearer"] 100 ["/health"] "" "" "" "" "" 0 None.

Definition multi_config : @Gate.MultiSchemeConfig unit :=
  Gate.mkMultiConfig gate_config [] [] ∅ ∅ None.

(** A request-bounded session with two requests left, and three requests
    made with it one after the other. *)
Definition fresh_session : Session.Session :=
  Session.mkSession "sess_2" "0xabc" 0 100 Session.SessionTypeRequests 2 0
    200 "USDC" [] ∅ true.

Definition fresh_session_world : World unit :=
  mkWorld 10 PreAuth.NewInMemoryPreAuthStore
    Idempotency.NewInMemoryIdempotencyStore
    (Session.mkStore {[ 1%positive := fresh_session ]}
       {[ "sess_2" := 1%positive ]})
    tt.

Fixpoint statuses (n : nat) (st : World unit) : list (option Z) :=
  match n with
  | O => []
  | S n' =>
      match
        SessionGate.SessionMiddleware marshal format format ok_handler st
          http.NewRecorder
          (request "/api/data" {[ "X-Session-ID" := "sess_2" ]})
      with
      | Some (st', w) => http.status w :: statuses n' st'
      | None => []
      end
  end.

End Samples.

(** * What a handler's calls amount to

    The bytes a list of writer calls writes, and the status a recorder keeps
    for it: the last one passed to [WriteHeader], or the one it started
    with. *)
Module Calls.

Fixpoint written (acts : list http.action) : string :=
  match acts with
  | [] => ""
  | http.AWrite b :: rest => b +:+ written rest
  | _ :: rest => written rest
  end.

Fixpoint lastStatus (initial : Z) (acts : list http.action) : Z :=
  match acts with
  | [] => initial
  | http.AWriteHeader code :: rest => lastStatus code rest
  | _ :: rest => lastStatus initial rest
  end.


End Calls.

(** * Metering middleware *)

Module MeteringGate.

(** The world of a metered handler: the world of the other middlewares and
    the metering store. *)
Record Metered (A : Type) := mkMetered {
  world : World A;
  metering : Metering.InMemoryMeteringStore
}.
Arguments mkMetered {A} _ _.
Arguments world {A} _.
Arguments metering {A} _.

(** [Store] says whether the field of the Go struct holds the metering store
    of the world ([true]) or is nil ([false]). *)
Record MeteringConfig := mkConfig {
  Store : bool;
  Currency : string;
  PricePerRequest : Z
}.

(** [responseRecorder]: only [WriteHeader] is overridden. *)
Record responseRecorder := mkRecorder {
  ResponseWriter : http.ResponseWriter;
  statusCode : Z
}.

Definition record (rr : responseRecorder) (a : http.action)
    : responseRecorder :=
  match a with
  | http.AWriteHeader code =>
      mkRecorder (http.WriteHeader code (ResponseWriter rr)) code
  | _ => mkRecorder (http.perform (ResponseWriter rr) a) (statusCode rr)
  end.

Definition extractPayerID (r : http.Request) : string :=
  let payer := http.Get (http.ReqHeader r) "X-Payer-Address" in
  if negb (bool_decide (payer = "")) then payer
  else
    let session := http.Get (http.ReqHeader r) "X-Session-ID" in
    if negb (bool_decide (session = "")) then "session:" +:+ session
    else
      let apiKey := http.Get (http.ReqHeader r) "X-API-Key" in
      if negb (bool_decide (apiKey = "")) then
        if bool_decide (8 < strings.len apiKey)%nat
        then "key:" +:+ strings.slice apiKey 0 8 +:+ "..."
        else "key:" +:+ apiKey
      else "".

Definition detectPaymentType (r : http.Request) : string :=
  if negb (bool_decide (http.Get (http.ReqHeader r) "X-Session-ID" = ""))
  then "session"
  else if negb (bool_decide
                  (http.Get (http.ReqHeader r) "X-Subscription-ID" = ""))
  then "subscription"
  else "per-request".

Section middleware.
Context {A : Type}.
(** Whether one of the regular expressions of [aiAgentPatterns] matches. *)
Variable matchesAgentPattern : string → bool.

Definition isAIAgent (r : http.Request) : bool :=
  if bool_decide (http.Get (http.ReqHeader r) "X-AI-Agent" = "true")
  then true
  else if matchesAgentPattern (http.Get (http.ReqHeader r) "User-Agent")
  then true
  else if negb (bool_decide
                  (http.Get (http.ReqHeader r) "X-Agent-Budget" = ""))
  then true
  else if negb (bool_decide
                  (http.Get (http.ReqHeader r) "X-Agent-Task-ID" = ""))
  then true
  else false.

Definition MeteringMiddleware (next : http.Handler (Metered A))
    (config : MeteringConfig)
    (st : Metered A) (w : http.ResponseWriter) (r : http.Request)
    : option (Metered A * http.ResponseWriter) :=
  let start := clock (world st) in
  let wrapped := mkRecorder w 200 in
  let '(st1, acts) := next st w r in
  let wrapped := foldl record wrapped acts in
  let metric :=
    Metering.mkMetric start (http.Path r) (http.Method r) (extractPayerID r)
      (PricePerRequest config) (Currency config) (statusCode wrapped)
      (time.Milliseconds (clock (world st1) - start)) (detectPaymentType r)
      (http.Get (http.ReqHeader r) "X-Session-ID")
      (http.Get (http.ReqHeader r) "User-Agent") (isAIAgent r) in
  if Store config then
    '(store1, _) ← Metering.RecordRequest (metering st1) metric;
    Some (mkMetered (world st1) store1, ResponseWriter wrapped)
  else Some (st1, ResponseWriter wrapped).

End middleware.

End MeteringGate.

(** * Agent pricing *)

Module Agent.

(** [calculateBatchPrice]; the batch size is an [int] the function receives
    and does not use. *)
Definition calculateBatchPrice (basePrice : Z) (batchSize : Z)
    (discountPercent : Z) : Z :=
  if decide (discountPercent ≤ 0 ∨ 100 < discountPercent) then basePrice
  else
    let discount := wrap64 (basePrice * discountPercent) ÷ 100 in
    wrap64 (basePrice - discount).

End Agent.

(** * Sweeping and running sessions *)

Module SessionSweep.
Import Session.

(** [CleanExpired]: the loop deletes, while it ranges over the map, every
    session whose expiry is before [now]; it reads each session through its
    pointer. *)
Definition CleanExpired (s : InMemorySessionStore) (now : Z)
    : option (InMemorySessionStore * option string) :=
  if bool_decide (map_Forall (λ _ p, is_Some (objects s !! p)) (sessions s))
  then
    Some (mkStore (objects s)
            (filter
               (λ entry : string * loc,
                  (x ← objects s !! entry.2;
                   Some (time.Before (ExpiresAt x) now)) ≠ Some true)
               (sessions s)),
          None)
  else None.

Section runs.
Context {A : Type}.
Variable Marshal : json.value → string.
Variable FormatRFC3339 : Z → string.
Variable RoundedDurationString : Z → string.

(** [n] requests [r] served one after the other by the session middleware,
    each on a new writer. *)
Fixpoint serve_times (n : nat) (next : http.Handler (World A))
    (st : World A) (r : http.Request) : option (World A) :=
  match n with
  | O => Some st
  | S n' =>
      '(st', _) ←
        SessionGate.SessionMiddleware Marshal FormatRFC3339
          RoundedDurationString next st http.NewRecorder r;
      serve_times n' next st' r
  end.

End runs.
End SessionSweep.

(** * Verifiers and the schemes registered by default *)

Module Verifiers.

Section verifiers.
Context {A : Type}.

(** [NewStaticVerifier]: the closure looks the token up in the set built
    from [validTokens] and touches nothing else. *)
Definition NewStaticVerifier (validTokens : list string)
    : World A → string → World A * (bool * option string) :=
  let tokenSet : gset string := list_to_set validTokens in
  λ st token, (st, (bool_decide (token ∈ tokenSet), None)).

(** [ExactEVMScheme]: the verification is a stub that accepts. *)
Definition ExactEVMScheme : Schemes.PaymentScheme (World A) :=
  Schemes.mkScheme Schemes.SchemeExact
    ["eip155:1"; "eip155:8453"; "eip155:84532"; "eip155:10"; "eip155:42161";
     "eip155:137"; "eip155:*"]
    (λ st payload requirements,
       (st,
        (Some (Schemes.mkResult true
                 "EVM verification delegated to facilitator"
                 Schemes.SchemeExact (Schemes.Network payload) "" "" "" 0 ""),
         None))).

(** [StripeScheme]: the verification always fails. *)
Definition StripeScheme (sandbox : bool) : Schemes.PaymentScheme (World A) :=
  Schemes.mkScheme Schemes.SchemeStripePayment
    (if sandbox then ["stripe:test"] else ["stripe:live"])
    (λ st payload requirements,
       (st, (None, Some "use StripeRail for Stripe payment verification"))).

(** [RegisterDefaultSchemes] on the registry [DefaultRegistry] points to. *)
Definition RegisterDefaultSchemes
    (DefaultRegistry : Schemes.SchemeRegistry (World A))
    : Schemes.SchemeRegistry (World A) :=
  Schemes.Register DefaultRegistry ExactEVMScheme.

End verifiers.
End Verifiers.

(** More concrete inputs. *)

Module Inputs.

(** Two budgets under the identifiers "a" and "b". *)
Definition two_budgets : PreAuth.InMemoryPreAuthStore :=
  PreAuth.mkStore
    {[ 1%positive :=
         PreAuth.with_Remaining 100 (PreAuth.budget_literal "a" "" 100);
       2%positive :=
         PreAuth.with_Remaining 7 (PreAuth.budget_literal "b" "" 7) ]}
    {[ "a" := 1%positive; "b" := 2%positive ]} ∅.

(** Two budget objects built with the same identifier for two agents, not
    yet given to [Create]. *)
Definition same_id_objects : PreAuth.InMemoryPreAuthStore :=
  PreAuth.mkStore
    {[ 1%positive := PreAuth.budget_literal "x" "alice" 100;
       2%positive := PreAuth.budget_literal "x" "bob" 7 ]} ∅ ∅.

(** A metered world with an empty store of capacity 2, and a handler that
    answers 404. *)
Definition metered_world : MeteringGate.Metered unit :=
  MeteringGate.mkMetered Samples.world0
    (Metering.NewInMemoryMeteringStore 2 "USDC").

Definition not_found_handler : http.Handler (MeteringGate.Metered unit) :=
  λ st w r, (st, [http.AWriteHeader 404]).

(** A payment payload that names the scheme "exact", and a decoder that reads
    it from every input. *)
Definition exact_payload : Schemes.PaymentPayload :=
  Schemes.mkPayload "exact" "eip155:8453" "" "/api/data" 42 "" "0xabc" "" ""
    "" "".

Definition unmarshal_exact (s : string) : option Schemes.PaymentPayload :=
  Some exact_payload.

(** A world in which the agent "bot" holds the budget "b1" with 100 left, and
    a configuration that charges 30 for a request to such a budget. *)
Definition budget_world : World unit :=
  mkWorld 5
    (PreAuth.mkStore
       {[ 1%positive :=
            PreAuth.with_Remaining 100
              (PreAuth.budget_literal "b1" "bot" 100) ]}
       {[ "b1" := 1%positive ]} {[ "bot" := "b1" ]})
    Idempotency.NewInMemoryIdempotencyStore Session.NewInMemorySessionStore
    tt.

Definition preauth_config : AIFirst.AIFirstConfig :=
  AIFirst.mkConfig [] "0x123" "base" "USDC" "" true false true false 0 30.

(** The same with a price of 500, more than the budget holds. *)
Definition costly_config : AIFirst.AIFirstConfig :=
  AIFirst.mkConfig [] "0x123" "base" "USDC" "" true false true false 0 500.

(** The world of the session "sess_1", which expires at 100, seen at 500. *)
Definition late_world : World unit :=
  mkWorld 500 PreAuth.NewInMemoryPreAuthStore
    Idempotency.NewInMemoryIdempotencyStore
    (Session.mkStore {[ 1%positive := Samples.exhausted_session ]}
       {[ "sess_1" := 1%positive ]})
    tt.

(** A configuration that accepts two schemes on two networks, with an
    address of its own for the second network. *)
Definition two_by_two : @Gate.MultiSchemeConfig unit :=
  Gate.mkMultiConfig Samples.gate_config ["exact"; "upto"]
    ["eip155:8453"; "eip155:10"] {[ "eip155:10" := "0x456" ]} ∅ None.

End Inputs.

(** * Properties *)

(** ** The embedding on concrete inputs *)

Example hex_bytes : hex.EncodeToString [0; 10; 255]%N = "000aff".
Proof. reflexivity. Qed.

Example base64_three_bytes : base64.EncodeToString "Man" = "TWFu".
Proof. reflexivity. Qed.

Example base64_two_bytes : base64.EncodeToString "Ma" = "TWE=".
Proof. reflexivity. Qed.

Example base64_one_byte : base64.EncodeToString "M" = "TQ==".
Proof. reflexivity. Qed.

Example formatInt64_max :
  Session.formatInt64 9223372036854775807 = "9223372036854775807".
Proof. reflexivity. Qed.

Example formatInt64_negative : Session.formatInt64 (-5) = "0".
Proof. reflexivity. Qed.

Example matchesPattern_segment :
  Session.matchesPattern "/api/users" "/api/*" = true
  ∧ Session.matchesPattern "/apix" "/api/*" = true
  ∧ Session.matchesPattern "/ap" "/api/*" = false.
Proof. repeat split; reflexivity. Qed.

(** Three requests with a session bounded to two: 200, 200, 401. *)
Example session_of_two_requests :
  Samples.statuses 3 Samples.fresh_session_world
  = [Some 200; Some 200; Some 401].
Proof. vm_compute. reflexivity. Qed.

(** The gate exempting "/health" with price 100: no proof needed on
    "/health"; 402 without a proof elsewhere; 200 and the verification header
    with a bearer token the default verifier accepts. *)
Example gate_scenario :
  let run hdr path :=
    (Gate.Middleware Samples.marshal Samples.format Samples.ok_handler
       Samples.gate_config Samples.world0 http.NewRecorder
       (Samples.request path hdr)).2 in
  http.status (run ∅ "/health") = Some 200
  ∧ http.status (run ∅ "/api/data") = Some 402
  ∧ http.status (run {[ "Authorization" := "Bearer valid_x" ]} "/api/data")
    = Some 200
  ∧ http.header (run {[ "Authorization" := "Bearer valid_x" ]} "/api/data")
      !! "X-Payment-Verified" = Some "true".
Proof. vm_compute. repeat split; reflexivity. Qed.

(** ** Machine integers *)

Lemma wrap64_id (z : Z) : is_int64 z → wrap64 z = z.
Proof.
  unfold is_int64, min_int64, max_int64, wrap64. intros Hz.
  rewrite Z.mod_small; lia.
Qed.

Lemma wrap64_range (z : Z) : is_int64 (wrap64 z).
Proof.
  unfold is_int64, min_int64, max_int64, wrap64.
  pose proof (Z.mod_pos_bound (z + 2 ^ 63) (2 ^ 64)). lia.
Qed.

(** ** The budget store *)

Section PreAuthProperties.
Import PreAuth.

Lemma Deduct_unknown s id a :
  budgets s !! id = None → Deduct s id a = Some (s, Some "budget not found").
Proof. intros H. unfold Deduct. by rewrite H. Qed.

Lemma Deduct_insufficient s id a p b :
  budgets s !! id = Some p → objects s !! p = Some b → Remaining b < a →
  Deduct s id a = Some (s, Some "insufficient budget").
Proof.
  intros Hp Hb Hlt. unfold Deduct. rewrite Hp, Hb. simpl.
  by rewrite decide_True.
Qed.

Lemma Deduct_sufficient s id a p b :
  budgets s !! id = Some p → objects s !! p = Some b → a ≤ Remaining b →
  Deduct s id a =
    Some (set_object p
            (with_RequestCount (wrap64 (RequestCount b + 1))
               (with_TotalSpent (wrap64 (TotalSpent b + a))
                  (with_Remaining (wrap64 (Remaining b - a)) b))) s, None).
Proof.
  intros Hp Hb Hle. unfold Deduct. rewrite Hp, Hb. simpl.
  rewrite decide_False by lia. done.
Qed.

Lemma Refund_known s id a p b :
  budgets s !! id = Some p → objects s !! p = Some b →
  Refund s id a =
    Some (set_object p
            (with_TotalSpent (wrap64 (TotalSpent b - a))
               (with_Remaining (wrap64 (Remaining b + a)) b)) s, None).
Proof. intros Hp Hb. unfold Refund. rewrite Hp, Hb. done. Qed.

Lemma Deduct_failure_unchanged s id a s' e :
  Deduct s id a = Some (s', Some e) → s' = s.
Proof.
  unfold Deduct. destruct (budgets s !! id) as [p|]; [|congruence].
  destruct (objects s !! p) as [b|]; simpl; [|congruence].
  case_decide; congruence.
Qed.

Lemma set_object_lookup s p b : objects (set_object p b s) !! p = Some b.
Proof. unfold set_object. simpl. apply lookup_insert_eq. Qed.

Lemma budget_of_set_object s id p b :
  budgets s !! id = Some p → budget_of (set_object p b s) id = Some b.
Proof.
  intros Hp. unfold budget_of. simpl. rewrite Hp. simpl.
  apply lookup_insert_eq.
Qed.

Lemma budget_of_lookup s id p b :
  budgets s !! id = Some p → objects s !! p = Some b →
  budget_of s id = Some b.
Proof. intros Hp Hb. unfold budget_of. rewrite Hp. done. Qed.

(** What [Create] leaves in the store. *)
Lemma Create_spec s now p b :
  objects s !! p = Some b →
  let id := if decide (ID b = "") then generateBudgetID else ID b in
  ∃ s', Create s now p = Some (s', None)
        ∧ budgets s' = <[id := p]> (budgets s)
        ∧ objects s' =
            <[p := with_Remaining (TotalBudget b)
                     (with_CreatedAt now (with_ID id b))]> (objects s).
Proof.
  intros Hb id. unfold Create. rewrite Hb. simpl.
  eexists. split; [reflexivity|]. subst id.
  case_decide; simpl; split; try done.
  all: by destruct b.
Qed.

(** C1. [Deduct] fails on an unknown identifier and when the amount exceeds
    the remaining balance; a failure leaves the store, hence the remaining,
    spent and request-count fields, as it was; a success replaces the budget
    by one whose remaining is lowered by the amount, whose spent is raised by
    the amount and whose request count is raised by one (in 64-bit
    arithmetic, exactly whenever the exact result is an [int64]). A budget
    created with total 100 accepts a deduction of 60, leaving 40, and refuses
    a second one, still leaving 40. *)
Theorem Deduct_spec (s : InMemoryPreAuthStore) (id : string) (a : Z) :
  (budgets s !! id = None →
   Deduct s id a = Some (s, Some "budget not found"))
  ∧ (∀ s' e, Deduct s id a = Some (s', Some e) → s' = s)
  ∧ (∀ p b, budgets s !! id = Some p → objects s !! p = Some b →
       (Remaining b < a →
        Deduct s id a = Some (s, Some "insufficient budget"))
       ∧ (a ≤ Remaining b →
          ∃ s' b',
            Deduct s id a = Some (s', None)
            ∧ budget_of s' id = Some b'
            ∧ objects s' = <[p := b']> (objects s)
            ∧ budgets s' = budgets s ∧ byAgent s' = byAgent s
            ∧ Remaining b' = wrap64 (Remaining b - a)
            ∧ TotalSpent b' = wrap64 (TotalSpent b + a)
            ∧ RequestCount b' = wrap64 (RequestCount b + 1)
            ∧ TotalBudget b' = TotalBudget b ∧ ID b' = ID b
            ∧ (is_int64 (Remaining b - a) → Remaining b' = Remaining b - a)
            ∧ (is_int64 (TotalSpent b + a) →
               TotalSpent b' = TotalSpent b + a)
            ∧ (is_int64 (RequestCount b + 1) →
               RequestCount b' = RequestCount b + 1)))
  ∧ (∀ s0 now p b0,
       objects s0 !! p = Some b0 → TotalBudget b0 = 100 →
       let id0 := if decide (ID b0 = "") then generateBudgetID else ID b0 in
       ∃ s1 s2 b2,
         Create s0 now p = Some (s1, None)
         ∧ Deduct s1 id0 60 = Some (s2, None)
         ∧ budget_of s2 id0 = Some b2 ∧ Remaining b2 = 40
         ∧ Deduct s2 id0 60 = Some (s2, Some "insufficient budget")).
Proof.
  split; [apply Deduct_unknown|].
  split; [apply Deduct_failure_unchanged|].
  split.
  - intros p b Hp Hb. split; [by apply (Deduct_insufficient _ _ _ p b)|].
    intros Hle. do 2 eexists.
    split; [by apply (Deduct_sufficient _ _ _ p b)|].
    split; [by apply budget_of_set_object|].
    simpl. repeat split; try done; apply wrap64_id.
  - intros s0 now p b0 Hb0 HT id0.
    destruct (Create_spec s0 now p b0 Hb0) as (s1 & Hc & Hbud & Hobj).
    fold id0 in Hbud, Hobj.
    remember (with_Remaining (TotalBudget b0)
                (with_CreatedAt now (with_ID id0 b0))) as b1 eqn:Eb1.
    assert (Hp1 : budgets s1 !! id0 = Some p)
      by (rewrite Hbud; apply lookup_insert_eq).
    assert (Hb1 : objects s1 !! p = Some b1)
      by (rewrite Hobj; apply lookup_insert_eq).
    assert (Hr1 : Remaining b1 = 100) by (subst b1; simpl; done).
    clear Eb1. eexists s1, _, _. split; [done|].
    split; [apply (Deduct_sufficient _ _ _ _ _ Hp1 Hb1); lia|].
    split; [by apply budget_of_set_object|].
    split; [simpl; rewrite Hr1; reflexivity|].
    eapply Deduct_insufficient.
    + simpl. exact Hp1.
    + apply set_object_lookup.
    + simpl. rewrite Hr1. vm_compute. done.
Qed.

(** The theorem at the store that holds one budget of 100. *)
Lemma Deduct_spec_witness :
  ∃ s id, created 100 5 = Some (s, id)
          ∧ Deduct s "other" 60 = Some (s, Some "budget not found").
Proof.
  eexists _, _. split; [vm_compute; reflexivity|].
  apply (proj1 (Deduct_spec _ "other" 60)). vm_compute. reflexivity.
Defined.

(** *** Sequences of deductions and refunds *)

Lemma total_nonneg out : Forall (λ x, 0 ≤ x) out → 0 ≤ total out.
Proof. induction 1; simpl; lia. Qed.

Lemma total_remove_one a out :
  a ∈ out → total (remove_one a out) = total out - a.
Proof.
  induction out as [|x out IH]; intros Hin; [by apply elem_of_nil in Hin|].
  simpl. case_decide as Hx; [lia|].
  apply elem_of_cons in Hin as [->|Hin]; [done|].
  simpl. rewrite IH by done. lia.
Qed.

Lemma Forall_remove_one (P : Z → Prop) a out :
  Forall P out → Forall P (remove_one a out).
Proof.
  induction 1 as [|x out Hx Hout IH]; simpl; [constructor|].
  case_decide; [done|]. by constructor.
Qed.

Lemma elem_le_total a out :
  Forall (λ x, 0 ≤ x) out → a ∈ out → a ≤ total out.
Proof.
  intros Hall Hin. pose proof (total_remove_one a out Hin) as Heq.
  pose proof (total_nonneg _ (Forall_remove_one _ a out Hall)). lia.
Qed.

Lemma balanced_take s id out ops n :
  balanced s id out ops → balanced s id out (take n ops).
Proof.
  revert s out n. induction ops as [|o ops IH]; intros s out n Hbal.
  { by destruct n. }
  destruct n as [|n]; [done|]. simpl.
  destruct o as [a|a]; simpl in Hbal.
  - destruct Hbal as [Ha Hbal]. split; [done|].
    destruct (Deduct s id a) as [[s' [e|]]|]; auto.
  - destruct Hbal as (Ha & Hin & Hbal). split; [done|]. split; [done|].
    destruct (Refund s id a) as [[s' e]|]; auto.
Qed.

Lemma refunded_take ops n :
  Forall (λ o, 0 ≤ amount_of o) ops → refunded (take n ops) ≤ refunded ops.
Proof.
  intros Hall. revert n.
  induction Hall as [|o ops Ho Hall IH]; intros n; [by destruct n|].
  assert (0 ≤ refunded ops) as Hpos.
  { clear IH Ho. induction Hall as [|o' ops' Ho' _ IH']; simpl; [done|].
    destruct o'; simpl in *; lia. }
  destruct n as [|n]; simpl.
  - destruct o; simpl in *; lia.
  - specialize (IH n). destruct o; simpl in *; lia.
Qed.

(** The invariant of a matched sequence: the spent amount is the sum of the
    outstanding deductions. *)
Lemma run_balanced id p T :
  T ≤ max_int64 →
  ∀ ops s out b,
    budgets s !! id = Some p → objects s !! p = Some b →
    Forall (λ x, 0 ≤ x) out → TotalSpent b = total out →
    TotalBudget b = T → 0 ≤ Remaining b → Remaining b + TotalSpent b = T →
    balanced s id out ops →
    ∃ s' b', run s id ops = Some s' ∧ budget_of s' id = Some b'
             ∧ TotalBudget b' = T ∧ 0 ≤ Remaining b' ≤ T
             ∧ Remaining b' + TotalSpent b' = T.
Proof.
  intros HT. unfold max_int64 in HT.
  induction ops as [|o ops IH];
    intros s out b Hp Hb Hout Hspent Htot Hrem Hsum Hbal.
  { exists s, b. pose proof (total_nonneg _ Hout).
    simpl. rewrite (budget_of_lookup _ _ _ _ Hp Hb). repeat split; try done; lia. }
  pose proof (total_nonneg _ Hout) as Hpos.
  destruct o as [a|a]; simpl in Hbal |- *.
  - destruct Hbal as [Ha Hbal].
    destruct (decide (Remaining b < a)) as [Hlt|Hge].
    + rewrite (Deduct_insufficient _ _ _ _ _ Hp Hb Hlt) in Hbal |- *.
      simpl. by eapply IH.
    + rewrite (Deduct_sufficient _ _ _ _ _ Hp Hb) in Hbal |- * by lia.
      simpl.
      apply (IH (set_object p _ s) (a :: out) _ Hp (set_object_lookup _ _ _)); simpl;
        [by constructor| | | | |exact Hbal]; try done;
        rewrite ?wrap64_id; unfold is_int64, min_int64, max_int64; lia.
  - destruct Hbal as (Ha & Hin & Hbal).
    pose proof (elem_le_total _ _ Hout Hin) as Hle.
    rewrite (Refund_known _ _ _ _ _ Hp Hb) in Hbal |- *.
    simpl.
    apply (IH (set_object p _ s) (remove_one a out) _ Hp
             (set_object_lookup _ _ _)); simpl;
      [by apply Forall_remove_one| | | | |exact Hbal]; try done;
      rewrite ?total_remove_one by done;
      rewrite ?wrap64_id; unfold is_int64, min_int64, max_int64; lia.
Qed.

(** Without the matching, as long as the refunds cannot overflow. *)
Lemma run_bounded id p T :
  0 ≤ T ≤ max_int64 →
  ∀ ops s b,
    budgets s !! id = Some p → objects s !! p = Some b →
    TotalBudget b = T → 0 ≤ Remaining b → Remaining b + TotalSpent b = T →
    Forall (λ o, 0 ≤ amount_of o) ops →
    Remaining b + refunded ops ≤ max_int64 →
    ∃ s' b', run s id ops = Some s' ∧ budget_of s' id = Some b'
             ∧ TotalBudget b' = T ∧ 0 ≤ Remaining b'
             ∧ Remaining b' + TotalSpent b' = T.
Proof.
  intros HT. unfold max_int64 in *.
  induction ops as [|o ops IH]; intros s b Hp Hb Htot Hrem Hsum Hall Hmax.
  { exists s, b. simpl. by rewrite (budget_of_lookup _ _ _ _ Hp Hb). }
  apply Forall_cons in Hall as [Ho Hall].
  assert (0 ≤ refunded ops) as Hpos.
  { clear -Hall. induction Hall as [|o' ops' Ho' _ IH']; simpl; [done|].
    destruct o'; simpl in *; lia. }
  destruct o as [a|a]; simpl in Ho, Hmax |- *.
  - destruct (decide (Remaining b < a)) as [Hlt|Hge].
    + rewrite (Deduct_insufficient _ _ _ _ _ Hp Hb Hlt). simpl. by eapply IH.
    + rewrite (Deduct_sufficient _ _ _ _ _ Hp Hb) by lia.
      simpl.
      apply (IH (set_object p _ s) _ Hp (set_object_lookup _ _ _)); simpl; try done;
        rewrite ?wrap64_id; unfold is_int64, min_int64, max_int64; lia.
  - rewrite (Refund_known _ _ _ _ _ Hp Hb).
    simpl.
    apply (IH (set_object p _ s) _ Hp (set_object_lookup _ _ _)); simpl; try done;
      rewrite ?wrap64_id; unfold is_int64, min_int64, max_int64; lia.
Qed.

(** C2, as amended. For a budget created with a total [T] between 0 and the
    largest [int64] and nothing spent, and operations with non-negative
    amounts: when every refund is matched by an equal earlier successful
    deduction not refunded yet, [0 ≤ remaining ≤ T] and
    [remaining + spent = T] hold after each operation; without the matching,
    [0 ≤ remaining] and [remaining + spent = T] still hold after each
    operation as long as [T] plus the refunded amounts is an [int64]. *)
Theorem budget_invariant (s0 : InMemoryPreAuthStore) (now : Z) (p : loc)
    (b0 : PreAuthBudget) (ops : list op) (n : nat) :
  objects s0 !! p = Some b0 →
  TotalSpent b0 = 0 →
  0 ≤ TotalBudget b0 ≤ max_int64 →
  ∃ s id,
    Create s0 now p = Some (s, None)
    ∧ id = (if decide (ID b0 = "") then generateBudgetID else ID b0)
    ∧ (balanced s id [] ops →
       ∃ s' b',
         run s id (take n ops) = Some s' ∧ budget_of s' id = Some b'
         ∧ TotalBudget b' = TotalBudget b0
         ∧ 0 ≤ Remaining b' ≤ TotalBudget b0
         ∧ Remaining b' + TotalSpent b' = TotalBudget b0)
    ∧ (Forall (λ o, 0 ≤ amount_of o) ops →
       TotalBudget b0 + refunded ops ≤ max_int64 →
       ∃ s' b',
         run s id (take n ops) = Some s' ∧ budget_of s' id = Some b'
         ∧ TotalBudget b' = TotalBudget b0
         ∧ 0 ≤ Remaining b'
         ∧ Remaining b' + TotalSpent b' = TotalBudget b0).
Proof.
  intros Hb0 Hspent HT.
  destruct (Create_spec s0 now p b0 Hb0) as (s & Hc & Hbud & Hobj).
  set (id := if decide (ID b0 = "") then generateBudgetID else ID b0) in *.
  remember (with_Remaining (TotalBudget b0)
              (with_CreatedAt now (with_ID id b0))) as b eqn:Eb.
  assert (Hp : budgets s !! id = Some p)
    by (rewrite Hbud; apply lookup_insert_eq).
  assert (Hb : objects s !! p = Some b)
    by (rewrite Hobj; apply lookup_insert_eq).
  assert (Hfields : TotalBudget b = TotalBudget b0
                    ∧ Remaining b = TotalBudget b0 ∧ TotalSpent b = 0)
    by (subst b; simpl; done).
  destruct Hfields as (Htot & Hrem & Hsp). clear Eb.
  exists s, id. split; [done|]. split; [done|]. split.
  - intros Hbal.
    apply (run_balanced id p (TotalBudget b0) (proj2 HT) (take n ops) s [] b);
      try done; try lia.
    by apply balanced_take.
  - intros Hall Hmax.
    apply (run_bounded id p (TotalBudget b0) HT (take n ops) s b);
      try done; try lia.
    + by apply Forall_take.
    + pose proof (refunded_take ops n Hall). lia.
Qed.

(** The theorem at a budget of 100 and the sequence deduct 60, refund 60. *)
Lemma budget_invariant_witness :
  ∃ s id,
    Create (allocated 100).2 5 (allocated 100).1 = Some (s, None)
    ∧ id = generateBudgetID
    ∧ (balanced s id [] [OpDeduct 60; OpRefund 60] →
       ∃ s' b',
         run s id (take 2 [OpDeduct 60; OpRefund 60]) = Some s'
         ∧ budget_of s' id = Some b'
         ∧ TotalBudget b' = 100
         ∧ 0 ≤ Remaining b' ≤ 100
         ∧ Remaining b' + TotalSpent b' = 100)
    ∧ (Forall (λ o, 0 ≤ amount_of o) [OpDeduct 60; OpRefund 60] →
       100 + refunded [OpDeduct 60; OpRefund 60] ≤ max_int64 →
       ∃ s' b',
         run s id (take 2 [OpDeduct 60; OpRefund 60]) = Some s'
         ∧ budget_of s' id = Some b'
         ∧ TotalBudget b' = 100
         ∧ 0 ≤ Remaining b'
         ∧ Remaining b' + TotalSpent b' = 100).
Proof.
  apply (budget_invariant (allocated 100).2 5 (allocated 100).1
           (budget_literal "" "agent" 100) [OpDeduct 60; OpRefund 60] 2).
  - vm_compute. reflexivity.
  - reflexivity.
  - vm_compute. split; discriminate.
Defined.

(** C2 as stated fails: a refund that no deduction precedes takes the
    remaining balance of a budget of 100 to 150. *)
Lemma refund_exceeds_total :
  ('(s, id) ← created 100 5;
   s' ← run s id [OpRefund 50];
   b' ← budget_of s' id;
   Some (Remaining b', TotalBudget b')) = Some (150, 100)
  ∧ ¬ (0 ≤ 150 ≤ 100).
Proof. split; [vm_compute; reflexivity|lia]. Qed.

(** C9. [generateBudgetID] is the constant "budget_" followed by 32 zero
    digits; [Create] gives it to every budget whose ID is empty, so of two
    such budgets created one after the other only the second is left in the
    primary index. *)
Theorem generateBudgetID_constant :
  generateBudgetID = "budget_00000000000000000000000000000000"
  ∧ (∀ s now p b,
       objects s !! p = Some b → ID b = "" →
       ∃ s', Create s now p = Some (s', None)
             ∧ budgets s' !! generateBudgetID = Some p
             ∧ ID <$> objects s' !! p = Some generateBudgetID)
  ∧ (∀ s now1 now2 p1 p2 b1 b2,
       p1 ≠ p2 →
       objects s !! p1 = Some b1 → objects s !! p2 = Some b2 →
       ID b1 = "" → ID b2 = "" →
       ∃ s1 s2,
         Create s now1 p1 = Some (s1, None)
         ∧ budgets s1 !! generateBudgetID = Some p1
         ∧ Create s1 now2 p2 = Some (s2, None)
         ∧ budgets s2 !! generateBudgetID = Some p2
         ∧ budgets s2 = <[generateBudgetID := p2]> (budgets s)).
Proof.
  split; [vm_compute; reflexivity|]. split.
  - intros s now p b Hb Hid.
    destruct (Create_spec s now p b Hb) as (s' & Hc & Hbud & Hobj).
    rewrite decide_True in Hbud, Hobj by done.
    exists s'. split; [done|]. split.
    + rewrite Hbud. apply lookup_insert_eq.
    + rewrite Hobj, lookup_insert_eq. done.
  - intros s now1 now2 p1 p2 b1 b2 Hne Hb1 Hb2 Hid1 Hid2.
    destruct (Create_spec s now1 p1 b1 Hb1) as (s1 & Hc1 & Hbud1 & Hobj1).
    rewrite decide_True in Hbud1, Hobj1 by done.
    assert (Hb2' : objects s1 !! p2 = Some b2)
      by (rewrite Hobj1, lookup_insert_ne; done).
    destruct (Create_spec s1 now2 p2 b2 Hb2') as (s2 & Hc2 & Hbud2 & Hobj2).
    rewrite decide_True in Hbud2, Hobj2 by done.
    exists s1, s2. split; [done|].
    split; [rewrite Hbud1; apply lookup_insert_eq|].
    split; [done|].
    split; [rewrite Hbud2; apply lookup_insert_eq|].
    rewrite Hbud2, Hbud1. apply insert_insert_eq.
Qed.

(** The theorem at two budgets built with an empty ID. *)
Lemma generateBudgetID_constant_witness :
  ∃ s',
    Create (allocated 100).2 5 (allocated 100).1 = Some (s', None)
    ∧ budgets s' !! generateBudgetID = Some (allocated 100).1
    ∧ ID <$> objects s' !! (allocated 100).1 = Some generateBudgetID.
Proof.
  apply (proj1 (proj2 generateBudgetID_constant) (allocated 100).2 5
           (allocated 100).1 (budget_literal "" "agent" 100)).
  - vm_compute. reflexivity.
  - reflexivity.
Defined.

End PreAuthProperties.

(** ** The metering store *)

Section MeteringProperties.
Import Metering.

Lemma RecordRequest_below s m :
  Z.of_nat (length (metrics s)) < maxSize s →
  RecordRequest s m
  = Some (mkStore (metrics s ++ [m]) (maxSize s) (currency s), None).
Proof.
  intros Hlt. unfold RecordRequest. rewrite decide_False by lia. done.
Qed.

Lemma RecordRequest_full s m oldest rest :
  metrics s = oldest :: rest →
  maxSize s ≤ Z.of_nat (length (metrics s)) →
  RecordRequest s m
  = Some (mkStore (rest ++ [m]) (maxSize s) (currency s), None).
Proof.
  intros Hm Hge. unfold RecordRequest. rewrite decide_True by lia.
  rewrite Hm. done.
Qed.

Lemma record_all_last s ms :
  0 < maxSize s →
  Z.of_nat (length (metrics s)) ≤ maxSize s →
  ∃ s', record_all s ms = Some s'
        ∧ maxSize s' = maxSize s
        ∧ metrics s'
          = drop (length (metrics s ++ ms) - Z.to_nat (maxSize s))
              (metrics s ++ ms).
Proof.
  revert s. induction ms as [|m ms IH]; intros s Hpos Hlen.
  { exists s. split; [done|]. split; [done|].
    rewrite app_nil_r.
    replace (length (metrics s) - Z.to_nat (maxSize s))%nat with 0%nat by lia.
    done. }
  simpl. destruct (decide (Z.of_nat (length (metrics s)) < maxSize s)) as [Hlt|Hge].
  - rewrite (RecordRequest_below _ _ Hlt). simpl.
    destruct (IH (mkStore (metrics s ++ [m]) (maxSize s) (currency s)))
      as (s' & Hrun & Hmax & Hmet); simpl; [done|rewrite length_app; simpl; lia|].
    simpl in *. exists s'. split; [done|]. split; [done|].
    rewrite Hmet, <- app_assoc. done.
  - destruct (metrics s) as [|oldest rest] eqn:Hm; [simpl in *; lia|].
    rewrite (RecordRequest_full s m oldest rest Hm) by (rewrite Hm; lia).
    simpl.
    destruct (IH (mkStore (rest ++ [m]) (maxSize s) (currency s)))
      as (s' & Hrun & Hmax & Hmet); simpl;
      [done|rewrite length_app; simpl in *; lia|].
    simpl in *. exists s'. split; [done|]. split; [done|].
    rewrite Hmet, <- app_assoc. simpl.
    rewrite !length_app. simpl.
    replace (S (length rest + S (length ms)) - Z.to_nat (maxSize s))%nat
      with (S (length rest + S (length ms) - Z.to_nat (maxSize s)))%nat by lia.
    done.
Qed.

(** C4. After more than [c] calls of [RecordRequest] on a new store of
    capacity [c > 0], the store holds exactly [c] metrics, the last [c]
    recorded, in the order they were recorded; a call on a full store drops
    the oldest metric only. *)
Theorem metering_bound (c : Z) (cur : string) (ms : list UsageMetric) :
  0 < c →
  c < Z.of_nat (length ms) →
  (∃ s, record_all (NewInMemoryMeteringStore c cur) ms = Some s
        ∧ metrics s = drop (length ms - Z.to_nat c) ms
        ∧ Z.of_nat (length (metrics s)) = c)
  ∧ (∀ s m oldest rest,
       maxSize s = c → metrics s = oldest :: rest →
       Z.of_nat (length (metrics s)) = c →
       ∃ s', RecordRequest s m = Some (s', None)
             ∧ metrics s' = rest ++ [m]
             ∧ Z.of_nat (length (metrics s')) = c).
Proof.
  intros Hc HN. split.
  - destruct (record_all_last (NewInMemoryMeteringStore c cur) ms)
      as (s & Hrun & Hmax & Hmet).
    { unfold NewInMemoryMeteringStore. simpl. rewrite decide_False; lia. }
    { unfold NewInMemoryMeteringStore. simpl. rewrite decide_False; lia. }
    exists s. split; [done|].
    unfold NewInMemoryMeteringStore in Hmet. simpl in Hmet.
    rewrite decide_False in Hmet by lia. simpl in Hmet.
    split; [done|]. rewrite Hmet, length_drop. lia.
  - intros s m oldest rest Hmax Hm Hlen.
    eexists. split; [apply (RecordRequest_full s m oldest rest Hm); lia|].
    simpl. split; [done|].
    rewrite Hm in Hlen. rewrite length_app. simpl in *. lia.
Qed.

(** The theorem at capacity 2 and three metrics. *)
Lemma metering_bound_witness :
  (∃ s, record_all (NewInMemoryMeteringStore 2 "USDC")
          [Samples.metric 1; Samples.metric 2; Samples.metric 3] = Some s
        ∧ metrics s = [Samples.metric 2; Samples.metric 3]
        ∧ Z.of_nat (length (metrics s)) = 2).
Proof.
  apply (metering_bound 2 "USDC"
           [Samples.metric 1; Samples.metric 2; Samples.metric 3]).
  - lia.
  - simpl. lia.
Defined.

End MeteringProperties.

(** ** Strings *)

Section StringFacts.
Import strings.

Lemma app_cons (a : ascii) (s t : string) :
  String a s +:+ t = String a (s +:+ t).
Proof. reflexivity. Qed.

Lemma app_empty_l (t : string) : "" +:+ t = t.
Proof. reflexivity. Qed.

Lemma app_empty_r (s : string) : s +:+ "" = s.
Proof. induction s as [|a s IH]; [done|]. by rewrite app_cons, IH. Qed.

Lemma len_app (s t : string) : len (s +:+ t) = (len s + len t)%nat.
Proof.
  unfold len. induction s as [|a s IH]; [done|].
  rewrite app_cons. simpl. by rewrite IH.
Qed.

Lemma substring_0_all (s : string) : String.substring 0 (String.length s) s = s.
Proof. induction s as [|a s IH]; [done|]. simpl. by rewrite IH. Qed.

Lemma substring_0_app (p t : string) :
  String.substring 0 (String.length p) (p +:+ t) = p.
Proof.
  induction p as [|a p IH]; [by destruct t|].
  rewrite app_cons. simpl. by rewrite IH.
Qed.

Lemma substring_app_r (p t : string) (m : nat) :
  String.substring (String.length p) m (p +:+ t) = String.substring 0 m t.
Proof. induction p as [|a p IH]; [done|]. rewrite app_cons. simpl. done. Qed.

Lemma substring_split (s : string) (n : nat) :
  (n ≤ String.length s)%nat →
  String.substring 0 n s +:+ String.substring n (String.length s - n) s = s.
Proof.
  revert n. induction s as [|a s IH]; intros n Hn.
  { simpl in Hn. by replace n with 0%nat by lia. }
  destruct n as [|n].
  - simpl. rewrite app_empty_l. by rewrite substring_0_all.
  - simpl in *. rewrite app_cons. rewrite IH by lia. done.
Qed.

(** [s] begins with [p] exactly when [s[:len p] == p]. *)
Lemma slice_prefix_iff (s p : string) :
  (len p ≤ len s)%nat ∧ slice s 0 (len p) = p ↔ ∃ t, s = p +:+ t.
Proof.
  unfold slice, len. rewrite Nat.sub_0_r. split.
  - intros [Hlen Hsub].
    exists (String.substring (String.length p)
              (String.length s - String.length p) s).
    rewrite <- Hsub at 1. by rewrite substring_split.
  - intros [t ->]. split.
    + pose proof (len_app p t) as H. unfold len in H. lia.
    + apply substring_0_app.
Qed.

Lemma HasPrefix_iff (s p : string) :
  HasPrefix s p = true ↔ ∃ t, s = p +:+ t.
Proof.
  unfold HasPrefix. rewrite String.prefix_correct.
  rewrite <- slice_prefix_iff. unfold slice, len. rewrite Nat.sub_0_r.
  split; [|tauto]. intros H. split; [|done].
  clear -H. revert s H. induction p as [|a p IH]; intros s H; simpl; [lia|].
  destruct s as [|b s]; simpl in *; [done|].
  injection H as _ H. specialize (IH s H). lia.
Qed.

Lemma app_inj_r (p q t : string) : p +:+ t = q +:+ t → p = q.
Proof.
  intros H.
  assert (String.length p = String.length q) as Hlen.
  { pose proof (f_equal len H) as Hl. rewrite !len_app in Hl.
    unfold len in Hl. lia. }
  rewrite <- (substring_0_app p t), H, Hlen. apply substring_0_app.
Qed.

(** The last [n] bytes of [s] are [t] exactly when [s] ends with [t]. *)
Lemma slice_suffix_iff (s t : string) :
  (len t ≤ len s)%nat ∧ slice s (len s - len t) (len s) = t
  ↔ ∃ p, s = p +:+ t.
Proof.
  unfold slice, len. split.
  - intros [Hlen Hsub].
    exists (String.substring 0 (String.length s - String.length t) s).
    rewrite <- Hsub at 2.
    replace (String.length s - (String.length s - String.length t))%nat
      with (String.length s - (String.length s - String.length t))%nat
      by done.
    symmetry. apply substring_split. lia.
  - intros [p ->].
    pose proof (len_app p t) as H. unfold len in H. rewrite H.
    split; [lia|].
    replace (String.length p + String.length t - String.length t)%nat
      with (String.length p) by lia.
    replace (String.length p + String.length t - String.length p)%nat
      with (String.length t) by lia.
    rewrite substring_app_r. apply substring_0_all.
Qed.

Lemma get_app_r (p t : string) (i : nat) :
  String.get (String.length p + i) (p +:+ t) = String.get i t.
Proof. induction p as [|a p IH]; [done|]. rewrite app_cons. simpl. done. Qed.

(** The last byte of a non-empty [s] is [c] exactly when [s] ends with it. *)
Lemma get_last_iff (s : string) (c : ascii) :
  (1 ≤ len s)%nat ∧ String.get (len s - 1) s = Some c
  ↔ ∃ p, s = p +:+ String c "".
Proof.
  rewrite <- slice_suffix_iff. unfold slice, len. simpl.
  split; intros [Hlen H]; (split; [done|]).
  - replace (String.length s - (String.length s - 1))%nat with 1%nat by lia.
    revert Hlen H. generalize (String.length s - 1)%nat as n.
    induction s as [|a s IH]; intros n Hlen H; [simpl in *; lia|].
    destruct n as [|n]; simpl in *.
    + injection H as ->. destruct s; [done|]. simpl in *.
      (* the index is the last one *)
      done.
    + destruct s as [|b s]; [by destruct n|].
      apply (IH n); [simpl; lia|done].
  - replace (String.length s - (String.length s - 1))%nat with 1%nat in H
      by lia.
    revert Hlen H. generalize (String.length s - 1)%nat as n.
    induction s as [|a s IH]; intros n Hlen H; [simpl in *; lia|].
    destruct n as [|n]; simpl in *.
    + destruct s; simpl in *; congruence.
    + destruct s as [|b s]; [by destruct n|].
      apply (IH n); [simpl; lia|done].
Qed.

End StringFacts.

(** ** Sessions *)

Section SessionProperties.
Import Session.

Lemma len_pos_nonempty (s : string) : s ≠ "" ↔ (0 < strings.len s)%nat.
Proof. destruct s; simpl; split; intros; try done; try lia. Qed.

(** A pattern matches a path when it is "*" or "/*", when it is the path
    itself, or when it is a non-empty prefix followed by "/*" and the path
    begins with that prefix. *)
Lemma matchesPattern_spec (path pattern : string) :
  matchesPattern path pattern = true
  ↔ pattern = "*" ∨ pattern = "/*" ∨ path = pattern
    ∨ ∃ prefix t, prefix ≠ "" ∧ pattern = prefix +:+ "/*"
                  ∧ path = prefix +:+ t.
Proof.
  unfold matchesPattern. case_decide as Hstar.
  { split; [intros _; destruct Hstar; auto|done]. }
  destruct (bool_decide (2 < strings.len pattern)%nat
            && bool_decide
                 (strings.slice pattern (strings.len pattern - 2)
                    (strings.len pattern) = "/*")) eqn:Hcond.
  - apply andb_true_iff in Hcond as [Hlen Hsuf].
    apply bool_decide_eq_true in Hlen, Hsuf.
    destruct (proj1 (slice_suffix_iff pattern "/*")) as [p Hp].
    { split; [simpl; lia|exact Hsuf]. }
    subst pattern. rewrite len_app in Hlen |- *. simpl in Hlen |- *.
    replace (strings.len p + 2 - 2)%nat with (strings.len p) by lia.
    assert (strings.slice (p +:+ "/*") 0 (strings.len p) = p) as Hpre.
    { unfold strings.slice, strings.len. rewrite Nat.sub_0_r.
      apply substring_0_app. }
    rewrite Hpre.
    rewrite andb_true_iff, !bool_decide_eq_true, slice_prefix_iff.
    split.
    + intros [t Ht]. right; right; right. exists p, t.
      split; [apply len_pos_nonempty; lia|done].
    + intros [H|[H|[H|(q & t & Hq & Hpat & Hpath)]]].
      * exfalso. apply Hstar. by left.
      * exfalso. apply Hstar. by right.
      * by exists "/*".
      * apply app_inj_r in Hpat. subst q. by exists t.
  - rewrite bool_decide_eq_true. split; [auto|].
    intros [H|[H|[H|(q & t & Hq & Hpat & Hpath)]]]; [| |done|].
    + exfalso. apply Hstar. by left.
    + exfalso. apply Hstar. by right.
    + exfalso. subst pattern.
      apply len_pos_nonempty in Hq.
      apply andb_false_iff in Hcond as [Hc|Hc];
        apply bool_decide_eq_false in Hc; apply Hc.
      * rewrite len_app. simpl. lia.
      * apply (proj2 (slice_suffix_iff (q +:+ "/*") "/*")). by exists q.
Qed.

Lemma allowed_spec (path : string) (endpoints : list string) :
  existsb (λ endpoint, bool_decide (path = endpoint)
                       || matchesPattern path endpoint) endpoints = true
  ↔ ∃ e, e ∈ endpoints
         ∧ (path = e ∨ e = "*" ∨ e = "/*"
            ∨ ∃ prefix t, prefix ≠ "" ∧ e = prefix +:+ "/*"
                          ∧ path = prefix +:+ t).
Proof.
  rewrite existsb_exists. split.
  - intros (e & Hin & He). exists e. split; [by apply list_elem_of_In|].
    apply orb_true_iff in He as [He|He].
    + apply bool_decide_eq_true in He. by left.
    + apply matchesPattern_spec in He. tauto.
  - intros (e & Hin & He). exists e. split; [by apply list_elem_of_In|].
    apply orb_true_iff. right. apply matchesPattern_spec. tauto.
Qed.

Section gate.
Import SessionGate.
Context {A : Type}.
Variable Marshal : json.value → string.
Variable FormatRFC3339 : Z → string.
Variable RoundedDurationString : Z → string.

Lemma sendSessionError_status w code message :
  http.status w = None →
  http.status (sendSessionError Marshal w code message)
  = Some http.StatusUnauthorized.
Proof.
  intros Hw. unfold sendSessionError, http.Write, http.WriteHeader. simpl.
  rewrite Hw. done.
Qed.

(** C5. [validateSession] looks at the active flag first, then at the expiry
    ([now > expiresAt]), then at the request count of a request-bounded
    session ([used ≥ max]), then at the allowed endpoints (none listed, the
    path itself, "*", "/*", or a prefix followed by "/*" that the path begins
    with); each check that fails gives its own reason, so an active,
    unexpired request-bounded session with [used = max] is refused as
    exhausted. The middleware answers a failing validation, and an unknown
    session, with status 401. *)
Theorem validateSession_order (session : Session) (now : Z) (path : string) :
  (Active session = false →
   validateSession session now path = Some "session is inactive")
  ∧ (Active session = true → ExpiresAt session < now →
     validateSession session now path = Some "session has expired")
  ∧ (Active session = true → now ≤ ExpiresAt session →
     SessionType session = SessionTypeRequests →
     MaxRequests session ≤ UsedRequests session →
     validateSession session now path
     = Some "session request limit exceeded")
  ∧ (Active session = true → now ≤ ExpiresAt session →
     SessionType session = SessionTypeRequests →
     UsedRequests session = MaxRequests session →
     validateSession session now path
     = Some "session request limit exceeded")
  ∧ (Active session = true → now ≤ ExpiresAt session →
     ¬ (SessionType session = SessionTypeRequests
        ∧ MaxRequests session ≤ UsedRequests session) →
     let allowed :=
       AllowedEndpoints session = []
       ∨ ∃ e, e ∈ AllowedEndpoints session
              ∧ (path = e ∨ e = "*" ∨ e = "/*"
                 ∨ ∃ prefix t, prefix ≠ "" ∧ e = prefix +:+ "/*"
                               ∧ path = prefix +:+ t) in
     (allowed → validateSession session now path = None)
     ∧ (¬ allowed →
        validateSession session now path
        = Some "endpoint not allowed for this session"))
  ∧ (∀ (next : http.Handler (World A)) st w r,
       http.Get (http.ReqHeader r) "X-Session-ID" ≠ "" →
       http.status w = None →
       (sessions (sessionStore st)
          !! http.Get (http.ReqHeader r) "X-Session-ID" = None →
        ∃ w', SessionMiddleware Marshal FormatRFC3339 RoundedDurationString
                next st w r = Some (st, w')
              ∧ http.status w' = Some 401)
       ∧ (∀ p reason,
            sessions (sessionStore st)
              !! http.Get (http.ReqHeader r) "X-Session-ID" = Some p →
            objects (sessionStore st) !! p = Some session →
            validateSession session (clock st) (http.Path r) = Some reason →
            SessionMiddleware Marshal FormatRFC3339 RoundedDurationString
              next st w r
            = Some (st, sendSessionError Marshal w "session_error" reason)
            ∧ http.status (sendSessionError Marshal w "session_error" reason)
              = Some 401
            ∧ http.status (sendSessionError Marshal w "session_error" reason)
              ≠ Some 402)).
Proof.
  assert (Hexh : Active session = true → now ≤ ExpiresAt session →
                 SessionType session = SessionTypeRequests →
                 MaxRequests session ≤ UsedRequests session →
                 validateSession session now path
                 = Some "session request limit exceeded").
  { intros Hact Hexp Hty Hmax. unfold validateSession, time.After.
    rewrite Hact. simpl. rewrite bool_decide_eq_false_2 by lia.
    rewrite !bool_decide_eq_true_2 by done. done. }
  split.
  { intros Hact. unfold validateSession. by rewrite Hact. }
  split.
  { intros Hact Hexp. unfold validateSession, time.After. rewrite Hact. simpl.
    by rewrite bool_decide_eq_true_2. }
  split; [exact Hexh|].
  split.
  { intros Hact Hexp Hty Heq. apply Hexh; try done. lia. }
  split.
  { intros Hact Hexp Hnot allowed. unfold validateSession, time.After.
    rewrite Hact. simpl. rewrite bool_decide_eq_false_2 by lia.
    assert (bool_decide (SessionType session = SessionTypeRequests)
            && bool_decide (MaxRequests session ≤ UsedRequests session)
            = false) as ->.
    { apply not_true_is_false. intros H.
      apply andb_true_iff in H as [H1 H2].
      apply bool_decide_eq_true in H1, H2. by apply Hnot. }
    subst allowed.
    destruct (AllowedEndpoints session) as [|e0 es] eqn:Hes.
    { simpl. split; [done|]. intros H. exfalso. apply H. by left. }
    rewrite bool_decide_eq_true_2 by (simpl; lia).
    destruct (existsb _ (e0 :: es)) eqn:Hex; simpl.
    - split; [done|]. intros H. exfalso. apply H. right.
      by apply allowed_spec.
    - split; [|done]. intros [H|H]; [done|].
      apply allowed_spec in H. congruence. }
  intros next st w r Hid Hw. split.
  - intros Hnone. eexists. split.
    + unfold SessionMiddleware. rewrite decide_False by done.
      unfold GetSession. rewrite Hnone. reflexivity.
    + by apply sendSessionError_status.
  - intros p reason Hp Hobj Hval. split; [|split].
    + unfold SessionMiddleware. rewrite decide_False by done.
      unfold GetSession. rewrite Hp. simpl. rewrite Hobj. simpl.
      rewrite Hval. done.
    + by apply sendSessionError_status.
    + rewrite sendSessionError_status by done. discriminate.
Qed.

(** C10. A request without a session identifier (no X-Session-ID header, or
    an empty one) goes to the next handler as it came, with the writer and
    the world, session store included, as the middleware received them. *)
Theorem SessionMiddleware_no_session (next : http.Handler (World A))
    (st : World A) (w : http.ResponseWriter) (r : http.Request) :
  http.ReqHeader r !! "X-Session-ID" = None
  ∨ http.ReqHeader r !! "X-Session-ID" = Some "" →
  SessionMiddleware Marshal FormatRFC3339 RoundedDurationString next st w r
  = Some (http.ServeHTTP next st w r).
Proof.
  intros Hhdr. unfold SessionMiddleware.
  assert (http.Get (http.ReqHeader r) "X-Session-ID" = "") as ->.
  { unfold http.Get. by destruct Hhdr as [-> | ->]. }
  done.
Qed.

End gate.

End SessionProperties.

(** The theorems at a request-bounded session that has used its two
    requests, and at a request without a session header. *)
Lemma validateSession_order_witness :
  Session.validateSession Samples.exhausted_session 10 "/api/data"
  = Some "session request limit exceeded".
Proof.
  apply (proj1 (proj2 (proj2 (proj2
           (validateSession_order (A:=unit) Samples.marshal Samples.format
              Samples.format Samples.exhausted_session 10 "/api/data"))))).
  - reflexivity.
  - simpl. lia.
  - reflexivity.
  - reflexivity.
Defined.

Lemma SessionMiddleware_no_session_witness :
  SessionGate.SessionMiddleware Samples.marshal Samples.format Samples.format
    Samples.ok_handler Samples.session_world http.NewRecorder
    (Samples.request "/api/data" ∅)
  = Some (http.ServeHTTP Samples.ok_handler Samples.session_world
            http.NewRecorder (Samples.request "/api/data" ∅)).
Proof.
  apply (SessionMiddleware_no_session Samples.marshal Samples.format
           Samples.format).
  left. vm_compute. reflexivity.
Defined.

(** ** The payment gate *)

Section GateProperties.
Import Protocol Gate.
Context {A : Type}.
Variable Marshal : json.value → string.
Variable FormatRFC3339 : Z → string.
Variable DecodeStd : string → option string.
Variable DecodeURL : string → option string.
Variable Unmarshal : string → option Schemes.PaymentPayload.
Variable DefaultRegistry : Schemes.SchemeRegistry (World A).

Lemma isExemptPath_iff (path : string) (exemptPaths : list string) :
  isExemptPath path exemptPaths = true
  ↔ ∃ p s, p ∈ exemptPaths ∧ path = p +:+ s.
Proof.
  unfold isExemptPath. rewrite existsb_exists. split.
  - intros (p & Hin & Hpre). apply HasPrefix_iff in Hpre as [s Hs].
    exists p, s. split; [by apply list_elem_of_In|done].
  - intros (p & s & Hin & Hs). exists p.
    split; [by apply list_elem_of_In|]. apply HasPrefix_iff. by exists s.
Qed.

Lemma ExemptPaths_defaultCurrency (config : @Config A) :
  ExemptPaths (defaultCurrency config) = ExemptPaths config.
Proof. unfold defaultCurrency. by case_decide. Qed.

Lemma ExemptPaths_defaultMultiCurrency (config : @MultiSchemeConfig A) :
  ExemptPaths (Base (defaultMultiCurrency config))
  = ExemptPaths (Base config).
Proof. unfold defaultMultiCurrency. by case_decide. Qed.

(** C7. A request whose path is a configured exempt prefix followed by any
    suffix is handed to the next handler by both middlewares, with the world
    and the writer they received: no token is looked for, no verifier runs.
    The match is on bytes: "/health" exempts "/healthz". *)
Theorem exempt_path_forwarded (next : http.Handler (World A))
    (config : Config) (multi : MultiSchemeConfig)
    (st : World A) (w : http.ResponseWriter) (r : http.Request)
    (p s : string) :
  http.Path r = p +:+ s →
  (p ∈ ExemptPaths config →
   Middleware Marshal FormatRFC3339 next config st w r
   = http.ServeHTTP next st w r)
  ∧ (p ∈ ExemptPaths (Base multi) →
     MultiSchemeMiddleware Marshal DecodeStd DecodeURL Unmarshal
       DefaultRegistry next multi st w r
     = Some (http.ServeHTTP next st w r))
  ∧ isExemptPath "/healthz" ["/health"] = true.
Proof.
  intros Hpath. split; [|split; [|reflexivity]].
  - intros Hin. unfold Middleware.
    rewrite ExemptPaths_defaultCurrency.
    rewrite (proj2 (isExemptPath_iff _ _)); [done|]. by exists p, s.
  - intros Hin. unfold MultiSchemeMiddleware.
    rewrite ExemptPaths_defaultMultiCurrency.
    rewrite (proj2 (isExemptPath_iff _ _)); [done|]. by exists p, s.
Qed.

Lemma send402_shape (w : http.ResponseWriter)
    (response : PaymentRequiredResponse) :
  http.status w = None →
  http.status (send402 Marshal w response) = Some 402
  ∧ http.body (send402 Marshal w response)
    = http.body w +:+ (Marshal (response_json response)
                       +:+ String "010"%char EmptyString)
  ∧ http.header (send402 Marshal w response) !! "PAYMENT-REQUIRED"
    = Some (base64.EncodeToString (Marshal (response_json response)))
  ∧ http.header (send402 Marshal w response) !! "Content-Type"
    = Some "application/json".
Proof.
  intros Hw. unfold send402, http.Write, http.WriteHeader. simpl.
  rewrite Hw. simpl. split; [done|]. split; [done|].
  split; [apply lookup_insert_eq|].
  rewrite lookup_insert_ne by done. apply lookup_insert_eq.
Qed.

(** C6. Away from the exempt paths, each way the multi-scheme gate turns a
    request down (no token, a token that does not parse, a scheme that is not
    registered, a verifier that returns an error or an invalid result) ends
    in the one response of [sendMultiSchemePaymentRequired]: status 402, a
    body that is the JSON object with [x402Version] 1, the non-empty
    [accepts] list and the [error] message (followed by a newline), and a
    PAYMENT-REQUIRED header that is the base64 of that JSON. *)
Theorem multi_scheme_rejection (next : http.Handler (World A))
    (config : MultiSchemeConfig)
    (st : World A) (w : http.ResponseWriter) (r : http.Request) :
  let cfg := defaultMultiCurrency config in
  let registry := default DefaultRegistry (SchemeRegistry cfg) in
  let token := extractPaymentToken r (AcceptedMethods (Base cfg)) in
  let response := sendMultiSchemePaymentRequired Marshal w cfg r in
  let served :=
    MultiSchemeMiddleware Marshal DecodeStd DecodeURL Unmarshal
      DefaultRegistry next config st w r in
  isExemptPath (http.Path r) (ExemptPaths (Base cfg)) = false →
  (token = "" → served = Some (st, response))
  ∧ (token ≠ "" →
     (parsePaymentPayload DecodeStd DecodeURL Unmarshal token).2 ≠ None →
     served = Some (st, response))
  ∧ (∀ payload,
       token ≠ "" →
       parsePaymentPayload DecodeStd DecodeURL Unmarshal token
       = (Some payload, None) →
       (Schemes.Get registry (Schemes.Scheme payload) = None →
        served = Some (st, response))
       ∧ (∀ scheme st1 result err,
            Schemes.Get registry (Schemes.Scheme payload) = Some scheme →
            Schemes.Verify scheme st payload
              (verificationRequirements cfg payload r)
            = (st1, (result, err)) →
            (err ≠ None
             ∨ ∃ res, result = Some res ∧ Schemes.Valid res = false) →
            served = Some (st1, response)))
  ∧ (http.status w = None →
     ∃ accepts,
       accepts ≠ []
       ∧ let payload_json :=
           json.JObject
             [("x402Version", json.JNumber 1);
              ("accepts", json.JArray (requirements_json <$> accepts));
              ("error",
               json.JString
                 "Payment required - select a supported scheme and network")]
         in
         http.status response = Some 402
         ∧ http.body response
           = http.body w +:+ (Marshal payload_json
                              +:+ String "010"%char EmptyString)
         ∧ http.header response !! "PAYMENT-REQUIRED"
           = Some (base64.EncodeToString (Marshal payload_json))).
Proof.
  intros cfg registry token response served Hexempt.
  subst served. unfold MultiSchemeMiddleware.
  fold cfg. fold registry. rewrite Hexempt. fold token. fold response.
  split; [|split; [|split]].
  - intros ->. done.
  - intros Htok Herr. rewrite bool_decide_eq_false_2 by done.
    destruct (parsePaymentPayload _ _ _ token) as [payload [e|]]; [done|].
    by simpl in Herr.
  - intros payload Htok Hparse. rewrite bool_decide_eq_false_2 by done.
    rewrite Hparse. simpl. split.
    + intros ->. done.
    + intros scheme st1 result err -> Hver Hbad. rewrite Hver.
      destruct err as [e|]; [done|].
      destruct Hbad as [Hbad|(res & -> & Hres)]; [done|].
      by rewrite Hres.
  - intros Hw. subst response. unfold sendMultiSchemePaymentRequired.
    match goal with
    | |- context [send402 _ _ (mkResponse _ ?acc _)] => exists acc
    end.
    split.
    { case_decide as Hlen; [done|]. intros Hnil. by rewrite Hnil in Hlen. }
    destruct (send402_shape w
                (mkResponse X402Version
                   (if decide
                         (length (BuildMultiSchemeRequirements cfg
                                    (resourceOf r)) = 0%nat)
                    then [mkRequirements "exact" "base-sepolia"
                            (pretty (PricePerRequest (Base cfg)))
                            (resourceOf r) (Description (Base cfg)) ""
                            (PayTo (Base cfg)) 60 (Asset (Base cfg))
                            json.JNull ∅]
                    else BuildMultiSchemeRequirements cfg (resourceOf r))
                   "Payment required - select a supported scheme and network")
                Hw) as (H1 & H2 & H3 & _).
    done.
Qed.

End GateProperties.

(** The theorems at a gate that exempts "/health". *)
Lemma exempt_path_forwarded_witness :
  Gate.Middleware Samples.marshal Samples.format Samples.ok_handler
    Samples.gate_config Samples.world0 http.NewRecorder
    (Samples.request "/healthz" ∅)
  = http.ServeHTTP Samples.ok_handler Samples.world0 http.NewRecorder
      (Samples.request "/healthz" ∅).
Proof.
  apply (proj1 (exempt_path_forwarded Samples.marshal Samples.format
                  Samples.decode Samples.decode Samples.unmarshal
                  Schemes.NewSchemeRegistry Samples.ok_handler
                  Samples.gate_config Samples.multi_config Samples.world0
                  http.NewRecorder (Samples.request "/healthz" ∅)
                  "/health" "z" eq_refl)).
  vm_compute. left.
Defined.

Lemma multi_scheme_rejection_witness :
  Gate.MultiSchemeMiddleware Samples.marshal Samples.decode Samples.decode
    Samples.unmarshal Schemes.NewSchemeRegistry Samples.ok_handler
    Samples.multi_config Samples.world0 http.NewRecorder
    (Samples.request "/api/data" ∅)
  = Some (Samples.world0,
          Gate.sendMultiSchemePaymentRequired Samples.marshal http.NewRecorder
            (Gate.defaultMultiCurrency Samples.multi_config)
            (Samples.request "/api/data" ∅)).
Proof.
  apply (proj1 (multi_scheme_rejection Samples.marshal Samples.decode
                  Samples.decode Samples.unmarshal Schemes.NewSchemeRegistry
                  Samples.ok_handler Samples.multi_config Samples.world0
                  http.NewRecorder (Samples.request "/api/data" ∅)
                  eq_refl)).
  reflexivity.
Defined.

(** ** The scheme registry *)

Section SchemesProperties.
Import Schemes.

Lemma isWildcardMatch_star (p network : string) :
  p ≠ "" →
  isWildcardMatch (p +:+ "*") network = true
  ↔ (strings.len p < strings.len network)%nat ∧ ∃ t, network = p +:+ t.
Proof.
  intros Hp. apply len_pos_nonempty in Hp.
  unfold isWildcardMatch. rewrite len_app. simpl.
  rewrite bool_decide_eq_false_2 by lia. simpl.
  replace (strings.len p + 1 - 1)%nat with (strings.len p) by lia.
  assert (String.get (strings.len p) (p +:+ "*") = Some "*"%char) as ->.
  { pose proof (get_app_r p "*" 0) as H. rewrite Nat.add_0_r in H.
    unfold strings.len. by rewrite H. }
  rewrite bool_decide_eq_true_2 by done. simpl.
  assert (strings.slice (p +:+ "*") 0 (strings.len p) = p) as ->.
  { unfold strings.slice, strings.len. rewrite Nat.sub_0_r.
    apply substring_0_app. }
  rewrite andb_true_iff, !bool_decide_eq_true.
  rewrite <- slice_prefix_iff. split; [intros [H1 H2]|intros [H1 [_ H2]]].
  - split; [done|]. split; [lia|done].
  - done.
Qed.

Lemma isWildcardMatch_no_star (pattern network : string) :
  (¬ ∃ p, pattern = p +:+ "*") → isWildcardMatch pattern network = false.
Proof.
  intros Hno. unfold isWildcardMatch.
  destruct (bool_decide (strings.len pattern < 2)%nat) eqn:Hlen; [done|].
  apply bool_decide_eq_false in Hlen. simpl.
  destruct (bool_decide
              (String.get (strings.len pattern - 1) pattern = Some "*"%char))
    eqn:Hget; [|done].
  apply bool_decide_eq_true in Hget. exfalso. apply Hno.
  apply (proj1 (get_last_iff pattern "*"%char)). split; [lia|done].
Qed.

Lemma SupportsNetwork_iff {W} (r : SchemeRegistry W) (network : string) :
  SupportsNetwork r network = true
  ↔ ∃ t scheme n,
      schemes r !! t = Some scheme ∧ n ∈ SupportedNetworks scheme
      ∧ (n = network ∨ isWildcardMatch n network = true).
Proof.
  unfold SupportsNetwork. rewrite existsb_exists. split.
  - intros ([t scheme] & Hin & Hex). simpl in Hex.
    apply list_elem_of_In, elem_of_map_to_list in Hin.
    apply existsb_exists in Hex as (n & Hn & Hm).
    exists t, scheme, n. split; [done|]. split; [by apply list_elem_of_In|].
    apply orb_true_iff in Hm as [Hm|Hm]; [|by right].
    apply bool_decide_eq_true in Hm. by left.
  - intros (t & scheme & n & Hs & Hn & Hm). exists (t, scheme). split.
    + by apply list_elem_of_In, elem_of_map_to_list.
    + simpl. apply existsb_exists. exists n.
      split; [by apply list_elem_of_In|].
      apply orb_true_iff. destruct Hm as [Hm|Hm]; [|by right].
      left. by apply bool_decide_eq_true.
Qed.

(** C8, as amended. A pattern made of a non-empty prefix and a final '*'
    matches exactly the networks that begin with the prefix and are longer
    than it; the pattern "*" alone and the patterns that do not end in '*'
    match nothing; [SupportsNetwork] holds exactly when a registered scheme
    lists the network itself or a pattern that matches it. *)
Theorem wildcard_match {W} (r : SchemeRegistry W) (p pattern network : string) :
  (p ≠ "" →
   isWildcardMatch (p +:+ "*") network = true
   ↔ (strings.len p < strings.len network)%nat ∧ ∃ t, network = p +:+ t)
  ∧ isWildcardMatch "*" network = false
  ∧ ((¬ ∃ q, pattern = q +:+ "*") → isWildcardMatch pattern network = false)
  ∧ (SupportsNetwork r network = true
     ↔ ∃ t scheme n,
         schemes r !! t = Some scheme ∧ n ∈ SupportedNetworks scheme
         ∧ (n = network ∨ isWildcardMatch n network = true))
  ∧ isWildcardMatch "fam:*" "fam:123" = true
  ∧ isWildcardMatch "fam:*" "fam:abc" = true
  ∧ isWildcardMatch "fam:*" "other:123" = false
  ∧ isWildcardMatch "fam:*" "fam" = false.
Proof.
  split; [apply isWildcardMatch_star|].
  split; [reflexivity|].
  split; [apply isWildcardMatch_no_star|].
  split; [apply SupportsNetwork_iff|].
  repeat split; reflexivity.
Qed.

(** C8 as stated fails at the pattern "*": it ends in '*', its literal
    prefix is empty, the network "x" is longer than that prefix and begins
    with it, and yet there is no match. *)
Lemma bare_star_matches_nothing :
  isWildcardMatch ("" +:+ "*") "x" = false
  ∧ (strings.len "" < strings.len "x")%nat
  ∧ "x" = "" +:+ "x".
Proof. split; [reflexivity|]. split; [simpl; lia|reflexivity]. Qed.

End SchemesProperties.

(** The theorem at the pattern "fam:*" and the network "fam:123". *)
Lemma wildcard_match_witness :
  Schemes.isWildcardMatch ("fam:" +:+ "*") "fam:123" = true.
Proof.
  apply (proj1 (wildcard_match (W:=unit) Schemes.NewSchemeRegistry
                  "fam:" "fam:*" "fam:123")).
  - discriminate.
  - split; [simpl; lia|]. by exists "123".
Defined.

(** ** The idempotency store and the replay of cached responses *)

Section IdempotencyProperties.
Import Idempotency.

Lemma Get_absent s now key :
  records s !! key = None → Get s now key = Some (None, None).
Proof. intros H. unfold Get. by rewrite H. Qed.

Lemma Get_present s now key p record :
  records s !! key = Some p → objects s !! p = Some record →
  Get s now key
  = Some (if decide (ExpiresAt record < now) then None else Some p, None).
Proof.
  intros Hp Hrec. unfold Get, time.After. rewrite Hp, Hrec. simpl.
  case_decide.
  - by rewrite bool_decide_eq_true_2.
  - by rewrite bool_decide_eq_false_2.
Qed.

Section middleware.
Import AIFirst.
Context {A : Type}.
Variable Marshal : json.value → string.
Variable FormatRFC3339 : Z → string.
Variable TimeString : Z → string.
Variable Sum256 : string → list N.

Lemma replay_headers (w : http.ResponseWriter) (m : gmap string string) :
  let w' := map_fold (λ k v w, http.SetHeader k v w) w m in
  http.status w' = http.status w ∧ http.body w' = http.body w
  ∧ http.header w' = m ∪ http.header w.
Proof.
  simpl.
  apply (map_fold_weak_ind
           (λ (w' : http.ResponseWriter) (m : gmap string string),
              http.status w' = http.status w ∧ http.body w' = http.body w
              ∧ http.header w' = m ∪ http.header w)).
  - split; [done|]. split; [done|]. by rewrite map_empty_union.
  - intros k v m' w' Hfresh (Hs & Hb & Hh). simpl.
    split; [done|]. split; [done|].
    rewrite Hh. by rewrite insert_union_l.
Qed.

Lemma replay_shape (w : http.ResponseWriter) (record : IdempotencyRecord) :
  http.status w = None →
  http.status (replay w record) = Some (StatusCode record)
  ∧ http.body (replay w record) = http.body w +:+ Body record
  ∧ http.header (replay w record)
    = <["X-Idempotent-Replay" := "true"]> (Headers record ∪ http.header w).
Proof.
  intros Hw. unfold replay.
  destruct (replay_headers w (Headers record)) as (Hs & Hb & Hh).
  simpl in Hs, Hb, Hh.
  set (w1 := map_fold (λ k v w, http.SetHeader k v w) w (Headers record))
    in *.
  clearbody w1. rewrite Hw in Hs.
  unfold http.Write, http.WriteHeader, http.SetHeader. simpl.
  rewrite Hs. simpl. rewrite Hb, Hh. done.
Qed.

(** C3, as amended. [Get] returns the record kept under a key exactly when
    the current time is not after its expiry ([now ≤ expiresAt]) and nothing
    otherwise. When idempotency is enabled and a request carries a key whose
    record has not expired, the middleware answers with the status code and
    the body of the record and with its headers (X-Idempotent-Replay being
    set to "true"), whatever the next handler is: the handler is not run and
    the world is left as it was. A response stored after the handler ran is
    kept under the key of the request with the recorded status, headers and
    body. *)
Theorem idempotent_replay :
  (∀ s now key,
     records s !! key = None → Get s now key = Some (None, None))
  ∧ (∀ s now key p record,
       records s !! key = Some p → objects s !! p = Some record →
       (Get s now key = Some (Some p, None) ↔ now ≤ ExpiresAt record)
       ∧ (Get s now key = Some (None, None) ↔ ExpiresAt record < now))
  ∧ (∀ (next next' : http.Handler (World A)) config st w r p record,
       let key := http.Get (http.ReqHeader r) "Idempotency-Key" in
       EnableIdempotency config = true → IdempotencyStore config = true →
       key ≠ "" →
       records (idempotencyStore st) !! key = Some p →
       objects (idempotencyStore st) !! p = Some record →
       clock st ≤ ExpiresAt record →
       http.status w = None →
       ∃ w',
         AIFirstMiddleware Marshal FormatRFC3339 TimeString Sum256
           next config st w r = Some (st, w')
         ∧ AIFirstMiddleware Marshal FormatRFC3339 TimeString Sum256
             next' config st w r = Some (st, w')
         ∧ http.status w' = Some (StatusCode record)
         ∧ http.body w' = http.body w +:+ Body record
         ∧ http.header w' !! "X-Idempotent-Replay" = Some "true"
         ∧ ∀ h v, Headers record !! h = Some v →
                  h ≠ "X-Idempotent-Replay" →
                  http.header w' !! h = Some v)
  ∧ (∀ config (st : World A) wrapped r,
       let key := http.Get (http.ReqHeader r) "Idempotency-Key" in
       let ttl := if decide (IdempotencyTTL config = 0) then 24 * time.Hour
                  else IdempotencyTTL config in
       EnableIdempotency config = true → IdempotencyStore config = true →
       key ≠ "" →
       ∃ st' p record,
         storeIdempotency config st wrapped r = Some st'
         ∧ clock st' = clock st
         ∧ records (idempotencyStore st') !! key = Some p
         ∧ objects (idempotencyStore st') !! p = Some record
         ∧ StatusCode record = statusCode wrapped
         ∧ Headers record = http.header (ResponseWriter wrapped)
         ∧ Body record = body wrapped
         ∧ (clock st + ttl ≠ 0 → ExpiresAt record = clock st + ttl)).
Proof.
  split; [apply Get_absent|]. split; [|split].
  - intros s now key p record Hp Hrec.
    rewrite (Get_present _ now _ _ _ Hp Hrec).
    case_decide; split; split; intros H'; try done; try lia; congruence.
  - intros next next' config st w r p record key Hen Hst Hkey Hp Hrec Hexp Hw.
    eexists. unfold AIFirstMiddleware. rewrite Hen, Hst. simpl.
    fold key. rewrite bool_decide_eq_false_2 by done. simpl.
    rewrite (Get_present _ (clock st) _ _ _ Hp Hrec).
    rewrite decide_False by lia. simpl. rewrite Hrec. simpl.
    split; [reflexivity|]. split; [reflexivity|].
    match goal with
    | |- context [replay ?w0 record] =>
        destruct (replay_shape w0 record) as (Hs & Hb & Hh); [done|]
    end.
    split; [done|]. split; [done|]. rewrite Hh.
    split; [apply lookup_insert_eq|].
    intros h v Hv Hne. rewrite lookup_insert_ne by done.
    by apply lookup_union_Some_l.
  - intros config st wrapped r key ttl Hen Hst Hkey.
    unfold storeIdempotency. rewrite Hen, Hst. simpl. fold key.
    rewrite bool_decide_eq_false_2 by done. simpl. fold ttl.
    unfold new_record, Set_. simpl. rewrite lookup_insert_eq. simpl.
    do 3 eexists. split; [reflexivity|]. simpl.
    split; [done|]. split; [apply lookup_insert_eq|].
    split; [apply lookup_insert_eq|].
    unfold time.IsZero, time.Add.
    case_bool_decide; simpl; repeat split; done.
Qed.

End middleware.

(** C3 as stated fails at the instant of expiry: a record expiring at 10 is
    still returned at 10, which is not strictly before 10. *)
Lemma record_returned_at_expiry :
  (let '(p, s) :=
     new_record (mkRecord "" 200 ∅ "ok" 0 10) NewInMemoryIdempotencyStore in
   '(s', _) ← Set_ s 3 "k" p;
   record ← lookup_record s' 10 "k";
   Some (ExpiresAt record)) = Some 10
  ∧ ¬ (10 < 10).
Proof. split; [vm_compute; reflexivity|lia]. Qed.

End IdempotencyProperties.

(** The theorem at a record that expires at instant 10, asked for at
    instant 10. *)
Lemma idempotent_replay_witness :
  ∃ w',
    AIFirst.AIFirstMiddleware Samples.marshal Samples.format Samples.format
      Samples.sum256 Samples.ok_handler Samples.ai_config
      Samples.replay_world http.NewRecorder
      (Samples.request "/api/data" {[ "Idempotency-Key" := "k" ]})
    = Some (Samples.replay_world, w')
    ∧ http.status w' = Some 200
    ∧ http.body w' = "ok"
    ∧ http.header w' !! "X-Custom" = Some "value".
Proof.
  destruct (proj1 (proj2 (proj2
              (idempotent_replay (A:=unit) Samples.marshal Samples.format
                 Samples.format Samples.sum256)))
              Samples.ok_handler Samples.ok_handler Samples.ai_config
              Samples.replay_world http.NewRecorder
              (Samples.request "/api/data" {[ "Idempotency-Key" := "k" ]})
              1%positive Samples.cached_record)
    as (w' & Hrun & _ & Hstatus & Hbody & _ & Hheaders).
  - reflexivity.
  - reflexivity.
  - vm_compute. discriminate.
  - vm_compute. reflexivity.
  - vm_compute. reflexivity.
  - vm_compute. discriminate.
  - reflexivity.
  - exists w'. split; [exact Hrun|]. split; [exact Hstatus|].
    split; [exact Hbody|]. apply Hheaders.
    + vm_compute. reflexivity.
    + discriminate.
Defined.

(** * Further properties of the budget store *)

Lemma wrap64_add_l (x y : Z) : wrap64 (wrap64 x + y) = wrap64 (x + y).
Proof.
  unfold wrap64. f_equal.
  replace ((x + 2 ^ 63) `mod` 2 ^ 64 - 2 ^ 63 + y + 2 ^ 63)
    with ((x + 2 ^ 63) `mod` 2 ^ 64 + y) by lia.
  rewrite Zplus_mod_idemp_l. f_equal. lia.
Qed.

Section PreAuthFurther.
Import PreAuth.

(** X1. A deduction followed by a refund of the same amount gives back the
    remaining balance and the spent amount, in 64-bit arithmetic, whatever the
    amount; the request counted by the deduction stays counted. *)
Theorem Deduct_then_Refund (s : InMemoryPreAuthStore) (id : string) (a : Z)
    (p : loc) (b : PreAuthBudget) :
  budgets s !! id = Some p → objects s !! p = Some b →
  is_int64 (Remaining b) → is_int64 (TotalSpent b) →
  a ≤ Remaining b →
  ∃ s1 s2 b2,
    Deduct s id a = Some (s1, None)
    ∧ Refund s1 id a = Some (s2, None)
    ∧ budget_of s2 id = Some b2
    ∧ Remaining b2 = Remaining b
    ∧ TotalSpent b2 = TotalSpent b
    ∧ RequestCount b2 = wrap64 (RequestCount b + 1)
    ∧ budgets s2 = budgets s ∧ byAgent s2 = byAgent s.
Proof.
  intros Hp Hb Hrem Hspent Hle.
  eexists _, _, _.
  split; [by apply (Deduct_sufficient _ _ _ p b)|].
  split.
  { apply (Refund_known _ _ _ p); [exact Hp|apply set_object_lookup]. }
  split; [by apply budget_of_set_object|]. simpl.
  replace (Remaining b - a) with (Remaining b + - a) by lia.
  replace (wrap64 (TotalSpent b + a) - a)
    with (wrap64 (TotalSpent b + a) + - a) by lia.
  rewrite !wrap64_add_l.
  replace (Remaining b + - a + a) with (Remaining b) by lia.
  replace (TotalSpent b + a + - a) with (TotalSpent b) by lia.
  rewrite !wrap64_id by done. done.
Qed.

Lemma Deduct_then_Refund_witness :
  ∃ s id s1 s2 b2,
    created 100 5 = Some (s, id)
    ∧ Deduct s id 60 = Some (s1, None)
    ∧ Refund s1 id 60 = Some (s2, None)
    ∧ budget_of s2 id = Some b2
    ∧ Remaining b2 = 100 ∧ TotalSpent b2 = 0.
Proof.
  destruct (Deduct_then_Refund
              (mkStore
                 {[ 1%positive :=
                      mkBudget generateBudgetID "agent" "0xabc" 100 100
                        "USDC" 5 0 ∅ 0 0 ]}
                 {[ generateBudgetID := 1%positive ]}
                 {[ "agent" := generateBudgetID ]})
              generateBudgetID 60 1%positive
              (mkBudget generateBudgetID "agent" "0xabc" 100 100 "USDC" 5 0
                 ∅ 0 0))
    as (s1 & s2 & b2 & H1 & H2 & H3 & H4 & H5 & _).
  - vm_compute. reflexivity.
  - vm_compute. reflexivity.
  - vm_compute. split; discriminate.
  - vm_compute. split; discriminate.
  - simpl. lia.
  - eexists _, _, s1, s2, b2. split; [vm_compute; reflexivity|].
    split; [exact H1|]. split; [exact H2|]. split; [exact H3|].
    split; [exact H4|exact H5].
Defined.

(** X2. [Refund] fails only on an unknown identifier, and then changes nothing;
    on a known one it always succeeds, whatever the amount: it adds the amount
    to the remaining balance and takes it from the spent amount without
    comparing it to either, and leaves the request count, the total and the two
    indexes alone. *)
Theorem Refund_spec (s : InMemoryPreAuthStore) (id : string) (a : Z) :
  (budgets s !! id = None →
   Refund s id a = Some (s, Some "budget not found"))
  ∧ (∀ p b, budgets s !! id = Some p → objects s !! p = Some b →
       ∃ s' b',
         Refund s id a = Some (s', None)
         ∧ budget_of s' id = Some b'
         ∧ Remaining b' = wrap64 (Remaining b + a)
         ∧ TotalSpent b' = wrap64 (TotalSpent b - a)
         ∧ RequestCount b' = RequestCount b
         ∧ TotalBudget b' = TotalBudget b
         ∧ budgets s' = budgets s ∧ byAgent s' = byAgent s
         ∧ (is_int64 (Remaining b + a) → TotalBudget b < Remaining b + a →
            TotalBudget b' < Remaining b')).
Proof.
  split.
  - intros H. unfold Refund. by rewrite H.
  - intros p b Hp Hb. eexists _, _.
    split; [by apply (Refund_known _ _ _ p b)|].
    split; [by apply budget_of_set_object|]. simpl.
    repeat split; try done.
    intros Hint Hlt. by rewrite wrap64_id.
Qed.

Lemma Refund_spec_witness :
  Refund NewInMemoryPreAuthStore "missing" 5
  = Some (NewInMemoryPreAuthStore, Some "budget not found").
Proof.
  apply (proj1 (Refund_spec NewInMemoryPreAuthStore "missing" 5)).
  vm_compute. reflexivity.
Defined.

(** X3. What [Create] stores can be fetched both ways: by the identifier of the
    budget and, when it names an agent, by the agent; the stored budget has its
    remaining balance set to its total, whatever the caller had put there, and
    an identifier supplied by the caller is kept. *)
Theorem Create_then_Get (s : InMemoryPreAuthStore) (now : Z) (p : loc)
    (b : PreAuthBudget) :
  objects s !! p = Some b →
  let id := if decide (ID b = "") then generateBudgetID else ID b in
  ∃ s' b',
    Create s now p = Some (s', None)
    ∧ Get s' id = (Some p, None)
    ∧ objects s' !! p = Some b'
    ∧ ID b' = id ∧ Remaining b' = TotalBudget b ∧ CreatedAt b' = now
    ∧ TotalBudget b' = TotalBudget b ∧ TotalSpent b' = TotalSpent b
    ∧ (AgentID b ≠ "" → GetByAgentID s' (AgentID b) = (Some p, None))
    ∧ (AgentID b = "" → byAgent s' = byAgent s).
Proof.
  intros Hb id. unfold Create. rewrite Hb. simpl.
  eexists _, _. split; [reflexivity|]. fold id.
  assert (ID (if decide (ID b = "") then with_ID generateBudgetID b else b)
          = id) as Hid by (subst id; by case_decide).
  assert (AgentID (if decide (ID b = "") then with_ID generateBudgetID b
                   else b) = AgentID b) as Hag by (by case_decide).
  simpl. rewrite Hid, Hag.
  split. { unfold Get. simpl. by rewrite lookup_insert_eq. }
  split; [apply lookup_insert_eq|]. simpl.
  split; [done|]. split; [by case_decide|]. split; [done|].
  split; [by case_decide|]. split; [by case_decide|]. split.
  - intros Hne. unfold GetByAgentID. simpl. rewrite decide_False by done.
    rewrite lookup_insert_eq. by rewrite lookup_insert_eq.
  - intros Heq. by rewrite decide_True.
Qed.

Lemma Create_then_Get_witness :
  ∃ s' b',
    Create (allocated 100).2 5 (allocated 100).1 = Some (s', None)
    ∧ Get s' generateBudgetID = (Some (allocated 100).1, None)
    ∧ objects s' !! (allocated 100).1 = Some b'
    ∧ ID b' = generateBudgetID ∧ Remaining b' = 100.
Proof.
  destruct (Create_then_Get (allocated 100).2 5 (allocated 100).1
              (budget_literal "" "agent" 100))
    as (s' & b' & H1 & H2 & H3 & H4 & H5 & _).
  - vm_compute. reflexivity.
  - exists s', b'. repeat split; assumption.
Defined.

(** X4. [Delete] takes the budget out of both indexes: afterwards neither its
    identifier nor its agent finds it, while every other identifier finds what
    it found before. Deleting an identifier that is not there succeeds and
    changes no lookup. *)
Theorem Delete_spec (s : InMemoryPreAuthStore) (id : string) :
  (∀ p b, budgets s !! id = Some p → objects s !! p = Some b →
     ∃ s', Delete s id = Some (s', None)
           ∧ Get s' id = (None, Some "budget not found")
           ∧ (AgentID b ≠ "" →
              GetByAgentID s' (AgentID b) = (None, Some "no budget for agent"))
           ∧ (∀ id', id' ≠ id → Get s' id' = Get s id')
           ∧ objects s' = objects s)
  ∧ (budgets s !! id = None →
     ∃ s', Delete s id = Some (s', None)
           ∧ (∀ id', Get s' id' = Get s id')
           ∧ byAgent s' = byAgent s ∧ objects s' = objects s).
Proof.
  split.
  - intros p b Hp Hb. unfold Delete. rewrite Hp, Hb. simpl.
    eexists. split; [reflexivity|]. split.
    { unfold Get. simpl. by rewrite lookup_delete_eq. }
    split.
    { intros Hne. unfold GetByAgentID. simpl. rewrite decide_False by done.
      by rewrite lookup_delete_eq. }
    split; [|done].
    intros id' Hne. unfold Get. simpl. by rewrite lookup_delete_ne.
  - intros Hnone. unfold Delete. rewrite Hnone.
    eexists. split; [reflexivity|]. split; [|done].
    intros id'. unfold Get. simpl.
    destruct (decide (id' = id)) as [->|Hne].
    + by rewrite lookup_delete_eq, Hnone.
    + by rewrite lookup_delete_ne.
Qed.

Lemma Delete_spec_witness :
  ∃ s', Delete NewInMemoryPreAuthStore "missing" = Some (s', None)
        ∧ (∀ id', Get s' id' = Get NewInMemoryPreAuthStore id')
        ∧ byAgent s' = byAgent NewInMemoryPreAuthStore
        ∧ objects s' = objects NewInMemoryPreAuthStore.
Proof.
  apply (proj2 (Delete_spec NewInMemoryPreAuthStore "missing")).
  vm_compute. reflexivity.
Defined.

(** X5. A deduction made through one identifier changes one budget object: an
    identifier that points to another object finds its budget as it was, and an
    identifier that points to the same object finds the deduction. *)
Theorem Deduct_touches_one_object (s : InMemoryPreAuthStore) (id id' : string)
    (a : Z) (p p' : loc) (s' : InMemoryPreAuthStore) :
  budgets s !! id = Some p → budgets s !! id' = Some p' →
  Deduct s id a = Some (s', None) →
  (p' ≠ p → budget_of s' id' = budget_of s id')
  ∧ (p' = p → budget_of s' id' = budget_of s' id).
Proof.
  intros Hp Hp' Hded. unfold Deduct in Hded. rewrite Hp in Hded.
  destruct (objects s !! p) as [b|] eqn:Hb; simpl in Hded; [|done].
  case_decide; [done|]. injection Hded as <-.
  unfold budget_of. simpl. rewrite Hp, Hp'. simpl. split.
  - intros Hne. by rewrite lookup_insert_ne.
  - intros ->. done.
Qed.

Lemma Deduct_touches_one_object_witness :
  ∃ s', Deduct Inputs.two_budgets "a" 60 = Some (s', None)
        ∧ budget_of s' "b" = budget_of Inputs.two_budgets "b".
Proof.
  eexists. split; [vm_compute; reflexivity|].
  match goal with
  | |- budget_of ?s' _ = _ =>
      apply (proj1 (Deduct_touches_one_object Inputs.two_budgets "a" "b" 60
                      1%positive 2%positive s'
                      ltac:(vm_compute; reflexivity)
                      ltac:(vm_compute; reflexivity)
                      ltac:(vm_compute; reflexivity)))
  end.
  discriminate.
Defined.

(** X6. The agent index can outlive its budget. When a second budget is created
    under the identifier of a first one but for another agent, and that
    identifier is then deleted, the first agent still has an index entry and
    [GetByAgentID] answers it with neither a budget nor an error. *)
Theorem GetByAgentID_stale_entry (s : InMemoryPreAuthStore) (now1 now2 : Z)
    (p1 p2 : loc) (b1 b2 : PreAuthBudget) :
  p1 ≠ p2 →
  objects s !! p1 = Some b1 → objects s !! p2 = Some b2 →
  ID b1 ≠ "" → ID b2 = ID b1 →
  AgentID b1 ≠ "" → AgentID b2 ≠ "" → AgentID b2 ≠ AgentID b1 →
  ∃ s1 s2 s3,
    Create s now1 p1 = Some (s1, None)
    ∧ Create s1 now2 p2 = Some (s2, None)
    ∧ Delete s2 (ID b1) = Some (s3, None)
    ∧ GetByAgentID s3 (AgentID b1) = (None, None).
Proof.
  intros Hne Hb1 Hb2 Hid1 Hid2 Ha1 Ha2 Hdiff.
  unfold Create at 1. rewrite Hb1. simpl.
  rewrite (decide_False (P := ID b1 = "")) by done. simpl.
  rewrite (decide_False (P := AgentID b1 = "")) by done.
  eexists _, _, _. split; [reflexivity|].
  unfold Create. simpl. rewrite lookup_insert_ne by done. rewrite Hb2. simpl.
  rewrite (decide_False (P := ID b2 = "")) by congruence. simpl.
  rewrite (decide_False (P := AgentID b2 = "")) by done.
  split; [reflexivity|].
  unfold Delete. simpl. rewrite Hid2, lookup_insert_eq. simpl.
  rewrite lookup_insert_eq. simpl.
  rewrite (decide_False (P := AgentID b2 = "")) by done.
  split; [reflexivity|].
  unfold GetByAgentID. simpl.
  rewrite delete_insert_eq. rewrite lookup_delete_ne by done.
  rewrite lookup_insert_eq. by rewrite lookup_delete_eq.
Qed.

Lemma GetByAgentID_stale_entry_witness :
  ∃ s1 s2 s3,
    Create Inputs.same_id_objects 1 1%positive = Some (s1, None)
    ∧ Create s1 2 2%positive = Some (s2, None)
    ∧ Delete s2 "x" = Some (s3, None)
    ∧ GetByAgentID s3 "alice" = (None, None).
Proof.
  apply (GetByAgentID_stale_entry Inputs.same_id_objects 1 2 1%positive
           2%positive (budget_literal "x" "alice" 100)
           (budget_literal "x" "bob" 7)).
  - discriminate.
  - vm_compute. reflexivity.
  - vm_compute. reflexivity.
  - discriminate.
  - reflexivity.
  - discriminate.
  - discriminate.
  - discriminate.
Defined.

End PreAuthFurther.

(** * Further properties of the idempotency store *)

Section IdempotencyFurther.
Import Idempotency.

(** X7. What [Set] stores under a key is what [Get] returns for that key until
    the expiry of the record, and nothing after it; a record given without an
    expiry expires 24 hours after the call. The record keeps its status,
    headers and body and takes the key and the time of the call. *)
Theorem Set_then_Get (s : InMemoryIdempotencyStore) (now : Z) (key : string)
    (p : loc) (r : IdempotencyRecord) :
  objects s !! p = Some r →
  let expiry := if decide (ExpiresAt r = 0) then now + 24 * time.Hour
                else ExpiresAt r in
  ∃ s' r',
    Set_ s now key p = Some (s', None)
    ∧ objects s' !! p = Some r'
    ∧ Key r' = key ∧ CreatedAt r' = now ∧ ExpiresAt r' = expiry
    ∧ StatusCode r' = StatusCode r ∧ Headers r' = Headers r
    ∧ Body r' = Body r
    ∧ ∀ t, (t ≤ expiry → Get s' t key = Some (Some p, None))
           ∧ (expiry < t → Get s' t key = Some (None, None)).
Proof.
  intros Hr expiry. unfold Set_. rewrite Hr. simpl.
  eexists _, _. split; [reflexivity|]. simpl.
  split; [apply lookup_insert_eq|].
  assert (ExpiresAt
            (if time.IsZero (ExpiresAt r)
             then with_ExpiresAt (time.Add now (24 * time.Hour))
                    (with_CreatedAt now (with_Key key r))
             else with_CreatedAt now (with_Key key r)) = expiry) as Hexp.
  { subst expiry. unfold time.IsZero, time.Add.
    case_decide; [by rewrite bool_decide_eq_true_2|].
    by rewrite bool_decide_eq_false_2. }
  split; [by destruct (time.IsZero _)|].
  split; [by destruct (time.IsZero _)|].
  split; [done|].
  split; [by destruct (time.IsZero _)|].
  split; [by destruct (time.IsZero _)|].
  split; [by destruct (time.IsZero _)|].
  intros t. unfold Get, time.After. simpl.
  rewrite !lookup_insert_eq. simpl. rewrite Hexp. split; intros Ht.
  - by rewrite bool_decide_eq_false_2 by lia.
  - by rewrite bool_decide_eq_true_2.
Qed.

Lemma Set_then_Get_witness :
  ∃ s' r',
    Set_ (new_record (mkRecord "" 200 ∅ "ok" 0 0)
            NewInMemoryIdempotencyStore).2 3 "k" 1%positive
    = Some (s', None)
    ∧ objects s' !! 1%positive = Some r'
    ∧ Key r' = "k" ∧ CreatedAt r' = 3 ∧ ExpiresAt r' = 3 + 24 * time.Hour.
Proof.
  destruct (Set_then_Get
              (new_record (mkRecord "" 200 ∅ "ok" 0 0)
                 NewInMemoryIdempotencyStore).2 3 "k" 1%positive
              (mkRecord "" 200 ∅ "ok" 0 0))
    as (s' & r' & H1 & H2 & H3 & H4 & H5 & _).
  - vm_compute. reflexivity.
  - exists s', r'. repeat split; assumption.
Defined.

End IdempotencyFurther.

(** * A first request and its replay *)

Lemma str_app_assoc (a b c : string) : (a +:+ b) +:+ c = a +:+ (b +:+ c).
Proof.
  induction a as [|x a IH]; [done|]. rewrite !app_cons. by rewrite IH.
Qed.

Section ReplayFurther.
Import Idempotency AIFirst.




Lemma record_fold (acts : list http.action) (rc : aiResponseRecorder) :
  foldl record rc acts
  = mkRecorder (foldl http.perform (ResponseWriter rc) acts)
      (Calls.lastStatus (statusCode rc) acts)
      (body rc +:+ Calls.written acts).
Proof.
  revert rc. induction acts as [|a acts IH]; intros rc; simpl.
  { rewrite app_empty_r. by destruct rc. }
  rewrite IH. destruct a; simpl; try done. by rewrite str_app_assoc.
Qed.


Section middleware.
Context {A : Type}.
Variable Marshal : json.value → string.
Variable FormatRFC3339 : Z → string.
Variable TimeString : Z → string.
Variable Sum256 : string → list N.



End middleware.

End ReplayFurther.


(** * Further properties of metering *)

Section MeteringFurther.
Import Metering.

(** X9. Whatever the number of metrics recorded into a new store, the store
    holds the last ones, in the order they came, up to its capacity: all of
    them while they fit, never more than the capacity; a capacity that is not
    positive stands for 100000. *)
Theorem metering_capacity (c : Z) (cur : string) (ms : list UsageMetric) :
  let capacity := if decide (c ≤ 0) then 100000 else c in
  ∃ s, record_all (NewInMemoryMeteringStore c cur) ms = Some s
       ∧ maxSize s = capacity
       ∧ metrics s = drop (length ms - Z.to_nat capacity) ms
       ∧ Z.of_nat (length (metrics s)) = Z.min (Z.of_nat (length ms)) capacity
       ∧ (Z.of_nat (length ms) ≤ capacity → metrics s = ms).
Proof.
  intros capacity.
  assert (0 < capacity) as Hpos by (subst capacity; case_decide; lia).
  destruct (record_all_last (NewInMemoryMeteringStore c cur) ms)
    as (s & Hrun & Hmax & Hmet).
  { unfold NewInMemoryMeteringStore. simpl. by fold capacity. }
  { unfold NewInMemoryMeteringStore. simpl. fold capacity. lia. }
  unfold NewInMemoryMeteringStore in Hmax, Hmet. simpl in Hmax, Hmet.
  fold capacity in Hmax, Hmet.
  exists s. split; [done|]. split; [done|]. split; [done|]. split.
  - rewrite Hmet, length_drop. lia.
  - intros Hle. rewrite Hmet.
    replace (length ms - Z.to_nat capacity)%nat with 0%nat by lia. done.
Qed.

End MeteringFurther.

Section MeteringGateFurther.
Import MeteringGate.
Context {A : Type}.
Variable matchesAgentPattern : string → bool.

Lemma metering_record_fold (acts : list http.action) (rr : responseRecorder) :
  foldl record rr acts
  = mkRecorder (foldl http.perform (ResponseWriter rr) acts)
      (Calls.lastStatus (statusCode rr) acts).
Proof.
  revert rr. induction acts as [|a acts IH]; intros rr; simpl.
  { by destruct rr. }
  rewrite IH. by destruct a.
Qed.

(** X10. The metering middleware leaves the response to the handler and, when
    it has a store, appends one metric after the handler returns: the path and
    method of the request, the configured price (whatever the response), and as
    response code the last status the handler passed to [WriteHeader], 200 if
    it passed none. A store that is full loses its oldest metric. Without a
    store the middleware is the handler. *)
Theorem MeteringMiddleware_records (next : http.Handler (Metered A))
    (config : MeteringConfig) (st : Metered A) (w : http.ResponseWriter)
    (r : http.Request) :
  let handled := next st w r in
  let kept :=
    if decide (Metering.maxSize (metering handled.1)
               ≤ Z.of_nat (length (Metering.metrics (metering handled.1))))
    then drop 1 (Metering.metrics (metering handled.1))
    else Metering.metrics (metering handled.1) in
  (Store config = false →
   MeteringMiddleware matchesAgentPattern next config st w r
   = Some (http.ServeHTTP next st w r))
  ∧ (Store config = true →
     0 < Metering.maxSize (metering handled.1) →
     ∃ store1 metric,
       MeteringMiddleware matchesAgentPattern next config st w r
       = Some (mkMetered (world handled.1) store1,
               (http.ServeHTTP next st w r).2)
       ∧ Metering.metrics store1 = kept ++ [metric]
       ∧ Metering.maxSize store1 = Metering.maxSize (metering handled.1)
       ∧ Metering.Endpoint metric = http.Path r
       ∧ Metering.Method metric = http.Method r
       ∧ Metering.Timestamp metric = clock (world st)
       ∧ Metering.AmountPaid metric = PricePerRequest config
       ∧ Metering.ResponseCode metric = Calls.lastStatus 200 handled.2
       ∧ Metering.PayerID metric = extractPayerID r).
Proof.
  intros handled kept. unfold MeteringMiddleware, http.ServeHTTP.
  subst kept. fold handled. destruct handled as [st1 acts]. simpl.
  rewrite metering_record_fold. simpl. split.
  - intros ->. done.
  - intros -> Hpos. unfold Metering.RecordRequest.
    case_decide as Hfull.
    + destruct (Metering.metrics (metering st1)) as [|m0 rest] eqn:Hm.
      { simpl in Hfull. lia. }
      simpl. eexists _, _. split; [reflexivity|]. simpl. done.
    + simpl. eexists _, _. split; [reflexivity|]. simpl. done.
Qed.

End MeteringGateFurther.

Lemma MeteringMiddleware_records_witness :
  ∃ store1 metric,
    MeteringGate.MeteringMiddleware (λ _, false) Inputs.not_found_handler
      (MeteringGate.mkConfig true "USDC" 100) Inputs.metered_world
      http.NewRecorder (Samples.request "/api/data" ∅)
    = Some (MeteringGate.mkMetered Samples.world0 store1,
            (http.ServeHTTP Inputs.not_found_handler Inputs.metered_world
               http.NewRecorder (Samples.request "/api/data" ∅)).2)
    ∧ Metering.metrics store1 = [metric]
    ∧ Metering.AmountPaid metric = 100
    ∧ Metering.ResponseCode metric = 404.
Proof.
  destruct (proj2 (MeteringMiddleware_records (A:=unit) (λ _, false)
                     Inputs.not_found_handler
                     (MeteringGate.mkConfig true "USDC" 100)
                     Inputs.metered_world http.NewRecorder
                     (Samples.request "/api/data" ∅)))
    as (store1 & metric & H1 & H2 & _ & _ & _ & _ & H3 & H4 & _).
  - reflexivity.
  - vm_compute. reflexivity.
  - exists store1, metric. split; [exact H1|]. split; [exact H2|].
    split; [exact H3|exact H4].
Defined.

Section AgentFurther.
Import MeteringGate Agent.

(** X11. The payer recorded for a request is its X-Payer-Address header if
    there is one, else its session identifier marked "session:", else its API
    key marked "key:"; an API key longer than 8 bytes is cut to its first 8
    bytes followed by "...", so the recorded payer never holds more of it. *)
Theorem extractPayerID_spec (r : http.Request) :
  let payer := http.Get (http.ReqHeader r) "X-Payer-Address" in
  let session := http.Get (http.ReqHeader r) "X-Session-ID" in
  let apiKey := http.Get (http.ReqHeader r) "X-API-Key" in
  (payer ≠ "" → extractPayerID r = payer)
  ∧ (payer = "" → session ≠ "" →
     extractPayerID r = "session:" +:+ session)
  ∧ (payer = "" → session = "" → apiKey ≠ "" →
     (strings.len apiKey ≤ 8)%nat → extractPayerID r = "key:" +:+ apiKey)
  ∧ (payer = "" → session = "" → (8 < strings.len apiKey)%nat →
     ∃ shown hidden,
       apiKey = shown +:+ hidden ∧ strings.len shown = 8%nat
       ∧ hidden ≠ ""
       ∧ extractPayerID r = "key:" +:+ shown +:+ "...")
  ∧ (payer = "" → session = "" → apiKey = "" → extractPayerID r = "").
Proof.
  intros payer session apiKey. unfold extractPayerID.
  fold payer. fold session. fold apiKey.
  split; [|split; [|split; [|split]]].
  - intros H. by rewrite bool_decide_eq_false_2.
  - intros -> H. simpl. by rewrite bool_decide_eq_false_2.
  - intros -> -> Hk Hlen. simpl. rewrite bool_decide_eq_false_2 by done.
    simpl. by rewrite bool_decide_eq_false_2 by lia.
  - intros -> -> Hlen. simpl.
    assert (apiKey ≠ "") as Hk
      by (intros E; rewrite E in Hlen; simpl in Hlen; lia).
    rewrite bool_decide_eq_false_2 by done. simpl.
    rewrite bool_decide_eq_true_2 by done.
    exists (strings.slice apiKey 0 8),
           (String.substring 8 (String.length apiKey - 8) apiKey).
    unfold strings.slice, strings.len in *. rewrite Nat.sub_0_r.
    pose proof (substring_split apiKey 8 ltac:(lia)) as Hsplit.
    split; [by rewrite Hsplit|].
    assert (String.length (String.substring 0 8 apiKey) = 8%nat) as Hlen8.
    { clear Hsplit Hk. revert Hlen. generalize 8%nat as n.
      induction apiKey as [|c k IH]; intros n Hn; [simpl in Hn; lia|].
      destruct n as [|n]; [done|]. simpl. rewrite IH; [done|]. simpl in Hn.
      lia. }
    split; [done|]. split; [|done].
    intros Hempty. rewrite Hempty, app_empty_r in Hsplit.
    rewrite Hsplit in Hlen8. lia.
  - intros -> -> ->. done.
Qed.

Lemma extractPayerID_spec_witness :
  ∃ shown hidden,
    "sk_live_1234567890" = shown +:+ hidden ∧ strings.len shown = 8%nat
    ∧ hidden ≠ ""
    ∧ extractPayerID
        (Samples.request "/api/data" {[ "X-API-Key" := "sk_live_1234567890" ]})
      = "key:" +:+ shown +:+ "...".
Proof.
  destruct (proj1 (proj2 (proj2 (proj2
              (extractPayerID_spec
                 (Samples.request "/api/data"
                    {[ "X-API-Key" := "sk_live_1234567890" ]}))))))
    as (shown & hidden & H1 & H2 & H3 & H4).
  - vm_compute. reflexivity.
  - vm_compute. reflexivity.
  - vm_compute. lia.
  - exists shown, hidden. split; [exact H1|]. split; [exact H2|].
    split; [exact H3|exact H4].
Defined.

(** X12. A discount between 1 and 100 percent takes that share of the base
    price, rounded down, off the price: the result lies between 0 and the base
    price and is 0 at 100 percent; a discount outside 1..100 changes nothing;
    the batch size never changes the price. *)
Theorem calculateBatchPrice_spec (basePrice batchSize batchSize' d : Z) :
  calculateBatchPrice basePrice batchSize d
  = calculateBatchPrice basePrice batchSize' d
  ∧ (d ≤ 0 ∨ 100 < d → calculateBatchPrice basePrice batchSize d = basePrice)
  ∧ (0 < d ≤ 100 → 0 ≤ basePrice → basePrice * 100 ≤ max_int64 →
     calculateBatchPrice basePrice batchSize d
     = basePrice - basePrice * d / 100
     ∧ 0 ≤ calculateBatchPrice basePrice batchSize d ≤ basePrice
     ∧ (d = 100 → calculateBatchPrice basePrice batchSize d = 0)).
Proof.
  split; [done|]. split.
  - intros H. unfold calculateBatchPrice. by rewrite decide_True.
  - intros Hd Hb Hmax. unfold calculateBatchPrice.
    rewrite decide_False by lia. unfold max_int64 in Hmax.
    assert (0 ≤ basePrice * d ≤ basePrice * 100) as Hprod by nia.
    rewrite (wrap64_id (basePrice * d))
      by (unfold is_int64, min_int64, max_int64; lia).
    rewrite Z.quot_div_nonneg by lia.
    assert (0 ≤ basePrice * d / 100 ≤ basePrice) as Hq.
    { split; [apply Z.div_pos; lia|].
      apply Z.div_le_upper_bound; lia. }
    rewrite wrap64_id by (unfold is_int64, min_int64, max_int64; lia).
    split; [done|]. split; [lia|].
    intros ->. rewrite Z.div_mul by done. lia.
Qed.

Lemma calculateBatchPrice_spec_witness :
  calculateBatchPrice 1000 5 10 = 1000 - 1000 * 10 / 100
  ∧ 0 ≤ calculateBatchPrice 1000 5 10 ≤ 1000
  ∧ (10 = 100 → calculateBatchPrice 1000 5 10 = 0).
Proof.
  apply (proj2 (proj2 (calculateBatchPrice_spec 1000 5 5 10))).
  - lia.
  - lia.
  - vm_compute. discriminate.
Defined.

End AgentFurther.

(** * Further properties of sessions *)

Section SessionFurther.
Import Session.

(** X13. [CreateSession] stores the session under its identifier, the one the
    caller gave or, when that is empty, "sess_" and the hexadecimal digits of
    the random bytes; it marks the session active whatever the caller had set
    and leaves its used-request count as given. [GetSession] then finds it, and
    no longer does once [DeleteSession] has run. *)
Theorem CreateSession_then_Get (s : InMemorySessionStore) (now : Z)
    (random : list N) (p : loc) (x : Session) :
  objects s !! p = Some x →
  let id := if decide (ID x = "") then generateSessionID random else ID x in
  ∃ s' x',
    CreateSession s now random p = Some (s', None)
    ∧ GetSession s' id = (Some p, None)
    ∧ objects s' !! p = Some x'
    ∧ ID x' = id ∧ Active x' = true ∧ CreatedAt x' = now
    ∧ UsedRequests x' = UsedRequests x ∧ MaxRequests x' = MaxRequests x
    ∧ ExpiresAt x' = ExpiresAt x
    ∧ GetSession (DeleteSession s' id).1 id
      = (None, Some "session not found").
Proof.
  intros Hx id. unfold CreateSession. rewrite Hx. simpl.
  eexists _, _. split; [reflexivity|].
  assert (ID (if decide (ID x = "") then with_ID (generateSessionID random) x
              else x) = id) as Hid by (subst id; by case_decide).
  simpl. rewrite Hid.
  split. { unfold GetSession. simpl. by rewrite lookup_insert_eq. }
  split; [apply lookup_insert_eq|]. simpl.
  split; [done|]. split; [done|]. split; [done|].
  split; [by case_decide|]. split; [by case_decide|].
  split; [by case_decide|].
  unfold GetSession, DeleteSession. simpl. by rewrite lookup_delete_eq.
Qed.

Lemma CreateSession_then_Get_witness :
  ∃ s' x',
    CreateSession
      (new_session Samples.exhausted_session NewInMemorySessionStore).2 7
      (replicate 16 0%N) 1%positive = Some (s', None)
    ∧ GetSession s' "sess_1" = (Some 1%positive, None)
    ∧ objects s' !! 1%positive = Some x'
    ∧ ID x' = "sess_1" ∧ Active x' = true ∧ CreatedAt x' = 7.
Proof.
  destruct (CreateSession_then_Get
              (new_session Samples.exhausted_session
                 NewInMemorySessionStore).2 7 (replicate 16 0%N) 1%positive
              Samples.exhausted_session)
    as (s' & x' & H1 & H2 & H3 & H4 & H5 & H6 & _).
  - vm_compute. reflexivity.
  - exists s', x'. repeat split; assumption.
Defined.

End SessionFurther.

Section SweepFurther.
Import Session SessionSweep.

(** X14. [CleanExpired] removes from the index exactly the sessions whose
    expiry is before the current time: a session that expires now or later
    stays under its identifier (the one the validation still accepts at that
    time), every other one is gone, and nothing is added; the session objects
    are not touched. *)
Theorem CleanExpired_spec (s : InMemorySessionStore) (now : Z) :
  map_Forall (λ _ p, is_Some (objects s !! p)) (sessions s) →
  ∃ s',
    CleanExpired s now = Some (s', None)
    ∧ objects s' = objects s
    ∧ (∀ id p, sessions s' !! id = Some p → sessions s !! id = Some p)
    ∧ (∀ id p x,
         sessions s !! id = Some p → objects s !! p = Some x →
         (ExpiresAt x < now → sessions s' !! id = None)
         ∧ (now ≤ ExpiresAt x → sessions s' !! id = Some p)).
Proof.
  intros Hall. unfold CleanExpired. rewrite bool_decide_eq_true_2 by done.
  eexists. split; [reflexivity|]. simpl. split; [done|]. split.
  - intros id p Hp. by apply map_lookup_filter_Some in Hp as [Hp _].
  - intros id p x Hp Hx. unfold time.Before. split; intros Ht.
    + apply map_lookup_filter_None. right. intros p' Hp'. simpl.
      assert (p' = p) as -> by congruence. rewrite Hx. simpl.
      rewrite bool_decide_eq_true_2 by done. by intros H.
    + apply map_lookup_filter_Some. split; [done|]. simpl. rewrite Hx. simpl.
      rewrite bool_decide_eq_false_2 by lia. done.
Qed.

Lemma CleanExpired_spec_witness :
  ∃ s',
    CleanExpired (sessionStore Samples.session_world) 100 = Some (s', None)
    ∧ sessions s' !! "sess_1" = Some 1%positive.
Proof.
  destruct (CleanExpired_spec (sessionStore Samples.session_world) 100)
    as (s' & H1 & _ & _ & H2).
  - unfold Samples.session_world. simpl. apply map_Forall_singleton.
    vm_compute. eauto.
  - exists s'. split; [exact H1|].
    apply (proj2 (H2 "sess_1" 1%positive Samples.exhausted_session
                    ltac:(vm_compute; reflexivity)
                    ltac:(vm_compute; reflexivity))).
    vm_compute. discriminate.
Defined.

End SweepFurther.

(** * Requests served under a session *)

Section SessionRunsFurther.
Import Session SessionGate SessionSweep.

Lemma validateSession_exhausted (x : Session) (now : Z) (path : string) :
  Active x = true → now ≤ ExpiresAt x →
  SessionType x = SessionTypeRequests → MaxRequests x ≤ UsedRequests x →
  validateSession x now path = Some "session request limit exceeded".
Proof.
  intros Hact Hexp Hty Hmax. unfold validateSession, time.After.
  rewrite Hact. simpl. rewrite bool_decide_eq_false_2 by lia.
  rewrite !bool_decide_eq_true_2 by done. done.
Qed.

Lemma validateSession_admits (x : Session) (now : Z) (path : string) :
  Active x = true → now ≤ ExpiresAt x →
  SessionType x = SessionTypeRequests → UsedRequests x < MaxRequests x →
  (AllowedEndpoints x = []
   ∨ ∃ e, e ∈ AllowedEndpoints x
          ∧ (path = e ∨ matchesPattern path e = true)) →
  validateSession x now path = None.
Proof.
  intros Hact Hexp Hty Hlt Hend. unfold validateSession, time.After.
  rewrite Hact. simpl. rewrite bool_decide_eq_false_2 by lia.
  rewrite (bool_decide_eq_false_2 (MaxRequests x ≤ UsedRequests x)) by lia.
  rewrite andb_false_r.
  destruct Hend as [->|(e & Hin & He)]; [done|].
  destruct (AllowedEndpoints x) as [|e0 es] eqn:Hes;
    [by apply elem_of_nil in Hin|].
  rewrite bool_decide_eq_true_2 by (simpl; lia).
  assert (existsb (λ endpoint, bool_decide (path = endpoint)
                               || matchesPattern path endpoint) (e0 :: es)
          = true) as ->; [|done].
  apply existsb_exists. exists e. split; [by apply list_elem_of_In|].
  apply orb_true_iff. destruct He as [->|He]; [left|by right].
  by apply bool_decide_eq_true.
Qed.

Section middleware.
Context {A : Type}.
Variable Marshal : json.value → string.
Variable FormatRFC3339 : Z → string.
Variable RoundedDurationString : Z → string.

(** The request-bounded case: the count is raised before the handler runs. *)
Lemma counted_request (next : http.Handler (World A))
    (st : World A) (w : http.ResponseWriter) (r : http.Request) (p : loc)
    (x : Session) :
  let id := http.Get (http.ReqHeader r) "X-Session-ID" in
  id ≠ "" →
  sessions (sessionStore st) !! id = Some p →
  objects (sessionStore st) !! p = Some x →
  validateSession x (clock st) (http.Path r) = None →
  SessionType x = SessionTypeRequests →
  ∃ store1,
    SessionMiddleware Marshal FormatRFC3339 RoundedDurationString next st w r
    = Some (http.ServeHTTP next (with_sessionStore store1 st)
              (http.SetHeader "X-Session-Expires"
                 (FormatRFC3339 (ExpiresAt x))
                 (http.SetHeader "X-Session-Remaining"
                    (formatInt64
                       (wrap64 (MaxRequests x
                                - wrap64 (UsedRequests x + 1)))
                     +:+ " requests") w)) r)
    ∧ objects store1
      = <[p := with_UsedRequests (wrap64 (UsedRequests x + 1)) x]>
          (objects (sessionStore st))
    ∧ sessions store1 !! id = Some p.
Proof.
  intros id Hid Hp Hx Hval Hty. unfold SessionMiddleware. fold id.
  rewrite decide_False by done.
  unfold GetSession. rewrite Hp. simpl. rewrite Hx. simpl. rewrite Hval.
  rewrite decide_True by done. unfold UpdateSession. simpl.
  rewrite lookup_insert_eq. simpl.
  destruct (sessions (sessionStore st) !! ID x) as [q|] eqn:Hq; simpl.
  - rewrite lookup_insert_eq. simpl.
    unfold formatSessionRemaining. simpl. rewrite decide_True by done.
    eexists. split; [reflexivity|]. simpl. split; [done|].
    destruct (decide (ID x = id)) as [->|Hne].
    + apply lookup_insert_eq.
    + by rewrite lookup_insert_ne.
  - rewrite lookup_insert_eq. simpl.
    unfold formatSessionRemaining. simpl. rewrite decide_True by done.
    eexists. split; [reflexivity|]. simpl. done.
Qed.

(** X15. A request whose session passes the validation goes to the handler with
    the headers X-Session-Remaining and X-Session-Expires set. For a
    request-bounded session the stored session has one more used request when
    the handler starts, and the header gives what is left after it; for the
    other kinds the store is as it was. *)
Theorem SessionMiddleware_admits (next : http.Handler (World A))
    (st : World A) (w : http.ResponseWriter) (r : http.Request) (p : loc)
    (x : Session) :
  let id := http.Get (http.ReqHeader r) "X-Session-ID" in
  id ≠ "" →
  sessions (sessionStore st) !! id = Some p →
  objects (sessionStore st) !! p = Some x →
  validateSession x (clock st) (http.Path r) = None →
  (SessionType x = SessionTypeRequests →
   ∃ store1,
     SessionMiddleware Marshal FormatRFC3339 RoundedDurationString next st w r
     = Some (http.ServeHTTP next (with_sessionStore store1 st)
               (http.SetHeader "X-Session-Expires"
                  (FormatRFC3339 (ExpiresAt x))
                  (http.SetHeader "X-Session-Remaining"
                     (formatInt64
                        (wrap64 (MaxRequests x
                                 - wrap64 (UsedRequests x + 1)))
                      +:+ " requests") w)) r)
     ∧ objects store1
       = <[p := with_UsedRequests (wrap64 (UsedRequests x + 1)) x]>
           (objects (sessionStore st))
     ∧ sessions store1 !! id = Some p)
  ∧ (SessionType x ≠ SessionTypeRequests →
     SessionMiddleware Marshal FormatRFC3339 RoundedDurationString next st w r
     = Some (http.ServeHTTP next (with_sessionStore (sessionStore st) st)
               (http.SetHeader "X-Session-Expires"
                  (FormatRFC3339 (ExpiresAt x))
                  (http.SetHeader "X-Session-Remaining"
                     (formatSessionRemaining RoundedDurationString
                        (clock st) x) w)) r)).
Proof.
  intros id Hid Hp Hx Hval. split.
  - intros Hty. by apply counted_request.
  - intros Hty. unfold SessionMiddleware. fold id.
    rewrite decide_False by done.
    unfold GetSession. rewrite Hp. simpl. rewrite Hx. simpl. rewrite Hval.
    rewrite decide_False by done. simpl. rewrite Hx. simpl. done.
Qed.

(** X16. A request-bounded session admits exactly the requests it has left.
    With a handler that leaves the session store and the clock alone, each of
    the first [max - used] requests is served and raises the used count by one;
    when the count has reached the maximum, the next request is answered with
    the error "session request limit exceeded" and changes nothing. *)
Theorem session_limit_enforced (next : http.Handler (World A)) (j : nat) :
  (∀ st w r, sessionStore (next st w r).1 = sessionStore st
             ∧ clock (next st w r).1 = clock st) →
  ∀ (st : World A) (r : http.Request) (p : loc) (x : Session),
    let id := http.Get (http.ReqHeader r) "X-Session-ID" in
    id ≠ "" →
    sessions (sessionStore st) !! id = Some p →
    objects (sessionStore st) !! p = Some x →
    SessionType x = SessionTypeRequests → Active x = true →
    clock st ≤ ExpiresAt x →
    (AllowedEndpoints x = []
     ∨ ∃ e, e ∈ AllowedEndpoints x
            ∧ (http.Path r = e ∨ matchesPattern (http.Path r) e = true)) →
    0 ≤ UsedRequests x → MaxRequests x ≤ max_int64 →
    Z.of_nat j ≤ MaxRequests x - UsedRequests x →
    ∃ st_j,
      serve_times Marshal FormatRFC3339 RoundedDurationString j next st r
      = Some st_j
      ∧ sessions (sessionStore st_j) !! id = Some p
      ∧ objects (sessionStore st_j) !! p
        = Some (with_UsedRequests (UsedRequests x + Z.of_nat j) x)
      ∧ (Z.of_nat j = MaxRequests x - UsedRequests x →
         SessionMiddleware Marshal FormatRFC3339 RoundedDurationString next
           st_j http.NewRecorder r
         = Some (st_j,
                 sendSessionError Marshal http.NewRecorder "session_error"
                   "session request limit exceeded")).
Proof.
  intros Hpassive. induction j as [|j IH];
    intros st r p x id Hid Hp Hx Hty Hact Hexp Hend Hused Hmax Hj.
  - exists st. split; [done|]. split; [done|].
    assert (with_UsedRequests (UsedRequests x + Z.of_nat 0) x = x) as ->.
    { destruct x. unfold with_UsedRequests. simpl. f_equal. lia. }
    split; [done|]. intros Heq.
    unfold SessionMiddleware. fold id. rewrite decide_False by done.
    unfold GetSession. rewrite Hp. simpl. rewrite Hx. simpl.
    rewrite validateSession_exhausted; try done. lia.
  - unfold max_int64 in Hmax.
    destruct (counted_request next st http.NewRecorder r p x Hid Hp Hx
                ltac:(apply validateSession_admits; try done; lia) Hty)
      as (store1 & Hrun & Hobj & Hses).
    simpl. fold id in Hrun. rewrite Hrun.
    unfold http.ServeHTTP.
    match goal with
    | |- context [next ?s ?w r] =>
        destruct (Hpassive s w r) as [Hs Hc];
        destruct (next s w r) as [st' acts] eqn:Hnext
    end.
    simpl in Hs, Hc |- *.
    rewrite wrap64_id in Hobj
      by (unfold is_int64, min_int64, max_int64; lia).
    destruct (IH st' r p (with_UsedRequests (UsedRequests x + 1) x))
      as (st_j & Hserve & Hsj & Hoj & Hlast); simpl; try done.
    + by rewrite Hs.
    + rewrite Hs, Hobj. apply lookup_insert_eq.
    + lia.
    + lia.
    + lia.
    + exists st_j. split; [done|]. split; [done|]. split.
      * rewrite Hoj. simpl. unfold with_UsedRequests. simpl. f_equal.
        f_equal. lia.
      * intros Heq. apply Hlast. simpl. lia.
Qed.

End middleware.
End SessionRunsFurther.

(** The theorems at a session with two requests left. *)
Lemma SessionMiddleware_admits_witness :
  ∃ store1,
    SessionGate.SessionMiddleware Samples.marshal Samples.format
      Samples.format Samples.ok_handler Samples.fresh_session_world
      http.NewRecorder
      (Samples.request "/api/data" {[ "X-Session-ID" := "sess_2" ]})
    = Some (http.ServeHTTP Samples.ok_handler
              (with_sessionStore store1 Samples.fresh_session_world)
              (http.SetHeader "X-Session-Expires" (Samples.format 100)
                 (http.SetHeader "X-Session-Remaining" "1 requests"
                    http.NewRecorder))
              (Samples.request "/api/data" {[ "X-Session-ID" := "sess_2" ]}))
    ∧ Session.sessions store1 !! "sess_2" = Some 1%positive.
Proof.
  destruct (SessionMiddleware_admits (A:=unit) Samples.marshal
                     Samples.format Samples.format Samples.ok_handler
                     Samples.fresh_session_world http.NewRecorder
                     (Samples.request "/api/data"
                        {[ "X-Session-ID" := "sess_2" ]})
                     1%positive Samples.fresh_session)
    as [Hadmit _].
  - vm_compute. discriminate.
  - vm_compute. reflexivity.
  - vm_compute. reflexivity.
  - vm_compute. reflexivity.
  - destruct (Hadmit eq_refl) as (store1 & Hrun & _ & Hses).
    exists store1. split; [exact Hrun|exact Hses].
Defined.

Lemma session_limit_enforced_witness :
  ∃ st_j,
    SessionSweep.serve_times Samples.marshal Samples.format Samples.format 2
      Samples.ok_handler Samples.fresh_session_world
      (Samples.request "/api/data" {[ "X-Session-ID" := "sess_2" ]})
    = Some st_j
    ∧ SessionGate.SessionMiddleware Samples.marshal Samples.format
        Samples.format Samples.ok_handler st_j http.NewRecorder
        (Samples.request "/api/data" {[ "X-Session-ID" := "sess_2" ]})
      = Some (st_j,
              SessionGate.sendSessionError Samples.marshal http.NewRecorder
                "session_error" "session request limit exceeded").
Proof.
  destruct (session_limit_enforced (A:=unit) Samples.marshal Samples.format
              Samples.format Samples.ok_handler 2
              ltac:(intros st w r; split; reflexivity)
              Samples.fresh_session_world
              (Samples.request "/api/data" {[ "X-Session-ID" := "sess_2" ]})
              1%positive Samples.fresh_session)
    as (st_j & Hserve & _ & _ & Hlast).
  - vm_compute. discriminate.
  - vm_compute. reflexivity.
  - vm_compute. reflexivity.
  - reflexivity.
  - reflexivity.
  - vm_compute. discriminate.
  - left. reflexivity.
  - vm_compute. discriminate.
  - vm_compute. discriminate.
  - vm_compute. discriminate.
  - exists st_j. split; [exact Hserve|]. apply Hlast. reflexivity.
Defined.

(** * Session identifiers *)

Section IdentifierFurther.
Import Session.
Local Open Scope N_scope.

Lemma hex_digit_inj (n m : N) :
  n < 16 → m < 16 → hex.digit n = hex.digit m → n = m.
Proof.
  intros Hn Hm.
  destruct n as [|n]; [|do 4 (try (destruct n as [n|n|]); try lia)];
    (destruct m as [|m]; [|do 4 (try (destruct m as [m|m|]); try lia)]);
    vm_compute; intros H; first [reflexivity | discriminate H].
Qed.

Lemma hex_byte_inj (v w : N) :
  v < 256 → w < 256 →
  hex.digit (N.shiftr v 4) = hex.digit (N.shiftr w 4) →
  hex.digit (N.land v 15) = hex.digit (N.land w 15) →
  v = w.
Proof.
  intros Hv Hw Hhi Hlo.
  change 15 with (N.ones 4) in Hlo. rewrite !N.land_ones in Hlo.
  rewrite !N.shiftr_div_pow2 in Hhi. change (2 ^ 4) with 16 in *.
  apply hex_digit_inj in Hhi;
    [|apply N.Div0.div_lt_upper_bound; lia
     |apply N.Div0.div_lt_upper_bound; lia].
  apply hex_digit_inj in Hlo; [|apply N.mod_lt; lia|apply N.mod_lt; lia].
  rewrite (N.div_mod v 16), (N.div_mod w 16) by lia. by rewrite Hhi, Hlo.
Qed.

Lemma hex_EncodeToString_inj (l1 l2 : list N) :
  Forall (λ v, v < 256) l1 → Forall (λ v, v < 256) l2 →
  hex.EncodeToString l1 = hex.EncodeToString l2 → l1 = l2.
Proof.
  intros H1. revert l2.
  induction H1 as [|v l1 Hv H1 IH]; intros l2 H2 Heq.
  - by destruct l2.
  - destruct H2 as [|w l2 Hw H2]; [done|]. simpl in Heq.
    injection Heq as Hhi Hlo Hrest.
    f_equal; [by apply hex_byte_inj|by apply IH].
Qed.

Lemma hex_EncodeToString_len (l : list N) :
  strings.len (hex.EncodeToString l) = (2 * length l)%nat.
Proof.
  induction l as [|v l IH]; [done|]. simpl in *. rewrite IH. lia.
Qed.

(** X17. Session identifiers tell the random bytes apart: two sequences of
    bytes give the same identifier only if they are the same sequence, and 16
    bytes give an identifier of 37 bytes. *)
Theorem generateSessionID_injective (r1 r2 : list N) :
  Forall (λ v, v < 256) r1 → Forall (λ v, v < 256) r2 →
  (generateSessionID r1 = generateSessionID r2 → r1 = r2)
  ∧ strings.len (generateSessionID r1) = (5 + 2 * length r1)%nat.
Proof.
  intros H1 H2. unfold generateSessionID. split.
  - intros Heq. apply (inj (String.app "sess_")) in Heq.
    by apply hex_EncodeToString_inj.
  - rewrite len_app, hex_EncodeToString_len. done.
Qed.

Lemma generateSessionID_injective_witness :
  (generateSessionID [1; 2] = generateSessionID [1; 2] → [1; 2] = [1; 2])
  ∧ strings.len (generateSessionID [1; 2]) = (5 + 2 * 2)%nat.
Proof.
  apply (generateSessionID_injective [1; 2] [1; 2]).
  - repeat constructor.
  - repeat constructor.
Defined.

End IdentifierFurther.

(** * Further properties of the payment gate *)

Section GateFurther.
Import Protocol Gate.

Lemma TrimPrefix_app (prefix t : string) :
  strings.TrimPrefix (prefix +:+ t) prefix = t.
Proof.
  unfold strings.TrimPrefix.
  rewrite (proj2 (HasPrefix_iff _ _)) by (by exists t).
  unfold strings.slice. rewrite len_app. unfold strings.len.
  replace (String.length prefix + String.length t - String.length prefix)%nat
    with (String.length t) by lia.
  rewrite substring_app_r. apply substring_0_all.
Qed.

(** The token of an Authorization header is what follows the first accepted
    method that begins it, the method being followed by a space. *)
Lemma authorizationToken_spec (authHeader : string) (methods : list string) :
  (∀ t, authorizationToken authHeader methods = Some t →
        ∃ m, m ∈ methods ∧ authHeader = m +:+ " " +:+ t)
  ∧ (authorizationToken authHeader methods = None →
     ∀ m t, m ∈ methods → authHeader ≠ m +:+ " " +:+ t).
Proof.
  induction methods as [|m0 methods [IH1 IH2]]; simpl.
  { split; [done|]. intros _ m t Hin. by apply elem_of_nil in Hin. }
  destruct (strings.HasPrefix authHeader (m0 +:+ " ")) eqn:Hpre.
  - split; [|done]. intros t Ht. injection Ht as <-.
    apply HasPrefix_iff in Hpre as [t Ht]. exists m0.
    split; [left|]. rewrite Ht. rewrite TrimPrefix_app.
    by rewrite str_app_assoc.
  - split.
    + intros t Ht. destruct (IH1 t Ht) as (m & Hin & Hm).
      exists m. split; [by right|done].
    + intros Hnone m t Hin. apply elem_of_cons in Hin as [->|Hin].
      * intros Heq. apply not_true_iff_false in Hpre. apply Hpre.
        apply HasPrefix_iff. exists t. by rewrite str_app_assoc.
      * by apply IH2.
Qed.

(** X18. The payment proof of a request is the first source that applies, in
    the order PAYMENT-SIGNATURE, X-PAYMENT, Authorization, X-Payment-Token,
    query parameter. The two protocol headers count when they are not empty. An
    Authorization header counts as soon as it begins with an accepted method
    and a space: what follows is the token even when it is empty, and the later
    sources are then not read. *)
Theorem extractPaymentToken_precedence (r : http.Request)
    (methods : list string) :
  let sig := http.Get (http.ReqHeader r) "PAYMENT-SIGNATURE" in
  let xpay := http.Get (http.ReqHeader r) "X-PAYMENT" in
  let auth := http.Get (http.ReqHeader r) "Authorization" in
  let tok := http.Get (http.ReqHeader r) "X-Payment-Token" in
  let query := default "" (http.Query r !! "payment_token") in
  (sig ≠ "" → extractPaymentToken r methods = sig)
  ∧ (sig = "" → xpay ≠ "" → extractPaymentToken r methods = xpay)
  ∧ (sig = "" → xpay = "" →
     ∀ m t, m ∈ methods → auth = m +:+ " " +:+ t →
            ∃ m' t', m' ∈ methods ∧ auth = m' +:+ " " +:+ t'
                     ∧ extractPaymentToken r methods = t')
  ∧ (sig = "" → xpay = "" → methods = [] ∨ auth = "" →
     tok ≠ "" → extractPaymentToken r methods = tok)
  ∧ (sig = "" → xpay = "" →
     (∀ m t, m ∈ methods → auth ≠ m +:+ " " +:+ t) →
     extractPaymentToken r methods = if decide (tok = "") then query else tok).
Proof.
  intros sig xpay auth tok query. unfold extractPaymentToken.
  fold sig. fold xpay. fold auth. fold tok. fold query.
  destruct (authorizationToken_spec auth methods) as [Hsome Hnone].
  split; [|split; [|split; [|split]]].
  - intros H. by rewrite bool_decide_eq_false_2.
  - intros -> H. simpl. by rewrite bool_decide_eq_false_2.
  - intros -> -> m t Hin Hauth. simpl.
    assert (auth ≠ "") as Hne.
    { rewrite Hauth. destruct m; [done|]. by rewrite app_cons. }
    rewrite bool_decide_eq_false_2 by done. simpl.
    destruct (authorizationToken auth methods) as [t'|] eqn:Ht.
    + destruct (Hsome t' eq_refl) as (m' & Hin' & Hm'). by exists m', t'.
    + exfalso. by apply (Hnone eq_refl m t).
  - intros -> -> Hor Htok. simpl.
    assert ((if negb (bool_decide (auth = ""))
             then authorizationToken auth methods else None) = None) as ->.
    { destruct Hor as [->| ->]; [|done]. simpl. by destruct (negb _). }
    by rewrite bool_decide_eq_false_2.
  - intros -> -> Hno. simpl.
    assert ((if negb (bool_decide (auth = ""))
             then authorizationToken auth methods else None) = None) as ->.
    { destruct (negb _); [|done].
      destruct (authorizationToken auth methods) as [t|] eqn:Ht; [|done].
      destruct (Hsome t eq_refl) as (m & Hin & Hm). by destruct (Hno m t). }
    case_decide as Ht.
    + by rewrite bool_decide_eq_true_2.
    + by rewrite bool_decide_eq_false_2.
Qed.

Section middleware.
Context {A : Type}.
Variable Marshal : json.value → string.
Variable FormatRFC3339 : Z → string.

(** X19. Away from the exempt paths the single-scheme gate lets a request
    through exactly when it carries a token and the verifier returns valid
    without an error: the handler then runs on the world the verifier left,
    with the headers X-Payment-Verified and X-Payment-Timestamp set. In every
    other case the answer is the 402 of [sendPaymentRequired] and the handler
    does not run. Without a custom verifier the accepted tokens are those that
    begin with "valid_"; with [NewStaticVerifier] they are the listed ones. *)
Theorem Middleware_decision (next : http.Handler (World A))
    (config : Config) (st : World A) (w : http.ResponseWriter)
    (r : http.Request) :
  let cfg := defaultCurrency config in
  let token := extractPaymentToken r (AcceptedMethods cfg) in
  let served := Middleware Marshal FormatRFC3339 next config st w r in
  let accepted st1 :=
    http.ServeHTTP next st1
      (http.SetHeader "X-Payment-Timestamp" (FormatRFC3339 (clock st1))
         (http.SetHeader "X-Payment-Verified" "true" w)) r in
  isExemptPath (http.Path r) (ExemptPaths cfg) = false →
  (token = "" → served = (st, sendPaymentRequired Marshal w cfg r))
  ∧ (token ≠ "" →
     ∀ verifier st1 valid err,
       PaymentVerifier config = Some verifier →
       verifier st token = (st1, (valid, err)) →
       (valid = true ∧ err = None → served = accepted st1)
       ∧ (valid = false ∨ err ≠ None →
          served = (st1, sendPaymentRequired Marshal w cfg r)))
  ∧ (token ≠ "" → PaymentVerifier config = None →
     ((∃ t, token = "valid_" +:+ t) → served = accepted st)
     ∧ ((∀ t, token ≠ "valid_" +:+ t) →
        served = (st, sendPaymentRequired Marshal w cfg r)))
  ∧ (token ≠ "" →
     ∀ validTokens,
       PaymentVerifier config
       = Some (Verifiers.NewStaticVerifier validTokens) →
       (token ∈ validTokens → served = accepted st)
       ∧ (token ∉ validTokens →
          served = (st, sendPaymentRequired Marshal w cfg r))).
Proof.
  intros cfg token served accepted Hexempt.
  assert (Hpv : PaymentVerifier cfg = PaymentVerifier config)
    by (unfold cfg, defaultCurrency; by case_decide).
  subst served accepted. unfold Middleware. fold cfg. rewrite Hexempt.
  fold token. split; [|split; [|split]].
  - intros ->. done.
  - intros Htok verifier st1 valid err Hv Hrun.
    rewrite bool_decide_eq_false_2 by done.
    unfold verifyPaymentToken. rewrite Hpv, Hv, Hrun. split.
    + intros [-> ->]. done.
    + intros [->|Herr].
      * by rewrite orb_true_r.
      * by rewrite bool_decide_eq_true_2.
  - intros Htok Hv. rewrite bool_decide_eq_false_2 by done.
    unfold verifyPaymentToken. rewrite Hpv, Hv. split.
    + intros Hpre. apply HasPrefix_iff in Hpre. by rewrite Hpre.
    + intros Hno.
      destruct (strings.HasPrefix token "valid_") eqn:Hpre; [|done].
      apply HasPrefix_iff in Hpre as [t Ht]. by destruct (Hno t).
  - intros Htok validTokens Hv. rewrite bool_decide_eq_false_2 by done.
    unfold verifyPaymentToken. rewrite Hpv, Hv.
    unfold Verifiers.NewStaticVerifier. split.
    + intros Hin. simpl.
      rewrite (bool_decide_eq_true_2
                 (token ∈ (list_to_set validTokens : gset string)))
        by (by apply elem_of_list_to_set).
      done.
    + intros Hout. simpl.
      rewrite (bool_decide_eq_false_2
                 (token ∈ (list_to_set validTokens : gset string)))
        by (intros Hin; by apply elem_of_list_to_set in Hin).
      done.
Qed.

(** X20. The 402 of the single-scheme gate, on a writer that has sent no
    status: status 402, a JSON body naming protocol version 1, one offer and
    the error message, and the same JSON in base64 in the PAYMENT-REQUIRED
    header. The offer asks for the configured price in decimal for the path of
    the request (with its query), to the configured address; a missing scheme,
    network or timeout is replaced by "exact", "base-sepolia" or 60. *)
Theorem sendPaymentRequired_offer (w : http.ResponseWriter)
    (config : @Config A) (r : http.Request) :
  http.status w = None →
  ∃ offer,
    let payload_json :=
      json.JObject
        [("x402Version", json.JNumber 1);
         ("accepts", json.JArray [requirements_json offer]);
         ("error", json.JString "X-PAYMENT header is required")] in
    http.status (sendPaymentRequired Marshal w config r) = Some 402
    ∧ http.body (sendPaymentRequired Marshal w config r)
      = http.body w +:+ (Marshal payload_json
                         +:+ String "010"%char EmptyString)
    ∧ http.header (sendPaymentRequired Marshal w config r)
        !! "PAYMENT-REQUIRED"
      = Some (base64.EncodeToString (Marshal payload_json))
    ∧ MaxAmountRequired offer = pretty (PricePerRequest config)
    ∧ Protocol.PayTo offer = PayTo config
    ∧ Protocol.Resource offer = resourceOf r
    ∧ (Scheme config = "" → Protocol.Scheme offer = "exact")
    ∧ (Network config = "" → Protocol.Network offer = "base-sepolia")
    ∧ (MaxTimeoutSeconds config = 0 → Protocol.MaxTimeoutSeconds offer = 60)
    ∧ (Scheme config ≠ "" → Protocol.Scheme offer = Scheme config)
    ∧ (Network config ≠ "" → Protocol.Network offer = Network config).
Proof.
  intros Hw. unfold sendPaymentRequired. cbv zeta.
  match goal with
  | |- context [send402 _ _ (mkResponse _ [?q] _)] => exists q
  end.
  cbv zeta.
  match goal with
  | |- context [send402 _ _ ?resp] =>
      destruct (send402_shape Marshal w resp Hw) as (H1 & H2 & H3 & _)
  end.
  split; [exact H1|]. split; [exact H2|]. split; [exact H3|].
  repeat split; try done; intros H; simpl;
    first [by rewrite decide_True | by rewrite decide_False].
Qed.

End middleware.

End GateFurther.

(** The theorems at the gate that exempts "/health". *)
Lemma extractPaymentToken_precedence_witness :
  Gate.extractPaymentToken
    (Samples.request "/api/data"
       {[ "X-PAYMENT" := "proof"; "X-Payment-Token" := "legacy" ]})
    ["Bearer"] = "proof".
Proof.
  etransitivity.
  - apply (proj1 (proj2 (extractPaymentToken_precedence
                           (Samples.request "/api/data"
                              {[ "X-PAYMENT" := "proof";
                                 "X-Payment-Token" := "legacy" ]})
                           ["Bearer"]))).
    + vm_compute. reflexivity.
    + vm_compute. discriminate.
  - vm_compute. reflexivity.
Defined.

Lemma Middleware_decision_witness :
  Gate.Middleware Samples.marshal Samples.format Samples.ok_handler
    Samples.gate_config Samples.world0 http.NewRecorder
    (Samples.request "/api/data" ∅)
  = (Samples.world0,
     Gate.sendPaymentRequired Samples.marshal http.NewRecorder
       (Gate.defaultCurrency Samples.gate_config)
       (Samples.request "/api/data" ∅)).
Proof.
  apply (proj1 (Middleware_decision Samples.marshal Samples.format
                  Samples.ok_handler Samples.gate_config Samples.world0
                  http.NewRecorder (Samples.request "/api/data" ∅)
                  eq_refl)).
  reflexivity.
Defined.

Lemma sendPaymentRequired_offer_witness :
  ∃ offer,
    http.status
      (Gate.sendPaymentRequired Samples.marshal http.NewRecorder
         Samples.gate_config (Samples.request "/api/data" ∅)) = Some 402
    ∧ Protocol.MaxAmountRequired offer = "100"
    ∧ Protocol.Resource offer = "/api/data".
Proof.
  destruct (sendPaymentRequired_offer Samples.marshal http.NewRecorder
              Samples.gate_config (Samples.request "/api/data" ∅))
    as (offer & H1 & _ & _ & H2 & _ & H3 & _).
  - reflexivity.
  - exists offer. split; [exact H1|]. split; [exact H2|exact H3].
Defined.

(** * Decimal formatting *)

Section FormatFurther.
Import Session.

Lemma digit_char (m : Z) :
  0 ≤ m < 10 → ascii_of_N (Z.to_N (48 + m)) = pretty_N_char (Z.to_N m).
Proof.
  intros Hm.
  assert (m = 0 ∨ m = 1 ∨ m = 2 ∨ m = 3 ∨ m = 4 ∨ m = 5 ∨ m = 6 ∨ m = 7
          ∨ m = 8 ∨ m = 9) as Hcases by lia.
  destruct_or!; subst m; reflexivity.
Qed.

(** The loop of [formatInt64] run long enough is the digit loop of
    [pretty]. *)
Lemma formatInt64_loop_pretty (fuel : nat) (n : Z) (digits : string) :
  0 ≤ n < 10 ^ Z.of_nat fuel →
  formatInt64_loop fuel n digits = pretty_N_go (Z.to_N n) digits.
Proof.
  revert n digits. induction fuel as [|fuel IH]; intros n digits Hn.
  - simpl in Hn. assert (n = 0) as -> by lia. done.
  - rewrite Nat2Z.inj_succ, Z.pow_succ_r in Hn by lia. simpl.
    case_decide as Hpos.
    + rewrite IH.
      * rewrite (pretty_N_go_step (Z.to_N n)) by lia.
        rewrite Z.quot_div_nonneg, Z.rem_mod_nonneg by lia.
        rewrite Z2N.inj_div by lia.
        rewrite digit_char by (apply Z.mod_pos_bound; lia).
        rewrite Z2N.inj_mod by lia. done.
      * rewrite Z.quot_div_nonneg by lia. split.
        -- apply Z.div_pos; lia.
        -- apply Z.div_lt_upper_bound; lia.
    + assert (n = 0) as -> by lia. done.
Qed.

(** X21. [formatInt64] writes a positive [int64] in decimal, as [fmt] would,
    and writes "0" for zero and for every negative number. *)
Theorem formatInt64_decimal (n : Z) :
  is_int64 n →
  formatInt64 n = if decide (0 < n) then pretty n else "0".
Proof.
  intros [_ Hmax]. unfold max_int64 in Hmax. unfold formatInt64.
  case_decide as Hneg; [by rewrite decide_False by lia|].
  case_decide as Hzero; [by rewrite decide_False by lia|].
  rewrite decide_True by lia.
  rewrite formatInt64_loop_pretty by (simpl; lia).
  destruct n as [|q|q]; [done| |lia].
  reflexivity.
Qed.

Lemma formatInt64_decimal_witness : formatInt64 1205 = "1205".
Proof.
  etransitivity.
  - apply (formatInt64_decimal 1205). unfold is_int64, min_int64, max_int64.
    lia.
  - vm_compute. reflexivity.
Defined.

End FormatFurther.

(** * Further properties of the scheme registry *)

Section RegistryFurther.
Import Schemes.

(** X22. [Register] puts a scheme under its type and leaves the other types
    alone. A scheme registered under that type before is replaced: after the
    call a network is supported exactly when the new scheme lists it (or a
    pattern matching it) or a scheme of another type does. *)
Theorem Register_spec {W} (r : SchemeRegistry W) (s : PaymentScheme W)
    (network : string) :
  Get (Register r s) (Type_ s) = Some s
  ∧ (∀ t, t ≠ Type_ s → Get (Register r s) t = Get r t)
  ∧ (SupportsNetwork (Register r s) network = true
     ↔ (∃ n, n ∈ SupportedNetworks s
             ∧ (n = network ∨ isWildcardMatch n network = true))
       ∨ ∃ t s' n,
           t ≠ Type_ s ∧ Get r t = Some s' ∧ n ∈ SupportedNetworks s'
           ∧ (n = network ∨ isWildcardMatch n network = true)).
Proof.
  unfold Get, Register. simpl. split; [apply lookup_insert_eq|].
  split; [intros t Ht; by rewrite lookup_insert_ne|].
  rewrite SupportsNetwork_iff. simpl. split.
  - intros (t & s' & n & Hs & Hn & Hm).
    destruct (decide (t = Type_ s)) as [->|Hne].
    + rewrite lookup_insert_eq in Hs. injection Hs as <-. left. by exists n.
    + rewrite lookup_insert_ne in Hs by done. right. by exists t, s', n.
  - intros [(n & Hn & Hm)|(t & s' & n & Hne & Hs & Hn & Hm)].
    + exists (Type_ s), s, n. by rewrite lookup_insert_eq.
    + exists t, s', n. by rewrite lookup_insert_ne.
Qed.

Section defaults.
Context {A : Type}.

(** X23. The registry the package starts with holds one scheme,
    [ExactEVMScheme] under "exact". The networks it supports are exactly the
    identifiers made of "eip155:" and a non-empty chain name: the listed
    chains, and every other one through the pattern "eip155:*". *)
Theorem default_registry_networks (network t : string) :
  let registry :=
    Verifiers.RegisterDefaultSchemes (A:=A) NewSchemeRegistry in
  Get registry t
  = (if decide (t = "exact") then Some Verifiers.ExactEVMScheme else None)
  ∧ (SupportsNetwork registry network = true
     ↔ ∃ chain, chain ≠ "" ∧ network = "eip155:" +:+ chain).
Proof.
  intros registry. subst registry.
  unfold Verifiers.RegisterDefaultSchemes, Register, NewSchemeRegistry, Get.
  simpl. rewrite insert_empty. split.
  { case_decide as Ht.
    - subst t. apply lookup_singleton_eq.
    - apply lookup_singleton_ne. done. }
  rewrite SupportsNetwork_iff. simpl. split.
  - intros (t' & s & n & Hs & Hn & Hm).
    apply lookup_singleton_Some in Hs as [_ <-]. simpl in Hn.
    repeat (apply elem_of_cons in Hn as [->|Hn]);
      [..|by apply elem_of_nil in Hn].
    1-6: destruct Hm as [<-|Hm]; [eexists; split; [|reflexivity]; done|];
      by vm_compute in Hm.
    destruct Hm as [<-|Hm]; [exists "*"; done|].
    apply (isWildcardMatch_star "eip155:" network) in Hm as [Hlen [c ->]];
      [|done].
    exists c. split; [|done]. intros ->. simpl in Hlen. lia.
  - intros (chain & Hne & ->).
    exists "exact", Verifiers.ExactEVMScheme, "eip155:*".
    split; [apply lookup_singleton_eq|]. split.
    { simpl. do 6 right. left. }
    right. apply (isWildcardMatch_star "eip155:" _); [done|].
    split; [|by exists chain]. rewrite len_app.
    apply len_pos_nonempty in Hne. simpl. lia.
Qed.

End defaults.

End RegistryFurther.

(** * Further properties of the multi-scheme gate *)

Section MultiSchemeFurther.
Import Protocol Gate.

Lemma bind_length_const {X Y : Type} (f : X → list Y) (l : list X) (k : nat) :
  (∀ x, length (f x) = k) → length (l ≫= f) = (length l * k)%nat.
Proof.
  intros Hf. induction l as [|x l IH]; [done|].
  rewrite bind_cons, length_app, Hf, IH. simpl. lia.
Qed.

Section middleware.
Context {A : Type}.
Variable Marshal : json.value → string.
Variable DecodeStd : string → option string.
Variable DecodeURL : string → option string.
Variable Unmarshal : string → option Schemes.PaymentPayload.
Variable DefaultRegistry : Schemes.SchemeRegistry (World A).

(** X24. The offers of a 402: one for each accepted scheme and each accepted
    network, the schemes defaulting to "exact" and the networks to the network
    of the base configuration. Each offer carries the price, the resource, the
    address configured for its network (the base address when there is none)
    and the facilitator of its network. A configuration that names no network
    at all offers nothing here, and the 402 then carries the single offer
    "exact" on "base-sepolia", whatever schemes are accepted, with the
    description as configured, even empty. *)
Theorem BuildMultiSchemeRequirements_spec (c : @MultiSchemeConfig A)
    (resource : string) :
  let schemes :=
    if decide (AcceptedSchemes c = []) then ["exact"] else AcceptedSchemes c in
  let networks :=
    if decide (AcceptedNetworks c = [] ∧ Network (Base c) ≠ "")
    then [Network (Base c)] else AcceptedNetworks c in
  let offers := BuildMultiSchemeRequirements c resource in
  length offers = (length schemes * length networks)%nat
  ∧ (∀ q,
       q ∈ offers
       ↔ ∃ scheme network,
           scheme ∈ schemes ∧ network ∈ networks
           ∧ q = mkRequirements scheme network
                   (pretty (PricePerRequest (Base c))) resource
                   (if decide (Description (Base c) = "")
                    then defaultDescription (PricePerRequest (Base c))
                           (Currency (Base c))
                    else Description (Base c))
                   ""
                   (default (PayTo (Base c)) (PaymentAddresses c !! network))
                   (if decide (MaxTimeoutSeconds (Base c) = 0) then 60
                    else MaxTimeoutSeconds (Base c))
                   (Asset (Base c)) json.JNull
                   (match FacilitatorURLs c !! network with
                    | Some facilitatorURL =>
                        {[ "facilitatorUrl" := facilitatorURL ]}
                    | None => ∅
                    end))
  ∧ (AcceptedNetworks c = [] → Network (Base c) = "" →
     ∀ w r,
       sendMultiSchemePaymentRequired Marshal w c r
       = send402 Marshal w
           (mkResponse X402Version
              [mkRequirements "exact" "base-sepolia"
                 (pretty (PricePerRequest (Base c))) (resourceOf r)
                 (Description (Base c)) "" (PayTo (Base c)) 60
                 (Asset (Base c)) json.JNull ∅]
              "Payment required - select a supported scheme and network")).
Proof.
  intros schemes networks offers.
  assert (offers
          = scheme ← schemes; network ← networks;
            [mkRequirements scheme network
               (pretty (PricePerRequest (Base c))) resource
               (if decide (Description (Base c) = "")
                then defaultDescription (PricePerRequest (Base c))
                       (Currency (Base c))
                else Description (Base c))
               ""
               (default (PayTo (Base c)) (PaymentAddresses c !! network))
               (if decide (MaxTimeoutSeconds (Base c) = 0) then 60
                else MaxTimeoutSeconds (Base c))
               (Asset (Base c)) json.JNull
               (match FacilitatorURLs c !! network with
                | Some facilitatorURL =>
                    {[ "facilitatorUrl" := facilitatorURL ]}
                | None => ∅
                end)]) as Hoffers.
  { assert ((if decide (length (AcceptedSchemes c) = 0%nat)
             then [Schemes.SchemeExact] else AcceptedSchemes c) = schemes)
      as Hs.
    { subst schemes. destruct (AcceptedSchemes c); done. }
    assert ((if bool_decide (length (AcceptedNetworks c) = 0%nat)
                && negb (bool_decide (Network (Base c) = ""))
             then [Network (Base c)] else AcceptedNetworks c) = networks)
      as Hn.
    { subst networks.
      destruct (AcceptedNetworks c) as [|n ns].
      - destruct (decide (Network (Base c) = "")) as [He|He].
        + rewrite (bool_decide_eq_true_2 (Network (Base c) = "")) by done.
          rewrite andb_false_r.
          rewrite decide_False by (intros [_ H]; done). done.
        + rewrite (bool_decide_eq_false_2 (Network (Base c) = "")) by done.
          rewrite bool_decide_eq_true_2 by done.
          rewrite decide_True by done. done.
      - rewrite bool_decide_eq_false_2 by done.
        rewrite decide_False by (intros [H _]; done). done. }
    subst offers. unfold BuildMultiSchemeRequirements. cbv zeta.
    rewrite Hs, Hn. reflexivity. }
  split; [|split].
  - rewrite Hoffers.
    rewrite (bind_length_const _ schemes (length networks)); [done|].
    intros scheme. rewrite (bind_length_const _ networks 1); [lia|done].
  - intros q. rewrite Hoffers. rewrite list_elem_of_bind. split.
    + intros (scheme & Hq & Hs). apply list_elem_of_bind in Hq as (n & Hq & Hn).
      apply list_elem_of_singleton in Hq. by exists scheme, n.
    + intros (scheme & n & Hs & Hn & ->). exists scheme. split; [|done].
      apply list_elem_of_bind. exists n. split; [|done].
      by apply list_elem_of_singleton.
  - intros Hnil Hnet w r. unfold sendMultiSchemePaymentRequired.
    unfold BuildMultiSchemeRequirements. rewrite Hnil, Hnet. simpl.
    assert (∀ l : list string,
              (l ≫= λ _ : string, @nil PaymentRequirements) = []) as Hempty.
    { intros l. induction l as [|x l IH]; [done|]. by rewrite bind_cons. }
    destruct (decide (length (AcceptedSchemes c) = 0%nat)); simpl;
      rewrite ?Hempty; done.
Qed.

(** X25. A request that carries a payload naming a registered scheme is served
    on that scheme's verdict: a valid result without error sends it to the
    handler, on the world the verification left, with the four X-Payment
    headers set from the payload. [ExactEVMScheme], the scheme registered by
    default, approves every payload: its signature, network and amount are not
    looked at and the world is not changed. [StripeScheme] returns an error for
    every payload, so a request naming it gets the 402. *)
Theorem scheme_verdicts (next : http.Handler (World A))
    (config : MultiSchemeConfig)
    (st : World A) (w : http.ResponseWriter) (r : http.Request)
    (payload : Schemes.PaymentPayload) :
  let cfg := defaultMultiCurrency config in
  let registry := default DefaultRegistry (SchemeRegistry cfg) in
  let token := extractPaymentToken r (AcceptedMethods (Base cfg)) in
  let served :=
    MultiSchemeMiddleware Marshal DecodeStd DecodeURL Unmarshal
      DefaultRegistry next config st w r in
  let admitted (st1 : World A) :=
    Some (http.ServeHTTP next st1
            (http.SetHeader "X-Payment-Timestamp"
               (pretty (Schemes.Timestamp payload))
               (http.SetHeader "X-Payment-Network" (Schemes.Network payload)
                  (http.SetHeader "X-Payment-Scheme" (Schemes.Scheme payload)
                     (http.SetHeader "X-Payment-Verified" "true" w)))) r) in
  isExemptPath (http.Path r) (ExemptPaths (Base cfg)) = false →
  token ≠ "" →
  parsePaymentPayload DecodeStd DecodeURL Unmarshal token
  = (Some payload, None) →
  (∀ scheme st1 result,
     Schemes.Get registry (Schemes.Scheme payload) = Some scheme →
     Schemes.Verify scheme st payload (verificationRequirements cfg payload r)
     = (st1, (Some result, None)) →
     Schemes.Valid result = true →
     served = admitted st1)
  ∧ (Schemes.Get registry (Schemes.Scheme payload)
     = Some Verifiers.ExactEVMScheme →
     served = admitted st)
  ∧ (∀ sandbox,
       Schemes.Get registry (Schemes.Scheme payload)
       = Some (Verifiers.StripeScheme sandbox) →
       served = Some (st, sendMultiSchemePaymentRequired Marshal w cfg r)).
Proof.
  intros cfg registry token served admitted Hexempt Htok Hparse.
  subst served admitted. unfold MultiSchemeMiddleware.
  fold cfg. fold registry. rewrite Hexempt. fold token.
  rewrite bool_decide_eq_false_2 by done. rewrite Hparse. simpl.
  split; [|split].
  - intros scheme st1 result -> Hver Hvalid. rewrite Hver, Hvalid. done.
  - intros ->. done.
  - intros sandbox ->. done.
Qed.

End middleware.

End MultiSchemeFurther.

(** The offers of a configuration with two schemes and two networks. *)
Lemma BuildMultiSchemeRequirements_spec_witness :
  length (Gate.BuildMultiSchemeRequirements Inputs.two_by_two "/api/data")
  = 4%nat.
Proof.
  apply (proj1 (BuildMultiSchemeRequirements_spec Samples.marshal
                  Inputs.two_by_two "/api/data")).
Defined.

(** A request with any payload naming "exact", at the default registry. *)
Lemma scheme_verdicts_witness :
  Gate.MultiSchemeMiddleware Samples.marshal Samples.decode Samples.decode
    Inputs.unmarshal_exact
    (Verifiers.RegisterDefaultSchemes Schemes.NewSchemeRegistry)
    Samples.ok_handler Samples.multi_config Samples.world0 http.NewRecorder
    (Samples.request "/api/data" {[ "X-PAYMENT" := "anything" ]})
  = Some (http.ServeHTTP Samples.ok_handler Samples.world0
            (http.SetHeader "X-Payment-Timestamp" "42"
               (http.SetHeader "X-Payment-Network" "eip155:8453"
                  (http.SetHeader "X-Payment-Scheme" "exact"
                     (http.SetHeader "X-Payment-Verified" "true"
                        http.NewRecorder))))
            (Samples.request "/api/data" {[ "X-PAYMENT" := "anything" ]})).
Proof.
  destruct (scheme_verdicts Samples.marshal Samples.decode Samples.decode
              Inputs.unmarshal_exact
              (Verifiers.RegisterDefaultSchemes Schemes.NewSchemeRegistry)
              Samples.ok_handler Samples.multi_config Samples.world0
              http.NewRecorder
              (Samples.request "/api/data" {[ "X-PAYMENT" := "anything" ]})
              Inputs.exact_payload) as (_ & Hexact & _).
  - vm_compute. reflexivity.
  - vm_compute. discriminate.
  - vm_compute. reflexivity.
  - apply Hexact. vm_compute. reflexivity.
Defined.

(** * Requests paid from a pre-authorized budget *)

Section PreAuthGateFurther.
Import AIFirst.

Section middleware.
Context {A : Type}.
Variable Marshal : json.value → string.
Variable FormatRFC3339 : Z → string.
Variable TimeString : Z → string.
Variable Sum256 : string → list N.

(** X26. A request of an agent that holds a budget, made without an idempotency
    key, is charged the cost of its path. When the budget has less left than
    the cost the answer is a 402 with the code INSUFFICIENT_BUDGET that asks
    for the missing amount: the handler does not run and nothing is deducted.
    Otherwise the cost is deducted before the handler runs, the handler sees
    the request marked X-Payment-Verified, and the response carries what is
    left and what was deducted. *)
Theorem preauth_charge (next : http.Handler (World A)) (config : AIFirstConfig)
    (st : World A) (w : http.ResponseWriter) (r : http.Request)
    (id : string) (p : loc) (b : PreAuth.PreAuthBudget) :
  let agent := http.Get (http.ReqHeader r) "X-Agent-ID" in
  let cost :=
    getCostForPath (http.Path r) (http.Method r) (Endpoints config)
      (DefaultCost config) in
  let requestID := generateRequestID TimeString Sum256 (clock st) r in
  let w0 :=
    http.SetHeader "X-AI-Optimized" "true"
      (http.SetHeader "X-Request-ID" requestID
         (http.SetHeader "Content-Type" "application/json" w)) in
  let served :=
    AIFirstMiddleware Marshal FormatRFC3339 TimeString Sum256 next config st
      w r in
  EnablePreAuth config = true → PreAuthStore config = true →
  http.Get (http.ReqHeader r) "Idempotency-Key" = "" →
  agent ≠ "" →
  PreAuth.byAgent (budgetStore st) !! agent = Some id →
  PreAuth.budgets (budgetStore st) !! id = Some p →
  PreAuth.objects (budgetStore st) !! p = Some b →
  PreAuth.ID b = id →
  (PreAuth.Remaining b < cost →
   ∃ e action,
     served
     = Some (st, sendAIError Marshal FormatRFC3339 w0 requestID (clock st)
                   (clock st) e)
     ∧ Code e = ErrCodeInsufficientBudget
     ∧ PaymentInfo e = Some action
     ∧ Amount action = wrap64 (cost - PreAuth.Remaining b)
     ∧ (http.status w = None →
        http.status (sendAIError Marshal FormatRFC3339 w0 requestID
                       (clock st) (clock st) e) = Some 402))
  ∧ (cost ≤ PreAuth.Remaining b →
     let left := wrap64 (PreAuth.Remaining b - cost) in
     let b' :=
       PreAuth.with_RequestCount (wrap64 (PreAuth.RequestCount b + 1))
         (PreAuth.with_TotalSpent (wrap64 (PreAuth.TotalSpent b + cost))
            (PreAuth.with_Remaining left b)) in
     served
     = Some (http.ServeHTTP next
               (with_budgetStore (PreAuth.set_object p b' (budgetStore st))
                  st)
               (http.SetHeader "X-Budget-Deducted" (pretty cost)
                  (http.SetHeader "X-Budget-Remaining" (pretty left) w0))
               (http.with_ReqHeader
                  (<["X-Payment-Verified" := "true"]> (http.ReqHeader r))
                  r))).
Proof.
  intros agent cost requestID w0 served Hen Hst Hkey Hagent Hby Hbud Hobj
    Hid.
  assert (served
          = checked ← checkPreAuth Marshal FormatRFC3339 config requestID
                        (clock st) st w0 r;
            match checked with
            | inl response => Some response
            | inr (st1, w1, r1) =>
                let wrapped := mkRecorder w1 200 "" in
                let '(st2, acts) := next st1 w1 r1 in
                let wrapped := foldl record wrapped acts in
                st3 ← storeIdempotency config st2 wrapped r1;
                Some (st3, ResponseWriter wrapped)
            end) as ->.
  { subst served. unfold AIFirstMiddleware. rewrite Hkey.
    fold requestID. fold w0.
    by destruct (EnableIdempotency config && IdempotencyStore config). }
  unfold checkPreAuth. rewrite Hen, Hst. simpl. fold agent.
  rewrite bool_decide_eq_false_2 by done. simpl.
  unfold PreAuth.GetByAgentID. rewrite Hby, Hbud. simpl. rewrite Hobj. simpl.
  fold cost. split.
  - intros Hlt. rewrite decide_True by done. simpl.
    eexists _, _. split; [reflexivity|]. simpl.
    split; [done|]. split; [done|]. split; [done|].
    intros Hw. unfold sendAIError, http.Write, http.WriteHeader. simpl.
    rewrite Hw. simpl. done.
  - intros Hle. rewrite decide_False by lia.
    unfold PreAuth.Deduct. rewrite Hid, Hbud. simpl. rewrite Hobj. simpl.
    rewrite decide_False by lia. simpl. rewrite lookup_insert_eq. simpl.
    unfold http.ServeHTTP.
    match goal with
    | |- context [next ?s ?w1 ?r1] =>
        destruct (next s w1 r1) as [st2 acts] eqn:Hnext
    end.
    rewrite record_fold. simpl.
    assert (∀ wrapped,
              storeIdempotency config st2 wrapped
                (http.with_ReqHeader
                   (<["X-Payment-Verified" := "true"]> (http.ReqHeader r)) r)
              = Some st2) as ->; [|done].
    intros wrapped. unfold storeIdempotency. simpl.
    assert (http.Get (<["X-Payment-Verified" := "true"]> (http.ReqHeader r))
              "Idempotency-Key" = "") as ->.
    { unfold http.Get in Hkey |- *. by rewrite lookup_insert_ne. }
    by destruct (EnableIdempotency config && IdempotencyStore config).
Qed.

End middleware.

End PreAuthGateFurther.

(** The agent "bot" with 100 left, charged 30. *)
Lemma preauth_charge_witness :
  AIFirst.AIFirstMiddleware Samples.marshal Samples.format Samples.format
    Samples.sum256 Samples.ok_handler Inputs.preauth_config
    Inputs.budget_world http.NewRecorder
    (Samples.request "/api/data" {[ "X-Agent-ID" := "bot" ]})
  = Some (http.ServeHTTP Samples.ok_handler
            (with_budgetStore
               (PreAuth.set_object 1%positive
                  (PreAuth.mkBudget "b1" "bot" "0xabc" 100 70 "USDC" 0 0 ∅
                     30 1)
                  (budgetStore Inputs.budget_world))
               Inputs.budget_world)
            (http.SetHeader "X-Budget-Deducted" "30"
               (http.SetHeader "X-Budget-Remaining" "70"
                  (http.SetHeader "X-AI-Optimized" "true"
                     (http.SetHeader "X-Request-ID" "req_0000000000000000"
                        (http.SetHeader "Content-Type" "application/json"
                           http.NewRecorder)))))
            (http.with_ReqHeader
               {[ "X-Payment-Verified" := "true"; "X-Agent-ID" := "bot" ]}
               (Samples.request "/api/data" {[ "X-Agent-ID" := "bot" ]}))).
Proof.
  destruct (preauth_charge (A:=unit) Samples.marshal Samples.format
              Samples.format Samples.sum256 Samples.ok_handler
              Inputs.preauth_config Inputs.budget_world http.NewRecorder
              (Samples.request "/api/data" {[ "X-Agent-ID" := "bot" ]})
              "b1" 1%positive
              (PreAuth.with_Remaining 100
                 (PreAuth.budget_literal "b1" "bot" 100)))
    as [_ Hcharged].
  - reflexivity.
  - reflexivity.
  - vm_compute. reflexivity.
  - vm_compute. discriminate.
  - vm_compute. reflexivity.
  - vm_compute. reflexivity.
  - vm_compute. reflexivity.
  - reflexivity.
  - etransitivity.
    + apply Hcharged. vm_compute. discriminate.
    + vm_compute. reflexivity.
Defined.

(** * Requests without a budget, and sessions taken out of the store *)

Section PassThroughFurther.
Import AIFirst.
Context {A : Type}.
Variable Marshal : json.value → string.
Variable FormatRFC3339 : Z → string.
Variable TimeString : Z → string.
Variable Sum256 : string → list N.

(** X27. The budget check of the AI-first middleware turns no request down for
    want of a budget. A request without an idempotency key made when the check
    is off, or without an agent identifier, or by an agent that has no index
    entry, or by one whose entry names a budget that is gone, reaches the
    handler as it came, with the three headers of the middleware on the
    response and nothing deducted. *)
Theorem preauth_without_budget (next : http.Handler (World A))
    (config : AIFirstConfig) (st : World A) (w : http.ResponseWriter)
    (r : http.Request) :
  let agent := http.Get (http.ReqHeader r) "X-Agent-ID" in
  let w0 :=
    http.SetHeader "X-AI-Optimized" "true"
      (http.SetHeader "X-Request-ID"
         (generateRequestID TimeString Sum256 (clock st) r)
         (http.SetHeader "Content-Type" "application/json" w)) in
  http.Get (http.ReqHeader r) "Idempotency-Key" = "" →
  EnablePreAuth config = false ∨ PreAuthStore config = false ∨ agent = ""
  ∨ PreAuth.byAgent (budgetStore st) !! agent = None
  ∨ (∃ id, PreAuth.byAgent (budgetStore st) !! agent = Some id
           ∧ PreAuth.budgets (budgetStore st) !! id = None) →
  AIFirstMiddleware Marshal FormatRFC3339 TimeString Sum256 next config st w r
  = Some (http.ServeHTTP next st w0 r).
Proof.
  intros agent w0 Hkey Hcase.
  assert (checkPreAuth Marshal FormatRFC3339 config
            (generateRequestID TimeString Sum256 (clock st) r) (clock st) st
            w0 r = Some (inr (st, w0, r))) as Hcheck.
  { unfold checkPreAuth. fold agent.
    destruct (EnablePreAuth config) eqn:Hen; [|done].
    destruct (PreAuthStore config) eqn:Hst; [|done]. simpl.
    destruct Hcase as [?|[?|[Hag|[Hnone|(id & Hid & Hnone)]]]]; try done.
    - by rewrite Hag.
    - destruct (negb (bool_decide (agent = ""))); [|done].
      unfold PreAuth.GetByAgentID. by rewrite Hnone.
    - destruct (negb (bool_decide (agent = ""))); [|done].
      unfold PreAuth.GetByAgentID. by rewrite Hid, Hnone. }
  unfold AIFirstMiddleware. rewrite Hkey. fold w0.
  assert ((if EnableIdempotency config && IdempotencyStore config
           then Some None else Some None)
          = Some (@None Idempotency.IdempotencyRecord)) as Hcached
    by (by destruct (_ && _)).
  simpl. rewrite Hcached. simpl. rewrite Hcheck. simpl.
  unfold http.ServeHTTP. destruct (next st w0 r) as [st2 acts].
  rewrite record_fold. simpl.
  unfold storeIdempotency. rewrite Hkey.
  by destruct (EnableIdempotency config && IdempotencyStore config).
Qed.

End PassThroughFurther.

Section RemovedSessionFurther.
Import Session SessionGate SessionSweep.
Context {A : Type}.
Variable Marshal : json.value → string.
Variable FormatRFC3339 : Z → string.
Variable RoundedDurationString : Z → string.

(** X28. A request under an active session that has expired is refused with the
    error "session_error". Once [CleanExpired] has run, or once the session has
    been deleted, the same request is refused as "invalid_session": the store
    no longer knows the identifier. None of the three reaches the handler. *)
Theorem removed_session_rejected (next : http.Handler (World A))
    (st : World A) (w : http.ResponseWriter) (r : http.Request) (p : loc)
    (x : Session) :
  let id := http.Get (http.ReqHeader r) "X-Session-ID" in
  let unknown :=
    sendSessionError Marshal w "invalid_session"
      "Session not found or invalid" in
  id ≠ "" →
  map_Forall (λ _ q, is_Some (objects (sessionStore st) !! q))
    (sessions (sessionStore st)) →
  sessions (sessionStore st) !! id = Some p →
  objects (sessionStore st) !! p = Some x →
  Active x = true → ExpiresAt x < clock st →
  SessionMiddleware Marshal FormatRFC3339 RoundedDurationString next st w r
  = Some (st, sendSessionError Marshal w "session_error"
                "session has expired")
  ∧ (∃ swept,
       CleanExpired (sessionStore st) (clock st) = Some (swept, None)
       ∧ SessionMiddleware Marshal FormatRFC3339 RoundedDurationString next
           (with_sessionStore swept st) w r
         = Some (with_sessionStore swept st, unknown))
  ∧ SessionMiddleware Marshal FormatRFC3339 RoundedDurationString next
      (with_sessionStore (DeleteSession (sessionStore st) id).1 st) w r
    = Some (with_sessionStore (DeleteSession (sessionStore st) id).1 st,
            unknown).
Proof.
  intros id unknown Hid Hall Hp Hx Hact Hexp. split; [|split].
  - unfold SessionMiddleware. fold id. rewrite decide_False by done.
    unfold GetSession. rewrite Hp. simpl. rewrite Hx. simpl.
    unfold validateSession, time.After. rewrite Hact. simpl.
    by rewrite bool_decide_eq_true_2.
  - unfold CleanExpired. rewrite bool_decide_eq_true_2 by done.
    eexists. split; [reflexivity|].
    unfold SessionMiddleware. fold id. rewrite decide_False by done.
    unfold GetSession. simpl.
    assert (filter
              (λ entry : string * loc,
                 (x0 ← objects (sessionStore st) !! entry.2;
                  Some (time.Before (ExpiresAt x0) (clock st))) ≠ Some true)
              (sessions (sessionStore st)) !! id = None) as ->; [|done].
    apply map_lookup_filter_None. right. intros q Hq. simpl.
    assert (q = p) as -> by congruence. rewrite Hx. simpl.
    unfold time.Before. rewrite bool_decide_eq_true_2 by done. by intros H.
  - unfold SessionMiddleware. fold id. rewrite decide_False by done.
    unfold GetSession, DeleteSession. simpl. by rewrite lookup_delete_eq.
Qed.

End RemovedSessionFurther.

(** A request of an agent that no budget is indexed for. *)
Lemma preauth_without_budget_witness :
  AIFirst.AIFirstMiddleware Samples.marshal Samples.format Samples.format
    Samples.sum256 Samples.ok_handler Inputs.preauth_config Samples.world0
    http.NewRecorder
    (Samples.request "/api/data" {[ "X-Agent-ID" := "stranger" ]})
  = Some (http.ServeHTTP Samples.ok_handler Samples.world0
            (http.SetHeader "X-AI-Optimized" "true"
               (http.SetHeader "X-Request-ID" "req_0000000000000000"
                  (http.SetHeader "Content-Type" "application/json"
                     http.NewRecorder)))
            (Samples.request "/api/data" {[ "X-Agent-ID" := "stranger" ]})).
Proof.
  etransitivity.
  - apply (preauth_without_budget (A:=unit) Samples.marshal Samples.format
             Samples.format Samples.sum256 Samples.ok_handler
             Inputs.preauth_config Samples.world0 http.NewRecorder
             (Samples.request "/api/data" {[ "X-Agent-ID" := "stranger" ]})).
    + vm_compute. reflexivity.
    + right. right. right. left. vm_compute. reflexivity.
  - vm_compute. reflexivity.
Defined.

(** The expired session "sess_1" seen at instant 500. *)
Lemma removed_session_rejected_witness :
  SessionGate.SessionMiddleware Samples.marshal Samples.format Samples.format
    Samples.ok_handler Inputs.late_world http.NewRecorder
    (Samples.request "/api/data" {[ "X-Session-ID" := "sess_1" ]})
  = Some (Inputs.late_world,
          SessionGate.sendSessionError Samples.marshal http.NewRecorder
            "session_error" "session has expired").
Proof.
  destruct (removed_session_rejected (A:=unit) Samples.marshal
              Samples.format Samples.format Samples.ok_handler
              Inputs.late_world http.NewRecorder
              (Samples.request "/api/data" {[ "X-Session-ID" := "sess_1" ]})
              1%positive Samples.exhausted_session) as [Hexpired _].
  - vm_compute. discriminate.
  - unfold Inputs.late_world. simpl. apply map_Forall_singleton.
    vm_compute. eauto.
  - vm_compute. reflexivity.
  - vm_compute. reflexivity.
  - reflexivity.
  - vm_compute. reflexivity.
  - exact Hexpired.
Defined.

(** * Forgetting an idempotency key *)

Section ForgetFurther.
Import Idempotency AIFirst.
Context {A : Type}.
Variable Marshal : json.value → string.
Variable FormatRFC3339 : Z → string.
Variable TimeString : Z → string.
Variable Sum256 : string → list N.

(** X29. After [Delete] a key finds nothing, at any time, and the other keys
    find what they found before. So a request that carries a deleted key is not
    replayed, even if the record had not expired: with idempotency on and the
    budget check off the handler runs again and its response is what the client
    gets. *)
Theorem deleted_key_runs_again (next : http.Handler (World A))
    (config : AIFirstConfig) (st : World A) (w : http.ResponseWriter)
    (r : http.Request) (key' : string) (t : Z) :
  let key := http.Get (http.ReqHeader r) "Idempotency-Key" in
  let forgotten := (Delete (idempotencyStore st) key).1 in
  let st' := with_idempotencyStore forgotten st in
  let w0 :=
    http.SetHeader "X-AI-Optimized" "true"
      (http.SetHeader "X-Request-ID"
         (generateRequestID TimeString Sum256 (clock st) r)
         (http.SetHeader "Content-Type" "application/json" w)) in
  EnableIdempotency config = true → IdempotencyStore config = true →
  EnablePreAuth config = false → key ≠ "" →
  Get forgotten t key = Some (None, None)
  ∧ (key' ≠ key → Get forgotten t key' = Get (idempotencyStore st) t key')
  ∧ ∃ st1,
      AIFirstMiddleware Marshal FormatRFC3339 TimeString Sum256 next config
        st' w r
      = Some (st1, (http.ServeHTTP next st' w0 r).2).
Proof.
  intros key forgotten st' w0 Hen Hst Hpre Hkey.
  assert (Get forgotten t key = Some (None, None)) as Hgone.
  { subst forgotten. unfold Delete, Get. simpl. by rewrite lookup_delete_eq. }
  split; [exact Hgone|]. split.
  { intros Hne. subst forgotten. unfold Delete, Get. simpl.
    by rewrite lookup_delete_ne. }
  unfold AIFirstMiddleware. rewrite Hen, Hst. simpl. fold key.
  rewrite bool_decide_eq_false_2 by done. simpl. fold forgotten.
  assert (Get forgotten (clock st) key = Some (None, None)) as ->.
  { subst forgotten. unfold Delete, Get. simpl. by rewrite lookup_delete_eq. }
  simpl. unfold checkPreAuth. rewrite Hpre. simpl. fold w0. fold st'.
  unfold http.ServeHTTP. destruct (next st' w0 r) as [st2 acts].
  rewrite record_fold. simpl.
  unfold storeIdempotency. rewrite Hen, Hst. simpl. fold key.
  rewrite bool_decide_eq_false_2 by done. simpl.
  unfold new_record, Set_. simpl. rewrite lookup_insert_eq. simpl.
  eexists. reflexivity.
Qed.

End ForgetFurther.

(** The cached key "k" deleted before its record expires. *)
Lemma deleted_key_runs_again_witness :
  ∃ st1,
    AIFirst.AIFirstMiddleware Samples.marshal Samples.format Samples.format
      Samples.sum256 Samples.ok_handler Samples.ai_config
      (with_idempotencyStore
         (Idempotency.Delete (idempotencyStore Samples.replay_world) "k").1
         Samples.replay_world)
      http.NewRecorder
      (Samples.request "/api/data" {[ "Idempotency-Key" := "k" ]})
    = Some (st1,
            http.mkWriter
              {[ "X-AI-Optimized" := "true";
                 "X-Request-ID" := "req_0000000000000000";
                 "Content-Type" := "application/json" ]}
              (Some 200) "ok").
Proof.
  destruct (deleted_key_runs_again (A:=unit) Samples.marshal Samples.format
              Samples.format Samples.sum256 Samples.ok_handler
              Samples.ai_config Samples.replay_world http.NewRecorder
              (Samples.request "/api/data" {[ "Idempotency-Key" := "k" ]})
              "other" 5) as (_ & _ & st1 & Hrun).
  - reflexivity.
  - reflexivity.
  - reflexivity.
  - vm_compute. discriminate.
  - exists st1. etransitivity; [exact Hrun|]. f_equal.
Defined.
